(* ===================================================================== *)
(*  WDK wallet IPC: length-prefixed framing, JSON-RPC dispatch in the     *)
(*  worklet, and the Swift client that talks to it.                       *)
(*                                                                        *)
(*  Sources embedded:                                                     *)
(*    pear-wrk-wdk-jsonrpc/src/wdk-worklet.js    framing, dispatcher      *)
(*    pear-wrk-wdk-jsonrpc/src/rpc-handlers.js   session handlers, the    *)
(*                                               account and sharing ones *)
(*    pear-wrk-wdk-jsonrpc/test/test-framing.js  framing under test       *)
(*    WDKClient/Sources/WDKClient/WDKClient.swift, WDKError.swift,        *)
(*    WDKModels.swift                            calls, public methods    *)
(*                                                                        *)
(*  Part I holds the embedding, Part II the proofs.                       *)
(* ===================================================================== *)

From Equations Require Import Equations.
From Equations.Prop Require Import Logic.
From Stdlib Require Import String Ascii DecimalString.
From Stdlib Require Import Strings.Byte.
From Stdlib Require Import ZArith Lia Bool List Sorted.
Import ListNotations.

Local Open Scope string_scope.
Local Open Scope list_scope.
Local Open Scope Z_scope.
Set Warnings "-register-all".

(* ===================================================================== *)
(*  Part I.  The embedding                                                *)
(* ===================================================================== *)

(* --------------------------------------------------------------------- *)
(*  Bytes and the 32-bit big-endian length field                          *)
(* --------------------------------------------------------------------- *)

Definition bytes := list byte.

(** [Buffer.length] / [Data.count]. *)
Definition blen (b : bytes) : Z := Z.of_nat (length b).

Definition Z_of_byte (b : byte) : Z := Z.of_N (Byte.to_N b).

(** The low eight bits of an integer, as a byte. *)
Definition byte_of_Z (z : Z) : byte :=
  match Byte.of_N (Z.to_N (Z.land z 255)) with
  | Some b => b
  | None => x00
  end.

Definition UINT32_MAX : Z := 4294967295.

(** The four bytes of a 32-bit value, most significant first: what
    [buf.writeUInt32BE(value, 0)] stores in JavaScript and what
    [UInt32(n).bigEndian] lays out in memory in Swift.  A value above
    [UINT32_MAX] is outside the range of the field; the definition keeps its
    low 32 bits, as a DataView store does, and the theorems below ask for
    lengths within the range. *)
Definition writeUInt32BE (value : Z) : bytes :=
  [ byte_of_Z (Z.shiftr value 24); byte_of_Z (Z.shiftr value 16);
    byte_of_Z (Z.shiftr value 8);  byte_of_Z value ].

Definition be32 (b0 b1 b2 b3 : byte) : Z :=
  Z.lor (Z.shiftl (Z_of_byte b0) 24)
    (Z.lor (Z.shiftl (Z_of_byte b1) 16)
       (Z.lor (Z.shiftl (Z_of_byte b2) 8) (Z_of_byte b3))).

(** [buf.readUInt32BE(0)]: defined when the buffer holds four bytes. *)
Definition readUInt32BE (buf : bytes) : option Z :=
  match buf with
  | b0 :: b1 :: b2 :: b3 :: _ => Some (be32 b0 b1 b2 b3)
  | _ => None
  end.

(** [buf.slice(start, end)] and [buf.slice(start)], indices in range. *)
Definition slice (start stop : Z) (buf : bytes) : bytes :=
  firstn (Z.to_nat (stop - start)) (skipn (Z.to_nat start) buf).

Definition slice_from (start : Z) (buf : bytes) : bytes :=
  skipn (Z.to_nat start) buf.

(** Decimal rendering of an integer, as string interpolation prints it. *)
Definition decimal (z : Z) : string := NilZero.string_of_int (Z.to_int z).

(* --------------------------------------------------------------------- *)
(*  JavaScript values that travel as JSON                                 *)
(* --------------------------------------------------------------------- *)

Module JS.

(** A JSON value.  [JNum] holds the integers that occur as ids, indices and
    counts; [JObj] keeps the members in the order [Object.entries] yields
    them. *)
Inductive json : Type :=
| JNull
| JBool (b : bool)
| JNum (n : Z)
| JStr (s : string)
| JArr (items : list json)
| JObj (fields : list (string * json)).

(** A JavaScript value; [None] is [undefined]. *)
Definition value := option json.

(** ToBoolean. *)
Definition truthy (v : value) : bool :=
  match v with
  | None => false
  | Some JNull => false
  | Some (JBool b) => b
  | Some (JNum n) => negb (n =? 0)
  | Some (JStr s) => negb (String.eqb s "")
  | Some (JArr _) => true
  | Some (JObj _) => true
  end.

(** [typeof v === 'object'] (true of [null] as well). *)
Definition typeof_object (v : value) : bool :=
  match v with
  | Some JNull | Some (JArr _) | Some (JObj _) => true
  | _ => false
  end.

(** Member lookup; the keys of an object are taken to be distinct, as
    [JSON.parse] leaves them. *)
Fixpoint assoc (key : string) (fields : list (string * json)) : value :=
  match fields with
  | [] => None
  | (k, v) :: rest => if String.eqb k key then Some v else assoc key rest
  end.

(** [v.key] for a value that is neither [null] nor [undefined] and a key
    that names no built-in member: only objects have such a property. *)
Definition prop (v : json) (key : string) : value :=
  match v with
  | JObj fields => assoc key fields
  | _ => None
  end.

(** An object literal whose members may be [undefined]; JSON.stringify
    leaves those members out. *)
Fixpoint literal (members : list (string * value)) : list (string * json) :=
  match members with
  | [] => []
  | (k, Some v) :: rest => (k, v) :: literal rest
  | (_, None) :: rest => literal rest
  end.

Fixpoint indexed (i : Z) (items : list json) : list (string * json) :=
  match items with
  | [] => []
  | x :: rest => (decimal i, x) :: indexed (i + 1) rest
  end.

Fixpoint chars (s : string) : list json :=
  match s with
  | EmptyString => []
  | String c rest => JStr (String c EmptyString) :: chars rest
  end.

(** [Object.entries(v)]: own enumerable members, in enumeration order. *)
Definition entries (v : json) : list (string * json) :=
  match v with
  | JObj fields => fields
  | JArr items => indexed 0 items
  | JStr s => indexed 0 (chars s)
  | _ => []
  end.

(** [String(v)], as template literals and property keys compute it; [None]
    when the conversion throws a TypeError.  An object from [JSON.parse]
    inherits [toString] from [Object.prototype] unless it has a member of
    that name, which is data and cannot be called: then neither [toString]
    nor [valueOf] yields a primitive.  An array joins its elements, [null]
    printed as the empty string.  [numberToString] is
    [Number.prototype.toString] of the runtime. *)
Section Conversion.
Variable numberToString : Z -> string.

Fixpoint toString (v : json) : option string :=
  match v with
  | JNull => Some "null"
  | JBool true => Some "true"
  | JBool false => Some "false"
  | JNum n => Some (numberToString n)
  | JStr s => Some s
  | JArr items =>
      (fix join (l : list json) : option string :=
         match l with
         | [] => Some ""
         | x :: rest =>
             match match x with JNull => Some "" | _ => toString x end with
             | None => None
             | Some element =>
                 match rest with
                 | [] => Some element
                 | _ =>
                     match join rest with
                     | None => None
                     | Some others => Some (element ++ "," ++ others)
                     end
                 end
             end
         end) items
  | JObj fields =>
      match assoc "toString" fields with
      | Some _ => None
      | None => Some "[object Object]"
      end
  end%string.

Definition toStringV (v : value) : option string :=
  match v with
  | None => Some "undefined"
  | Some j => toString j
  end.

End Conversion.

End JS.

(* --------------------------------------------------------------------- *)
(*  The worklet: wdk-worklet.js and rpc-handlers.js                       *)
(* --------------------------------------------------------------------- *)

Module Worklet.
Import JS.

(* ---- length-prefixed framing ---------------------------------------- *)

(** The buffer [writeFramed] hands to the transport:
    [Buffer.concat([length, data])] with [length.writeUInt32BE(data.length)]. *)
Definition framed (data : bytes) : bytes :=
  writeUInt32BE (blen data) ++ data.

(** One pass through the head of the [while] loop of [processFramedData]:
    when a complete frame is buffered, the message and the buffer advanced
    past it; otherwise the loop is left. *)
Definition nextFrame (readBuffer : bytes) : option (bytes * bytes) :=
  if 4 <=? blen readBuffer then
    match readUInt32BE readBuffer with
    | Some messageLength =>
        let totalLength := 4 + messageLength in
        if blen readBuffer <? totalLength then None
        else Some (slice 4 totalLength readBuffer,
                   slice_from totalLength readBuffer)
    | None => None
    end
  else None.

Section Loop.
Context {S : Type}.
(** What the loop body does with each complete message. *)
Variable onMessage : bytes -> S -> S.

(** The loop [while (readBuffer.length >= 4) { ... }].  Every turn consumes
    at least the four header bytes, so the loop ends. *)
Equations? frameLoop (readBuffer : bytes) (s : S) : bytes * S
  by wf (length readBuffer) lt :=
frameLoop readBuffer s with inspect (nextFrame readBuffer) := {
  | exist _ (Some (messageData, rest)) Heq =>
      frameLoop rest (onMessage messageData s)
  | exist _ None _ => (readBuffer, s) }.
Proof.
  unfold nextFrame in Heq.
  destruct (Z.leb_spec 4 (blen readBuffer)) as [H4|H4]; [|discriminate].
  destruct (readUInt32BE readBuffer) as [n|] eqn:Hn; [|discriminate].
  destruct (Z.ltb_spec (blen readBuffer) (4 + n)) as [Hlt|Hge];
    [discriminate|].
  assert (Hrest : rest = slice_from (4 + n) readBuffer) by congruence.
  assert (H0 : 0 <= n).
  { destruct readBuffer as [|b0 [|b1 [|b2 [|b3 r]]]];
      cbn [readUInt32BE] in Hn; try discriminate.
    assert (n = be32 b0 b1 b2 b3) as -> by congruence.
    unfold be32. rewrite !Z.lor_nonneg, !Z.shiftl_nonneg.
    unfold Z_of_byte; repeat split; apply N2Z.is_nonneg. }
  rewrite Hrest. unfold slice_from, blen in *. rewrite length_skipn. lia.
Qed.

(** One [data] event: append the chunk to the buffer, then run the loop. *)
Definition feed (chunk : bytes) (st : bytes * S) : bytes * S :=
  frameLoop (fst st ++ chunk) (snd st).

Definition feedAll (chunks : list bytes) (st : bytes * S) : bytes * S :=
  fold_left (fun st chunk => feed chunk st) chunks st.

End Loop.

(* ---- errors and outcomes --------------------------------------------- *)

(** The text of an [Error] message.  [withErrorHandling] carries a
    structured error as [JSON.stringify(structuredError)]; the model keeps
    the value itself, so [JSON.parse] of such a message reads it back.  The
    free texts thrown on the modelled paths start with a letter and are no
    JSON text. *)
Inductive text : Type :=
| Plain (s : string)
| Json (v : json).

Record jsError : Type := mkError { message : text; code : option string }.

Inductive outcome (A : Type) : Type :=
| Returned (a : A)
| Thrown (e : jsError).
Arguments Returned {A} a.
Arguments Thrown {A} e.

(** What a handler hands back: a JSON value, or a value that
    [JSON.stringify] refuses with a TypeError (one holding a BigInt). *)
Inductive result : Type :=
| Value (v : json)
| Unserializable.

(** The TypeError of [JSON.stringify] on such a value. *)
Definition notSerializable : string :=
  "Do not know how to serialize a BigInt".

(** Modelled from the spec: the codes of exceptions/error-codes.js (not among
    the sources), under the names the README lists. *)
Definition BAD_REQUEST : string := "BAD_REQUEST".
Definition WDK_MANAGER_INIT : string := "WDK_MANAGER_INIT".
Definition ACCOUNT_BALANCES : string := "ACCOUNT_BALANCES".

(** Modelled from the spec: the shape of the value built by
    [rpcException.createStructuredError] (exceptions/rpc-exception.js is not
    among the sources): a code, a human-readable message, optional data. *)
Record StructuredError : Type :=
  mkStructured { se_code : string; se_message : string; se_data : value }.

Definition structuredJson (e : StructuredError) : json :=
  JObj (literal [ ("code", Some (JStr (se_code e)));
                  ("message", Some (JStr (se_message e)));
                  ("data", se_data e) ]).

Definition createErrorWithCode (msg code : string) : jsError :=
  mkError (Plain msg) (Some code).

(** A TypeError raised by the runtime (reading a member of [null] or
    [undefined], destructuring them, ...); it carries no [code]. *)
Definition TypeError (msg : string) : jsError := mkError (Plain msg) None.

(** The TypeError of a conversion to string that finds no primitive. *)
Definition cannotConvert : string :=
  "Cannot convert object to primitive value".

(* ---- the session slot and the wallet library -------------------------- *)

Inductive manager : Type :=
| EVMWallet
| EVMERC4337Wallet
| SolanaWallet
| Inherited (member : string).

(** Calls made into the wallet library, in order.  A WDK instance is named
    by the position of its creation in this trace. *)
Inductive libCall : Type :=
| New (h : nat) (seed : bytes)
| RegisterWallet (h : nat) (network : string) (m : manager) (config : json)
| RegisterProtocol (h : nat) (network label : value) (m : manager)
    (config : value)
| Dispose (h : nat).

(** [context.wdk] and the library calls made so far. *)
Record Session : Type := mkSession { wdk : option nat; calls : list libCall }.

(** The worker as the dispatcher sees it: the session and what has been
    handed to [BareIPC.write]. *)
Record Worker : Type := mkWorker { session : Session; written : list bytes }.

(** What the worklet takes from its runtime and from modules of the
    repository that are not among the sources. *)
Record Platform : Type := mkPlatform {
  (* the JSON codec of the runtime *)
  JSON_parse : string -> option json;
  JSON_stringify : json -> string;
  (* Number.prototype.toString *)
  Number_toString : Z -> string;
  (* utils/validation.js: [Some e] when the validator throws [e] *)
  validateNonEmptyString : value -> string -> option jsError;
  validateJSON : value -> string -> jsError + json;
  validateBase64 : value -> string -> option jsError;
  (* utils/crypto.js *)
  decrypt : value -> value -> jsError + bytes;
  (* exceptions/rpc-exception.js *)
  createStructuredError : jsError -> option string -> StructuredError;
  (* handlers that only forward to the entropy, mnemonic and account
     libraries, given by what they yield for the params at hand (their
     random draws are not modelled); [callMethod] reads the session slot *)
  generateEntropyAndEncrypt : value -> outcome result;
  getMnemonicFromEntropy : value -> outcome result;
  getSeedAndEntropyFromMnemonic : value -> outcome result;
  callMethod : value -> option nat -> outcome result
}.

(* ---- handlers run against the session -------------------------------- *)

(** A handler: it may change the session and then returns or throws; what
    it did to the session before throwing stays done. *)
Definition M (A : Type) : Type := Session -> outcome A * Session.

Definition ret {A} (a : A) : M A := fun s => (Returned a, s).

Definition throw {A} (e : jsError) : M A := fun s => (Thrown e, s).

Definition bind {A B} (m : M A) (k : A -> M B) : M B :=
  fun s =>
    match m s with
    | (Returned a, s') => k a s'
    | (Thrown e, s') => (Thrown e, s')
    end.

Notation "x <- m ;; k" := (bind m (fun x => k))
  (at level 61, m at next level, right associativity).
Notation "m ;;; k" := (bind m (fun _ => k))
  (at level 61, right associativity).

Definition getWdk : M (option nat) := fun s => (Returned (wdk s), s).

Definition setWdk (h : option nat) : M unit :=
  fun s => (Returned tt, mkSession h (calls s)).

(** A call into the wallet library. *)
Definition lib (c : libCall) : M unit :=
  fun s => (Returned tt, mkSession (wdk s) (calls s ++ [c])).

(** [new WDK(seed)]: the new instance is named by its place in the trace. *)
Definition newWDK (seed : bytes) : M nat :=
  fun s => (Returned (length (calls s)),
            mkSession (wdk s) (calls s ++ [New (length (calls s)) seed])).

(** Code that cannot touch the session: a value or a thrown error. *)
Definition liftE {A} (r : jsError + A) : M A :=
  match r with
  | inl e => throw e
  | inr a => ret a
  end.

Definition bindE {A B} (r : jsError + A) (k : A -> jsError + B)
  : jsError + B :=
  match r with
  | inl e => inl e
  | inr a => k a
  end.

(** A validator call: it throws or falls through. *)
Definition check (r : option jsError) : jsError + unit :=
  match r with
  | Some e => inl e
  | None => inr tt
  end.

(** [!error.code] *)
Definition noCode (e : jsError) : bool :=
  match code e with
  | None => true
  | Some c => String.eqb c ""
  end.

(** [validateRequest(request, validationFn, fieldName)]; [validationFn] is
    given by what running it yields. *)
Definition validateRequest {A} (request : value) (validationFn : jsError + A)
    (fieldName : string) : jsError + A :=
  if negb (truthy request) || negb (typeof_object request) then
    inl (mkError (Plain (fieldName ++ " must be an object")%string)
                 (Some BAD_REQUEST))
  else
    match validationFn with
    | inl error =>
        inl (if noCode error then mkError (message error) (Some BAD_REQUEST)
             else error)
    | inr a => inr a
    end.

(** Members every object literal inherits from [Object.prototype]; a lookup
    such as [walletManagers[name]] finds them too. *)
Definition objectPrototypeMembers : list string :=
  [ "constructor"; "__defineGetter__"; "__defineSetter__"; "hasOwnProperty";
    "__lookupGetter__"; "__lookupSetter__"; "isPrototypeOf";
    "propertyIsEnumerable"; "toString"; "valueOf"; "__proto__";
    "toLocaleString" ].

Definition inherited (key : string) : option manager :=
  if existsb (String.eqb key) objectPrototypeMembers
  then Some (Inherited key) else None.

(** [walletManagers[key]] *)
Definition walletManagers (key : string) : option manager :=
  if String.eqb key "ethereum" then Some EVMWallet
  else if String.eqb key "polygon" then Some EVMWallet
  else if String.eqb key "arbitrum" then Some EVMWallet
  else if String.eqb key "sepolia" then Some EVMWallet
  else if String.eqb key "ethereum-erc4337" then Some EVMERC4337Wallet
  else if String.eqb key "solana" then Some SolanaWallet
  else inherited key.

(** [protocolManagers[key]]: the table has no entry of its own. *)
Definition protocolManagers (key : string) : option manager := inherited key.

Section Handlers.
Variable P : Platform.

(** [error.message] as a string. *)
Definition render (t : text) : string :=
  match t with
  | Plain s => s
  | Json v => JSON_stringify P v
  end.

(** [withErrorHandling(handler, defaultErrorCode)] *)
Definition withErrorHandling {A} (handler : M A)
    (defaultErrorCode : option string) : M A :=
  fun s =>
    match handler s with
    | (Returned a, s') => (Returned a, s')
    | (Thrown error, s') =>
        let structuredError :=
          createStructuredError P error defaultErrorCode in
        (Thrown (mkError (Json (structuredJson structuredError)) None), s')
    end.

(** [handlers.workletStart] *)
Definition workletStart : M json :=
  ret (JObj [("status", JStr "started")]).

(** The loop of [initializeWDK] over [Object.entries(workletConfig.networks)]. *)
Fixpoint initWallets (h : nat) (networks : list (string * json)) : M unit :=
  match networks with
  | [] => ret tt
  | (networkName, config) :: rest =>
      (if truthy (Some config) && typeof_object (Some config) then
         match walletManagers networkName with
         | None =>
             throw (createErrorWithCode
                      ("No wallet manager found for network: " ++ networkName)
                      WDK_MANAGER_INIT)
         | Some walletManager =>
             lib (RegisterWallet h networkName walletManager config)
         end
       else ret tt) ;;;
      initWallets h rest
  end%string.

(** [String(v)] where the code uses a value as a property key or prints it
    in a template literal. *)
Definition converted (v : value) : M string :=
  match toStringV (Number_toString P) v with
  | Some s => ret s
  | None => throw (TypeError cannotConvert)
  end.

(** [walletManagers[protocolConfig.network]] and the registration that
    follows, shared by [initializeWDK] and [registerProtocol];
    [protocolConfig] is [null] when reading its member throws.  The lookup
    converts the network to a property key.  [logged] is what the log line
    before the registration prints besides the name of the protocol: nothing
    in [initializeWDK], the label in [registerProtocol]. *)
Fixpoint printed (values : list value) : M unit :=
  match values with
  | [] => ret tt
  | v :: rest => converted v ;;; printed rest
  end.

Definition registerOneProtocol (h : nat) (protocolManager : manager)
    (protocolConfig : json) (logged : list value) : M unit :=
  match protocolConfig with
  | JNull => throw (TypeError "Cannot read properties of null")
  | _ =>
      network <- converted (prop protocolConfig "network") ;;
      match walletManagers network with
      | None =>
          throw (createErrorWithCode
                   ("No wallet manager found for network: " ++ network)
                   BAD_REQUEST)
      | Some _ =>
          printed logged ;;;
          lib (RegisterProtocol h (prop protocolConfig "network")
                 (prop protocolConfig "protocolLabel") protocolManager
                 (prop protocolConfig "config"))
      end
  end%string.

(** The loop of [initializeWDK] over [Object.entries(workletConfig.protocols)]. *)
Fixpoint initProtocols (h : nat) (protocols : list (string * json)) : M unit :=
  match protocols with
  | [] => ret tt
  | (protocolName, protocolConfig) :: rest =>
      match protocolManagers protocolName with
      | None =>
          throw (createErrorWithCode
                   ("No protocol manager found for protocol: " ++ protocolName)
                   WDK_MANAGER_INIT)
      | Some protocolManager =>
          registerOneProtocol h protocolManager protocolConfig []
      end ;;;
      initProtocols h rest
  end%string.

(** The validation closure of [initializeWDK]; it yields [workletConfig]. *)
Definition initValidation (init : json) : jsError + json :=
  bindE (check (validateNonEmptyString P (prop init "config") "config"))
    (fun _ =>
  bindE (validateJSON P (prop init "config") "config") (fun workletConfig =>
  bindE (if negb (truthy (prop init "encryptionKey"))
            || negb (truthy (prop init "encryptedSeed"))
         then inl (createErrorWithCode
                     "(encryptionKey + encryptedSeed) must be provided"
                     BAD_REQUEST)
         else inr tt) (fun _ =>
  bindE (check (validateBase64 P (prop init "encryptionKey")
                  "encryptionKey")) (fun _ =>
  bindE (check (validateBase64 P (prop init "encryptedSeed")
                  "encryptedSeed")) (fun _ =>
  inr workletConfig))))).

(** [handlers.initializeWDK(init, context)] *)
Definition initializeWDK (init : value) : M json :=
  match init with
  | Some (JObj _ as o) | Some (JArr _ as o) =>
      (* an existing instance is disposed here, before the fields of
         [init] are looked at *)
      (old <- getWdk ;;
       match old with
       | Some h => lib (Dispose h)
       | None => ret tt
       end) ;;;
      workletConfig <- liftE (validateRequest init (initValidation o) "Init") ;;
      (if negb (truthy (Some workletConfig))
          || negb (truthy (prop workletConfig "networks"))
          || negb (typeof_object (prop workletConfig "networks"))
          || match prop workletConfig "networks" with
             | Some networks => (length (entries networks) =? 0)%nat
             | None => true
             end
       then throw (createErrorWithCode
                     "At least one network configuration must be provided"
                     BAD_REQUEST)
       else ret tt) ;;;
      decryptedSeedBuffer <-
        liftE (match decrypt P (prop o "encryptedSeed")
                       (prop o "encryptionKey") with
               | inl error =>
                   inl (createErrorWithCode
                          ("Failed to decrypt seed: " ++
                           render (message error)) BAD_REQUEST)
               | inr seed => inr seed
               end) ;;
      h <- newWDK decryptedSeedBuffer ;;
      setWdk (Some h) ;;;
      initWallets h match prop workletConfig "networks" with
                    | Some networks => entries networks
                    | None => []
                    end ;;;
      (if truthy (prop workletConfig "protocols")
          && match prop workletConfig "protocols" with
             | Some protocols => (0 <? length (entries protocols))%nat
             | None => false
             end
       then initProtocols h match prop workletConfig "protocols" with
                            | Some protocols => entries protocols
                            | None => []
                            end
       else ret tt) ;;;
      ret (JObj [("status", JStr "initialized")])
  | _ => throw (createErrorWithCode "Init must be an object" BAD_REQUEST)
  end%string.

(** [handlers.dispose(context)] *)
Definition dispose : M json :=
  (current <- getWdk ;;
   match current with
   | Some h => lib (Dispose h) ;;; setWdk None
   | None => ret tt
   end) ;;;
  ret (JObj [("status", JStr "disposed")]).

(** The loop of [registerWallet] over [Object.entries(networks)]; it
    yields [registeredBlockchains]. *)
Fixpoint registerWallets (h : nat) (networks : list (string * json))
    (registeredBlockchains : list string) : M (list string) :=
  match networks with
  | [] => ret registeredBlockchains
  | (networkName, config) :: rest =>
      if truthy (Some config) && typeof_object (Some config) then
        match walletManagers networkName with
        | None =>
            throw (createErrorWithCode
                     ("No wallet manager found for blockchain: " ++
                      networkName) BAD_REQUEST)
        | Some walletManager =>
            lib (RegisterWallet h networkName walletManager config) ;;;
            registerWallets h rest (registeredBlockchains ++ [networkName])%list
        end
      else registerWallets h rest registeredBlockchains
  end%string.

(** [handlers.registerWallet(request, context)] *)
Definition registerWallet (request : value) : M json :=
  match request with
  | None | Some JNull =>
      throw (TypeError "Cannot destructure property 'config'")
  | Some r =>
      let configJson := prop r "config" in
      workletConfig <-
        liftE (validateRequest request
                 (bindE (check (validateNonEmptyString P configJson "config"))
                    (fun _ => validateJSON P configJson "config"))
                 "RegisterWalletRequest") ;;
      (if negb (truthy (Some workletConfig))
          || negb (typeof_object (Some workletConfig))
          || negb (truthy (prop workletConfig "networks"))
          || negb (typeof_object (prop workletConfig "networks"))
       then throw (createErrorWithCode
                     "config must be an object with network configurations"
                     BAD_REQUEST)
       else ret tt) ;;;
      current <- getWdk ;;
      match current with
      | None =>
          throw (createErrorWithCode
                   "WDK not initialized. Call initializeWDK first."
                   WDK_MANAGER_INIT)
      | Some h =>
          registeredBlockchains <-
            registerWallets h match prop workletConfig "networks" with
                              | Some networks => entries networks
                              | None => []
                              end [] ;;
          if (length registeredBlockchains =? 0)%nat then
            throw (createErrorWithCode
                     "no valid network configurations provided" BAD_REQUEST)
          else
            ret (JObj [ ("status", JStr "registered");
                        ("blockchains",
                         JStr (JSON_stringify P
                                 (JArr (map JStr registeredBlockchains)))) ])
      end
  end.

(** The loop of [registerProtocol] over [Object.entries(protocols)]. *)
Fixpoint registerProtocols (h : nat) (protocols : list (string * json))
    : M unit :=
  match protocols with
  | [] => ret tt
  | (protocolName, protocolConfig) :: rest =>
      (if truthy (Some protocolConfig) && typeof_object (Some protocolConfig)
       then
         match protocolManagers protocolName with
         | None =>
             throw (createErrorWithCode
                      ("No protocol manager found for protocol: " ++
                       protocolName) BAD_REQUEST)
         | Some protocolManager =>
             registerOneProtocol h protocolManager protocolConfig
               [prop protocolConfig "protocolLabel"]
         end
       else ret tt) ;;;
      registerProtocols h rest
  end%string.

(** [handlers.registerProtocol(request, context)] *)
Definition registerProtocol (request : value) : M json :=
  match request with
  | None | Some JNull =>
      throw (TypeError "Cannot destructure property 'config'")
  | Some r =>
      parsed <- liftE (validateJSON P (prop r "config") "config") ;;
      match parsed with
      | JNull => throw (TypeError "Cannot destructure property 'protocols'")
      | _ =>
          current <- getWdk ;;
          match current with
          | None =>
              throw (createErrorWithCode
                       "WDK not initialized. Call initializeWDK first."
                       WDK_MANAGER_INIT)
          | Some h =>
              match prop parsed "protocols" with
              | None | Some JNull =>
                  throw (TypeError
                           "Cannot convert undefined or null to object")
              | Some protocols =>
                  registerProtocols h (entries protocols) ;;;
                  ret (JObj [("status", JStr "registered")])
              end
          end
      end
  end.

(* ---- the dispatcher (wdk-worklet.js) ---------------------------------- *)

Definition asResult (m : M json) : M result :=
  v <- m ;; ret (Value v).

(** The case labels of the [switch (method)] of [handleJsonRpcMessage]. *)
Definition methods : list string :=
  [ "workletStart"; "generateEntropyAndEncrypt"; "getMnemonicFromEntropy";
    "getSeedAndEntropyFromMnemonic"; "initializeWDK"; "callMethod";
    "registerWallet"; "registerProtocol"; "dispose" ].

(** The [switch (method)] of [handleJsonRpcMessage]; the cases compare with
    [===], so only a string can match.  [default] prints [method] in the
    message of its error. *)
Definition dispatch (method params : value) : M result :=
  let unknown : M result :=
    name <- converted method ;;
    throw (mkError (Plain ("Unknown method: " ++ name)%string) None) in
  match method with
  | Some (JStr m) =>
      if String.eqb m "workletStart" then
        withErrorHandling (asResult workletStart) None
      else if String.eqb m "generateEntropyAndEncrypt" then
        withErrorHandling
          (fun s => (generateEntropyAndEncrypt P params, s)) None
      else if String.eqb m "getMnemonicFromEntropy" then
        withErrorHandling
          (fun s => (getMnemonicFromEntropy P params, s)) None
      else if String.eqb m "getSeedAndEntropyFromMnemonic" then
        withErrorHandling
          (fun s => (getSeedAndEntropyFromMnemonic P params, s)) None
      else if String.eqb m "initializeWDK" then
        withErrorHandling (asResult (initializeWDK params)) None
      else if String.eqb m "callMethod" then
        withErrorHandling (fun s => (callMethod P params (wdk s), s)) None
      else if String.eqb m "registerWallet" then
        withErrorHandling (asResult (registerWallet params)) None
      else if String.eqb m "registerProtocol" then
        withErrorHandling (asResult (registerProtocol params)) None
      else if String.eqb m "dispose" then
        withErrorHandling (asResult dispose) None
      else unknown
  | _ => unknown
  end.

(** [writeFramed(Buffer.from(response))] *)
Definition writeFramed (response : string) (w : Worker) : Worker :=
  mkWorker (session w)
           (written w ++ [framed (list_byte_of_string response)]).

(** The plain branch of the [catch]: [error.message || String(error)] and
    [error.code || 'INTERNAL_ERROR']. *)
Definition plainErrorResponse (error : jsError) : json :=
  JObj (literal
    [ ("message",
       Some (JStr (if String.eqb (render (message error)) "" then "Error"
                   else render (message error))));
      ("code",
       Some (JStr (match code error with
                   | Some c => if String.eqb c "" then "INTERNAL_ERROR" else c
                   | None => "INTERNAL_ERROR"
                   end))) ]).

(** The [catch] of [handleJsonRpcMessage]: the structured error is read back
    from the message when the message is JSON text. *)
Definition errorResponse (error : jsError) : json :=
  match message error with
  | Json JNull => plainErrorResponse error
  | Json structuredError =>
      JObj (literal [ ("message", prop structuredError "message");
                      ("code", prop structuredError "code");
                      ("data", prop structuredError "data") ])
  | Plain _ => plainErrorResponse error
  end.

(** The text of the error response that the [catch] writes. *)
Definition errorText (id : value) (error : jsError) : string :=
  JSON_stringify P
    (JObj (literal [ ("jsonrpc", Some (JStr "2.0")); ("id", id);
                     ("error", Some (errorResponse error)) ])).

(** [handleJsonRpcMessage(message, context)] up to its one write: the text
    handed to [writeFramed] and the session the handler leaves, or [None]
    when the call writes nothing.  The log line at the head of the [try]
    prints [method]; when that conversion throws, control reaches the
    [catch] before the [switch] has run, the log line of the [catch] throws
    in the same way, and the promise of the call is rejected. *)
Definition respond (message : json) (s : Session)
    : option (string * Session) :=
  let id := prop message "id" in
  let method := prop message "method" in
  let params := prop message "params" in
  match toStringV (Number_toString P) method with
  | None => None
  | Some _ =>
      match dispatch method params s with
      | (Returned (Value result), s') =>
          Some (JSON_stringify P
                  (JObj (literal [ ("jsonrpc", Some (JStr "2.0")); ("id", id);
                                   ("result", Some result) ])), s')
      | (Returned Unserializable, s') =>
          Some (errorText id (TypeError notSerializable), s')
      | (Thrown error, s') => Some (errorText id error, s')
      end
  end.

(** [handleJsonRpcMessage(message, context)] once its promise has settled,
    nothing else having run in between: the handler, then the one write of
    the [try] or of the [catch]. *)
Definition handleJsonRpcMessage (message : json) (w : Worker) : Worker :=
  match respond message (session w) with
  | Some (response, s') => writeFramed response (mkWorker s' (written w))
  | None => w
  end.

(** Whether the [switch] has a case for [method].  Every case awaits its
    handler, so the function hands control back to its caller before it
    writes; [default] throws before any [await], and the [catch] writes on
    the spot. *)
Definition awaited (method : value) : bool :=
  match method with
  | Some (JStr m) => existsb (String.eqb m) methods
  | _ => false
  end.

(** The call [handleJsonRpcMessage(message, context)] as the loop of
    [processFramedData] makes it, without awaiting it.  The state is the
    worker and the responses that are still to be written, oldest first.
    The handlers embedded here wait on nothing: the body of an awaited
    handler has run, and has changed the session, when the call hands
    control back, and its response is written by a job queued behind those
    of the calls made before it.  [callMethod] alone waits on a library; its
    response is written when the library has settled, which the model takes
    to be the case when the loop is over. *)
Definition started (message : json) (st : Worker * list string)
    : Worker * list string :=
  match respond message (session (fst st)) with
  | None => st
  | Some (response, s') =>
      if awaited (prop message "method")
      then (mkWorker s' (written (fst st)), snd st ++ [response])
      else (writeFramed response (mkWorker s' (written (fst st))), snd st)
  end.

(** The body of the loop of [processFramedData] for one message:
    [JSON.parse(messageData.toString())], then the dispatcher when the
    message says [jsonrpc: '2.0'].  A parse failure, like the TypeError of
    reading [jsonrpc] off [null], is caught and logged. *)
Definition received (messageData : bytes) (st : Worker * list string)
    : Worker * list string :=
  match JSON_parse P (string_of_list_byte messageData) with
  | None => st
  | Some JNull => st
  | Some message =>
      match prop message "jsonrpc" with
      | Some (JStr v) => if String.eqb v "2.0" then started message st else st
      | _ => st
      end
  end.

(** The job queue run after the loop: the responses still to be written go
    out, oldest first. *)
Definition settled (st : Worker * list string) : Worker :=
  fold_left (fun w response => writeFramed response w) (snd st) (fst st).

(** One message through the body of the loop, and the worker once the call
    has settled. *)
Definition onMessage (messageData : bytes) (w : Worker) : Worker :=
  settled (received messageData (w, [])).

(** [processFramedData(chunk)] on the state [(readBuffer, worker)]: one
    [data] event.  The runtime is taken to run the job queue when the
    listener returns, before the next event is delivered. *)
Definition processFramedData (chunk : bytes) (st : bytes * Worker)
    : bytes * Worker :=
  let r := feed received chunk (fst st, (snd st, [])) in
  (fst r, settled (snd r)).

End Handlers.

End Worklet.

(* --------------------------------------------------------------------- *)
(*  rpc-handlers.js: the handlers that reach the account library and the  *)
(*  secret-sharing library                                                *)
(* --------------------------------------------------------------------- *)

Module RpcHandlers.
Import JS Worklet.

(** The double quote of the template literals. *)
Definition dquote : string := String (ascii_of_nat 34) EmptyString.

(** What an account method hands back: [undefined] (or a value that
    [JSON.stringify] leaves out, a function or a symbol), plain data, a
    BigInt, or an object of the library. *)
Inductive returned (object : Type) : Type :=
| Undefined
| Data (v : json)
| BigInt
| Opaque (o : object).
Arguments Undefined {object}.
Arguments Data {object} v.
Arguments BigInt {object}.
Arguments Opaque {object} o.

(** [typeof result === 'object' && result !== null] *)
Definition isObject {object : Type} (result : returned object) : bool :=
  match result with
  | Data (JObj _) | Data (JArr _) | Opaque _ => true
  | _ => false
  end.

(** What these handlers take from the runtime, from the libraries and from
    modules of the repository that are not among the sources.  An account,
    or the protocol object a getter hands back, is an object of the library;
    an instance is named as in the session. *)
Record Library (account object : Type) : Type := mkLibrary {
  (* String.prototype.trim *)
  trim : string -> string;
  (* utils/validation.js: [Some e] when the validator throws [e] *)
  validateNonNegativeInteger : value -> string -> option jsError;
  (* JSON.parse(safeStringify(result)), utils/safe-stringify.js *)
  reparse : returned object -> jsError + json;
  (* wdk.getAccount(network, accountIndex) *)
  getAccount : nat -> string -> value -> jsError + account;
  (* account.getSwapProtocol(name) and its siblings *)
  getSwapProtocol : account -> value -> jsError + account;
  getBridgeProtocol : account -> value -> jsError + account;
  getLendingProtocol : account -> value -> jsError + account;
  getFiatProtocol : account -> value -> jsError + account;
  (* typeof account[key] === 'function' *)
  isFunction : account -> value -> bool;
  (* Object.keys(account) *)
  keys : account -> list string;
  (* account[methodName](args) *)
  invoke : account -> value -> json -> outcome (returned object);
  (* wdk-util-shamir-secret-sharing: split(mnemonic, { shares, threshold })
     and combine(shares) *)
  shamirSplit : value -> value -> value -> jsError + json;
  shamirCombine : value -> jsError + json
}.
Arguments trim {account object} _ _.
Arguments validateNonNegativeInteger {account object} _ _ _.
Arguments reparse {account object} _ _.
Arguments getAccount {account object} _ _ _ _.
Arguments getSwapProtocol {account object} _ _ _.
Arguments getBridgeProtocol {account object} _ _ _.
Arguments getLendingProtocol {account object} _ _ _.
Arguments getFiatProtocol {account object} _ _ _.
Arguments isFunction {account object} _ _ _.
Arguments keys {account object} _ _.
Arguments invoke {account object} _ _ _ _.
Arguments shamirSplit {account object} _ _ _ _.
Arguments shamirCombine {account object} _ _.

Section Handlers.
Context {account object : Type}.
Variable P : Platform.
Variable L : Library account object.

(** One case of the [switch (options?.protocolType)] of [callWdkMethod]. *)
Definition protocolCase (kind : string)
    (getProtocol : account -> value -> jsError + account)
    (options : json) (a : account) : jsError + account :=
  if negb (truthy (prop options "protocolName")) then
    inl (createErrorWithCode
           ("Protocol name is required for " ++ kind ++ " protocol")
           BAD_REQUEST)
  else getProtocol a (prop options "protocolName").

(** The [switch (options?.protocolType)] of [callWdkMethod]; [options] is
    [null] when the caller gave none. *)
Definition selectProtocol (options : json) (a : account)
    : jsError + account :=
  match prop options "protocolType" with
  | Some (JStr protocolType) =>
      if String.eqb protocolType "swap" then
        protocolCase "swap" (getSwapProtocol L) options a
      else if String.eqb protocolType "bridge" then
        protocolCase "bridge" (getBridgeProtocol L) options a
      else if String.eqb protocolType "lending" then
        protocolCase "lending" (getLendingProtocol L) options a
      else if String.eqb protocolType "fiat" then
        protocolCase "fiat" (getFiatProtocol L) options a
      else inr a
  | _ => inr a
  end.

(** [Object.keys(account).filter(key => typeof account[key] === 'function')
    .join(', ')] *)
Definition availableMethods (a : account) : string :=
  String.concat ", "
    (filter (fun key => isFunction L a (Some (JStr key))) (keys L a)).

Definition networkRequired : jsError :=
  createErrorWithCode "Network must be a non-empty string" BAD_REQUEST.

(** [callWdkMethod(context, methodName, network, accountIndex, args,
    options)], as [callMethod] calls it: [args] and [options] are parsed
    JSON or [null]. *)
Definition callWdkMethod (wdk : option nat)
    (methodName network accountIndex : value) (args options : json)
    : outcome (returned object) :=
  match wdk with
  | None =>
      Thrown (createErrorWithCode
                "WDK not initialized. Call initializeWDK first."
                WDK_MANAGER_INIT)
  | Some h =>
      match network with
      | Some (JStr name) =>
          if String.eqb name "" || (String.length (trim L name) =? 0)%nat
          then Thrown networkRequired
          else
            match getAccount L h name accountIndex with
            | inl error =>
                match toStringV (Number_toString P) accountIndex with
                | None => Thrown (TypeError cannotConvert)
                | Some index =>
                    Thrown (createErrorWithCode
                              ("Failed to get account for network " ++
                               dquote ++ name ++ dquote ++ " at index " ++
                               index ++ ": " ++ render P (message error))
                              ACCOUNT_BALANCES)
                end
            | inr found =>
                match selectProtocol options found with
                | inl error => Thrown error
                | inr a =>
                    (* account[methodName] converts the name to a key *)
                    match toStringV (Number_toString P) methodName with
                    | None => Thrown (TypeError cannotConvert)
                    | Some key =>
                        if negb (isFunction L a methodName) then
                          match prop options "defaultValue" with
                          | Some defaultValue => Returned (Data defaultValue)
                          | None =>
                              Thrown (createErrorWithCode
                                        ("Method " ++ dquote ++ key ++ dquote ++
                                         " not found on account for network " ++
                                         dquote ++ name ++ dquote ++
                                         ". Available methods: " ++
                                         availableMethods a)
                                        BAD_REQUEST)
                          end
                        else
                          match invoke L a methodName args with
                          | Thrown error => Thrown error
                          | Returned result =>
                              if truthy (prop options "transformResult") then
                                Thrown
                                  (TypeError
                                     "options.transformResult is not a function")
                              else Returned result
                          end
                    end
                end
            end
      | _ => Thrown networkRequired
      end
  end%string.

(** The validation closure of [callMethod]; it yields [args] and
    [options]. *)
Definition callValidation (payload : json) : jsError + json * json :=
  bindE (check (validateNonEmptyString P (prop payload "methodName")
                  "methodName")) (fun _ =>
  bindE (check (validateNonEmptyString P (prop payload "network")
                  "network")) (fun _ =>
  bindE (check (validateNonNegativeInteger L (prop payload "accountIndex")
                  "accountIndex")) (fun _ =>
  bindE (if truthy (prop payload "args")
         then validateJSON P (prop payload "args") "args"
         else inr JNull) (fun args =>
  bindE (if truthy (prop payload "options")
         then validateJSON P (prop payload "options") "options"
         else inr JNull) (fun options =>
  inr (args, options)))))).

(** [handlers.callMethod(payload, context)]; it reads [context.wdk] and
    nothing else of the session. *)
Definition callMethod (payload : value) (wdk : option nat) : outcome result :=
  match payload with
  | None | Some JNull =>
      Thrown (TypeError "Cannot destructure property 'methodName'")
  | Some p =>
      match validateRequest payload (callValidation p) "Payload" with
      | inl error => Thrown error
      | inr (args, options) =>
          match callWdkMethod wdk (prop p "methodName") (prop p "network")
                  (prop p "accountIndex") args options with
          | Thrown error => Thrown error
          | Returned methodResult =>
              if isObject methodResult then
                match reparse L methodResult with
                | inl error => Thrown error
                | inr parsed => Returned (Value (JObj [("result", parsed)]))
                end
              else
                match methodResult with
                | Data v => Returned (Value (JObj [("result", v)]))
                | BigInt => Returned Unserializable
                | _ => Returned (Value (JObj []))
                end
          end
      end
  end.

(** The validation closure of [splitMnemonic]. *)
Definition splitValidation (request : json) : jsError + unit :=
  bindE (match prop request "mnemonic" with
         | Some (JStr _) => inr tt
         | _ => inl (mkError (Plain "mnemonic must be a string") None)
         end) (fun _ =>
  bindE (check (validateNonNegativeInteger L (prop request "shares")
                  "shares")) (fun _ =>
  check (validateNonNegativeInteger L (prop request "threshold")
           "threshold"))).

(** [handlers.splitMnemonic(request)] *)
Definition splitMnemonic (request : value) : outcome json :=
  match request with
  | None | Some JNull =>
      Thrown (TypeError "Cannot destructure property 'mnemonic'")
  | Some r =>
      match validateRequest request (splitValidation r) "Request" with
      | inl error => Thrown error
      | inr _ =>
          match shamirSplit L (prop r "mnemonic") (prop r "shares")
                  (prop r "threshold") with
          | inl error => Thrown error
          | inr hexShares =>
              Returned (JObj (literal [ ("shares", Some hexShares);
                                        ("threshold", prop r "threshold");
                                        ("totalShares", prop r "shares") ]))
          end
      end
  end.

(** [handlers.combineShares(request)] *)
Definition combineShares (request : value) : outcome json :=
  match request with
  | None | Some JNull =>
      Thrown (TypeError "Cannot destructure property 'shares'")
  | Some r =>
      match validateRequest request
              (match prop r "shares" with
               | Some (JArr _) => inr tt
               | _ => inl (mkError (Plain "shares must be an array") None)
               end) "Request" with
      | inl error => Thrown error
      | inr _ =>
          match shamirCombine L (prop r "shares") with
          | inl error => Thrown error
          | inr mnemonic => Returned (JObj [("mnemonic", mnemonic)])
          end
      end
  end.

End Handlers.

End RpcHandlers.

(* --------------------------------------------------------------------- *)
(*  The framing functions as set up in test/test-framing.js               *)
(* --------------------------------------------------------------------- *)

Module TestFraming.

Definition writeFramed (data : bytes) : bytes := Worklet.framed data.

(** [messages.push(messageData)] *)
Definition push (messageData : bytes) (messages : list bytes) : list bytes :=
  messages ++ [messageData].

(** [processFramedData(chunk)]: the messages completed by this chunk and
    the new [readBuffer]. *)
Definition processFramedData (chunk : bytes) (readBuffer : bytes)
    : list bytes * bytes :=
  let r := Worklet.frameLoop push (readBuffer ++ chunk) [] in
  (snd r, fst r).

(** Feeding chunks one after the other, collecting the messages as the
    tests do with [messages.push(...processFramedData(chunk))]. *)
Fixpoint run (chunks : list bytes) (readBuffer : bytes)
    : list bytes * bytes :=
  match chunks with
  | [] => ([], readBuffer)
  | chunk :: rest =>
      let r := processFramedData chunk readBuffer in
      let r' := run rest (snd r) in
      (fst r ++ fst r', snd r')
  end.

End TestFraming.

(* --------------------------------------------------------------------- *)
(*  The Swift client: WDKClient.swift, WDKError.swift                     *)
(* --------------------------------------------------------------------- *)

Module Client.
Import JS.

(** [enum WDKError] *)
Inductive WDKError : Type :=
| ipcError (msg : string)
| rpcError (code message : string)
| invalidResponse (msg : string)
| encodingError (msg : string).

(** How a call can fail: a thrown [WDKError], an error thrown by
    [JSONSerialization], the [CancellationError] of [Task.sleep], or a
    runtime trap (integer conversion or arithmetic out of range). *)
Inductive failure : Type :=
| thrown (e : WDKError)
| serialization (what : string)
| cancellation
| trap (what : string).

Inductive result (A : Type) : Type :=
| Ok (a : A)
| Fail (f : failure).
Arguments Ok {A} a.
Arguments Fail {A} f.

(** The mutable fields of [WDKClient], with the transport behind [ipc]:
    [incoming] holds the chunks [ipc.read()] will deliver, in order, and is
    followed by the end of the stream; [outgoing] holds what was written. *)
Record State : Type := mkState {
  requestId : Z;
  isWorkletStarted : bool;
  ipc : bool;
  readBuffer : bytes;
  incoming : list bytes;
  outgoing : list bytes
}.

(** What a call takes from its runtime: [JSONSerialization] ([None] when
    the call throws), and whether the task that runs the call is cancelled
    while it sleeps waiting for the worklet to start. *)
Record Runtime : Type := mkRuntime {
  data : json -> option bytes;
  jsonObject : bytes -> option json;
  sleepCancelled : bool
}.

Definition INT_MAX : Z := 9223372036854775807.

Definition Swift (A : Type) : Type := State -> result A * State.

Definition ret {A} (a : A) : Swift A := fun c => (Ok a, c).

Definition fail {A} (f : failure) : Swift A := fun c => (Fail f, c).

Definition bind {A B} (m : Swift A) (k : A -> Swift B) : Swift B :=
  fun c =>
    match m c with
    | (Ok a, c') => k a c'
    | (Fail f, c') => (Fail f, c')
    end.

Notation "x <- m ;; k" := (bind m (fun x => k))
  (at level 61, m at next level, right associativity).
Notation "m ;;; k" := (bind m (fun _ => k))
  (at level 61, right associativity).

(** [init]: the counter starts at zero, nothing is started. *)
Definition fresh (incoming : list bytes) : State :=
  mkState 0 false false [] incoming [].

(** [nextRequestId()]: the block runs on the serial queue [requestIdQueue],
    so it is one indivisible step.  [+=] on [Int] traps on overflow. *)
Definition nextRequestId : Swift Z :=
  fun c =>
    if requestId c <? INT_MAX then
      (Ok (requestId c + 1),
       mkState (requestId c + 1) (isWorkletStarted c) (ipc c) (readBuffer c)
         (incoming c) (outgoing c))
    else (Fail (trap "arithmetic overflow"), c).

(** [writeFramed(data:)] *)
Definition writeFramed (payload : bytes) : Swift unit :=
  fun c =>
    if negb (ipc c) then (Fail (thrown (ipcError "IPC not initialized")), c)
    else if UINT32_MAX <? blen payload then
      (Fail (trap "Not enough bits to represent the passed value"), c)
    else
      (Ok tt,
       mkState (requestId c) (isWorkletStarted c) (ipc c) (readBuffer c)
         (incoming c)
         (outgoing c ++ [writeUInt32BE (blen payload) ++ payload])).

(** The [while readBuffer.count < bytes] loop of [readExactly]: chunks are
    taken from the transport until enough bytes are buffered; [None] when
    the stream ends first. *)
Fixpoint fill (count : Z) (readBuffer : bytes) (incoming : list bytes)
    {struct incoming} : option (bytes * list bytes) :=
  if blen readBuffer <? count then
    match incoming with
    | [] => None
    | chunk :: rest => fill count (readBuffer ++ chunk) rest
    end
  else Some (readBuffer, incoming).

(** [readExactly(bytes:)] *)
Definition readExactly (count : Z) : Swift bytes :=
  fun c =>
    if negb (ipc c) then (Fail (thrown (ipcError "IPC not initialized")), c)
    else
      match fill count (readBuffer c) (incoming c) with
      | None =>
          (Fail (thrown (ipcError "Connection closed while reading")),
           mkState (requestId c) (isWorkletStarted c) (ipc c)
             (readBuffer c ++ concat (incoming c)) [] (outgoing c))
      | Some (buffered, rest) =>
          (Ok (firstn (Z.to_nat count) buffered),
           mkState (requestId c) (isWorkletStarted c) (ipc c)
             (skipn (Z.to_nat count) buffered) rest (outgoing c))
      end.

(** [readFramed()] *)
Definition readFramed : Swift bytes :=
  lengthData <- readExactly 4 ;;
  match readUInt32BE lengthData with
  | None => fail (trap "load out of bounds")
  | Some length =>
      if (0 <? length) && (length <? 10000000) then readExactly length
      else fail (thrown (ipcError ("Invalid message length: " ++
                                   decimal length)%string))
  end.

(** The bytes still to come: those buffered, then those in flight. *)
Definition stream (c : State) : bytes := readBuffer c ++ concat (incoming c).

Section Call.
Variable F : Runtime.

(** [ensureWorkletStarted()]: [Task.sleep] throws when the task is
    cancelled, before [ipc] and [isWorkletStarted] are set. *)
Definition ensureWorkletStarted : Swift unit :=
  fun c =>
    if isWorkletStarted c then (Ok tt, c)
    else if sleepCancelled F then (Fail cancellation, c)
    else (Ok tt, mkState (requestId c) true true (readBuffer c)
                   (incoming c) (outgoing c)).

(** [call(method:params:)] *)
Definition call (method : string) (params : list (string * json))
    : Swift (list (string * json)) :=
  ensureWorkletStarted ;;;
  id <- nextRequestId ;;
  let request := JObj [ ("jsonrpc", JStr "2.0"); ("id", JNum id);
                        ("method", JStr method); ("params", JObj params) ] in
  match data F request with
  | None => fail (serialization "JSONSerialization.data")
  | Some requestData =>
      writeFramed requestData ;;;
      responseData <- readFramed ;;
      match jsonObject F responseData with
      | None => fail (serialization "JSONSerialization.jsonObject")
      | Some (JObj response) =>
          match assoc "error" response with
          | Some (JObj error) =>
              let errorMessage :=
                match assoc "message" error with
                | Some (JStr m) => m
                | _ => "Unknown error"
                end in
              let errorCode :=
                match assoc "code" error with
                | Some (JStr c) => c
                | _ => "UNKNOWN"
                end in
              fail (thrown (rpcError errorCode errorMessage))
          | _ =>
              match assoc "result" response with
              | Some (JObj result) => ret result
              | _ =>
                  fail (thrown (invalidResponse "Missing result in response"))
              end
          end
      | Some _ => fail (thrown (invalidResponse "Invalid JSON response"))
      end
  end.

End Call.

(** What [call] makes of a response object: it looks at [error], then at
    [result], and at nothing else; the [id] of the response is not read. *)
Definition outcomeOf (response : list (string * json))
    : result (list (string * json)) :=
  match assoc "error" response with
  | Some (JObj error) =>
      Fail (thrown (rpcError
                      match assoc "code" error with
                      | Some (JStr c) => c
                      | _ => "UNKNOWN"
                      end
                      match assoc "message" error with
                      | Some (JStr m) => m
                      | _ => "Unknown error"
                      end))
  | _ =>
      match assoc "result" response with
      | Some (JObj result) => Ok result
      | _ => Fail (thrown (invalidResponse "Missing result in response"))
      end
  end.

(** Ids handed out by [n] successive runs of the block of [nextRequestId],
    whoever the callers are; [None] if one of them traps. *)
Fixpoint issue (n : nat) (c : State) : option (list Z * State) :=
  match n with
  | O => Some ([], c)
  | S n' =>
      match nextRequestId c with
      | (Ok id, c') =>
          match issue n' c' with
          | Some (ids, c'') => Some (id :: ids, c'')
          | None => None
          end
      | (Fail _, _) => None
      end
  end.

End Client.

(* --------------------------------------------------------------------- *)
(*  The public methods of WDKClient (WDKClient.swift, WDKModels.swift)    *)
(* --------------------------------------------------------------------- *)

Module ClientAPI.
Import JS Client.

(** [struct EntropyResult] *)
Record EntropyResult : Type := mkEntropyResult {
  entropyEncryptionKey : string;
  entropyEncryptedSeedBuffer : string;
  entropyEncryptedEntropyBuffer : string
}.

(** [struct SeedAndEntropyResult] *)
Record SeedAndEntropyResult : Type := mkSeedAndEntropyResult {
  encryptionKey : string;
  encryptedSeedBuffer : string;
  encryptedEntropyBuffer : string
}.

(** [value as? String] on a member of a decoded JSON object. *)
Definition asString (v : value) : option string :=
  match v with
  | Some (JStr s) => Some s
  | _ => None
  end.

(** [value as? [String]] on a decoded JSON array. *)
Fixpoint asStrings (items : list json) : option (list string) :=
  match items with
  | [] => Some []
  | JStr s :: rest =>
      match asStrings rest with
      | Some l => Some (s :: l)
      | None => None
      end
  | _ :: _ => None
  end.

Section API.
Variable F : Runtime.

(** [workletStart()] *)
Definition workletStart : Swift unit :=
  call F "workletStart" [] ;;; ret tt.

(** [generateEntropyAndEncrypt(wordCount:)] *)
Definition generateEntropyAndEncrypt (wordCount : Z) : Swift EntropyResult :=
  result <- call F "generateEntropyAndEncrypt"
              [("wordCount", JNum wordCount)] ;;
  match asString (assoc "encryptionKey" result),
        asString (assoc "encryptedSeedBuffer" result),
        asString (assoc "encryptedEntropyBuffer" result) with
  | Some key, Some seed, Some entropy => ret (mkEntropyResult key seed entropy)
  | _, _, _ =>
      fail (thrown (invalidResponse
                      "Invalid generateEntropyAndEncrypt response"))
  end.

(** [getMnemonicFromEntropy(encryptedEntropy:encryptionKey:)] *)
Definition getMnemonicFromEntropy (encryptedEntropy encryptionKey : string)
    : Swift string :=
  result <- call F "getMnemonicFromEntropy"
              [ ("encryptedEntropy", JStr encryptedEntropy);
                ("encryptionKey", JStr encryptionKey) ] ;;
  match asString (assoc "mnemonic" result) with
  | Some mnemonic => ret mnemonic
  | None =>
      fail (thrown (invalidResponse "Invalid getMnemonicFromEntropy response"))
  end.

(** [getSeedAndEntropyFromMnemonic(mnemonic:)] *)
Definition getSeedAndEntropyFromMnemonic (mnemonic : string)
    : Swift SeedAndEntropyResult :=
  result <- call F "getSeedAndEntropyFromMnemonic"
              [("mnemonic", JStr mnemonic)] ;;
  match asString (assoc "encryptionKey" result),
        asString (assoc "encryptedSeedBuffer" result),
        asString (assoc "encryptedEntropyBuffer" result) with
  | Some key, Some seed, Some entropy =>
      ret (mkSeedAndEntropyResult key seed entropy)
  | _, _, _ =>
      fail (thrown (invalidResponse
                      "Invalid getSeedAndEntropyFromMnemonic response"))
  end.

(** [initializeWDK(encryptionKey:encryptedSeed:config:)] *)
Definition initializeWDK (encryptionKey encryptedSeed config : string)
    : Swift unit :=
  call F "initializeWDK"
    [ ("encryptionKey", JStr encryptionKey);
      ("encryptedSeed", JStr encryptedSeed); ("config", JStr config) ] ;;;
  ret tt.

(** The [params] dictionary of [callMethod]: [args] and [options] are set
    only when given. *)
Definition callMethodParams (methodName network : string) (accountIndex : Z)
    (args options : option string) : list (string * json) :=
  [ ("methodName", JStr methodName); ("network", JStr network);
    ("accountIndex", JNum accountIndex) ]
  ++ match args with
     | Some a => [("args", JStr a)]
     | None => []
     end
  ++ match options with
     | Some o => [("options", JStr o)]
     | None => []
     end.

(** [callMethod(methodName:network:accountIndex:args:options:)] *)
Definition callMethod (methodName network : string) (accountIndex : Z)
    (args options : option string) : Swift json :=
  result <- call F "callMethod"
              (callMethodParams methodName network accountIndex args options) ;;
  match assoc "result" result with
  | Some methodResult => ret methodResult
  | None => fail (thrown (invalidResponse "Invalid callMethod response"))
  end.

(** [registerWallet(config:)] *)
Definition registerWallet (config : string) : Swift (list string) :=
  result <- call F "registerWallet" [("config", JStr config)] ;;
  match asString (assoc "blockchains" result) with
  | None => fail (thrown (invalidResponse "Invalid registerWallet response"))
  | Some blockchainsString =>
      match jsonObject F (list_byte_of_string blockchainsString) with
      | Some (JArr items) =>
          match asStrings items with
          | Some blockchains => ret blockchains
          | None =>
              fail (thrown (invalidResponse "Invalid blockchains format"))
          end
      | _ => fail (thrown (invalidResponse "Invalid blockchains format"))
      end
  end.

(** [registerProtocol(config:)] *)
Definition registerProtocol (config : string) : Swift unit :=
  call F "registerProtocol" [("config", JStr config)] ;;; ret tt.

(** [dispose()] *)
Definition dispose : Swift unit :=
  call F "dispose" [] ;;; ret tt.

(** [getAddress(network:accountIndex:)] *)
Definition getAddress (network : string) (accountIndex : Z) : Swift string :=
  result <- callMethod "getAddress" network accountIndex None None ;;
  match result with
  | JStr address => ret address
  | _ => fail (thrown (invalidResponse "Invalid address format"))
  end.

(** [getBalance(network:accountIndex:)] *)
Definition getBalance (network : string) (accountIndex : Z) : Swift string :=
  result <- callMethod "getBalance" network accountIndex None None ;;
  match result with
  | JStr balance => ret balance
  | _ => fail (thrown (invalidResponse "Invalid balance format"))
  end.

(** Calls made one after the other, each awaited before the next is
    issued, by a caller that catches what a call throws and goes on; the
    outcome of each call is kept. *)
Fixpoint callAll (requests : list (string * list (string * json)))
    (c : State) : list (result (list (string * json))) * State :=
  match requests with
  | [] => ([], c)
  | (method, params) :: rest =>
      let r := call F method params c in
      let r' := callAll rest (snd r) in
      (fst r :: fst r', snd r')
  end.

End API.

End ClientAPI.

(* --------------------------------------------------------------------- *)
(*  A JSON codec for the scenarios                                        *)
(* --------------------------------------------------------------------- *)

(** The theorems of Part II hold for every JSON codec.  The scenarios run
    them on this one: compact output as [JSON.stringify] prints it, and a
    parser for objects, arrays, strings, integers, booleans and [null]
    (numbers with a fraction or an exponent and escapes beyond one byte are
    outside of it). *)
Module MiniJSON.
Import JS.

Definition quote : ascii := ascii_of_nat 34.
Definition backslash : ascii := ascii_of_nat 92.

Definition codeOf (c : ascii) : Z := Z.of_nat (nat_of_ascii c).

Definition charOf (z : Z) : ascii := ascii_of_nat (Z.to_nat z).

Definition hexDigit (z : Z) : ascii :=
  if z <? 10 then charOf (48 + z) else charOf (87 + z).

Definition escapeChar (c : ascii) : string :=
  let n := codeOf c in
  if n =? 34 then String backslash (String quote EmptyString)
  else if n =? 92 then String backslash (String backslash EmptyString)
  else if n =? 8 then String backslash "b"
  else if n =? 9 then String backslash "t"
  else if n =? 10 then String backslash "n"
  else if n =? 12 then String backslash "f"
  else if n =? 13 then String backslash "r"
  else if n <? 32 then
    String backslash
      (String "u" (String "0" (String "0"
         (String (hexDigit (n / 16)) (String (hexDigit (n mod 16))
            EmptyString)))))
  else String c EmptyString.

Fixpoint escape (s : string) : string :=
  match s with
  | EmptyString => EmptyString
  | String c rest => (escapeChar c ++ escape rest)%string
  end.

Definition quoted (s : string) : string :=
  String quote (escape s ++ String quote EmptyString)%string.

(** [JSON.stringify(v)] *)
Fixpoint print (v : json) : string :=
  match v with
  | JNull => "null"
  | JBool true => "true"
  | JBool false => "false"
  | JNum n => decimal n
  | JStr s => quoted s
  | JArr items =>
      "[" ++
      (fix join (l : list json) : string :=
         match l with
         | [] => EmptyString
         | x :: rest =>
             match rest with
             | [] => print x
             | _ => print x ++ "," ++ join rest
             end
         end) items ++ "]"
  | JObj fields =>
      "{" ++
      (fix join (l : list (string * json)) : string :=
         match l with
         | [] => EmptyString
         | (k, x) :: rest =>
             match rest with
             | [] => quoted k ++ ":" ++ print x
             | _ => quoted k ++ ":" ++ print x ++ "," ++ join rest
             end
         end) fields ++ "}"
  end%string.

Definition isSpace (c : ascii) : bool :=
  let n := codeOf c in (n =? 32) || (n =? 9) || (n =? 10) || (n =? 13).

Fixpoint skipWs (s : string) : string :=
  match s with
  | String c rest => if isSpace c then skipWs rest else s
  | EmptyString => s
  end.

Definition digitOf (c : ascii) : option Z :=
  let n := codeOf c in
  if (48 <=? n) && (n <=? 57) then Some (n - 48) else None.

Definition hexOf (c : ascii) : option Z :=
  let n := codeOf c in
  if (48 <=? n) && (n <=? 57) then Some (n - 48)
  else if (97 <=? n) && (n <=? 102) then Some (n - 87)
  else if (65 <=? n) && (n <=? 70) then Some (n - 55)
  else None.

Fixpoint digits (s : string) (acc : Z) : Z * string :=
  match s with
  | String c rest =>
      match digitOf c with
      | Some d => digits rest (10 * acc + d)
      | None => (acc, s)
      end
  | EmptyString => (acc, s)
  end.

(** An integer; a fraction or an exponent after it is refused. *)
Definition number (s : string) : option (Z * string) :=
  let unsigned (t : string) : option (Z * string) :=
    match t with
    | String c _ =>
        match digitOf c with
        | Some _ =>
            let r := digits t 0 in
            match snd r with
            | String "." _ | String "e" _ | String "E" _ => None
            | _ => Some r
            end
        | None => None
        end
    | EmptyString => None
    end in
  match s with
  | String "-" rest =>
      match unsigned rest with
      | Some (n, r) => Some (- n, r)
      | None => None
      end
  | _ => unsigned s
  end.

(** The inside of a string, after the opening quote. *)
Fixpoint stringBody (s : string) (acc : string) : option (string * string) :=
  match s with
  | EmptyString => None
  | String c rest =>
      if codeOf c =? 34 then Some (acc, rest)
      else if codeOf c =? 92 then
        match rest with
        | String e rest' =>
            let simple (ch : ascii) :=
              stringBody rest' (acc ++ String ch EmptyString)%string in
            if codeOf e =? 34 then simple quote
            else if codeOf e =? 92 then simple backslash
            else if codeOf e =? 47 then simple "/"%char
            else if codeOf e =? 98 then simple (charOf 8)
            else if codeOf e =? 116 then simple (charOf 9)
            else if codeOf e =? 110 then simple (charOf 10)
            else if codeOf e =? 102 then simple (charOf 12)
            else if codeOf e =? 114 then simple (charOf 13)
            else if codeOf e =? 117 then
              match rest' with
              | String h3 (String h2 (String h1 (String h0 rest''))) =>
                  match hexOf h3, hexOf h2, hexOf h1, hexOf h0 with
                  | Some 0, Some 0, Some a, Some b =>
                      stringBody rest''
                        (acc ++ String (charOf (16 * a + b)) EmptyString)%string
                  | _, _, _, _ => None
                  end
              | _ => None
              end
            else None
        | EmptyString => None
        end
      else if codeOf c <? 32 then None
      else stringBody rest (acc ++ String c EmptyString)%string
  end.

Definition literalAt (word : string) (s : string) : option string :=
  if String.prefix word s
  then Some (String.substring (String.length word)
               (String.length s - String.length word) s)
  else None.

(** A value, then what follows it; [fuel] bounds the nesting and the
    number of members, the length of the text is always enough. *)
Fixpoint value (fuel : nat) (s : string) : option (json * string) :=
  match fuel with
  | O => None
  | S fuel' =>
      match skipWs s with
      | EmptyString => None
      | String c rest as t =>
          if codeOf c =? 34 then
            match stringBody rest EmptyString with
            | Some (str, r) => Some (JStr str, r)
            | None => None
            end
          else if codeOf c =? 91 then
            match skipWs rest with
            | String "]" r => Some (JArr [], r)
            | _ => elements fuel' rest []
            end
          else if codeOf c =? 123 then
            match skipWs rest with
            | String "}" r => Some (JObj [], r)
            | _ => members fuel' rest []
            end
          else
            match literalAt "null" t, literalAt "true" t,
                  literalAt "false" t with
            | Some r, _, _ => Some (JNull, r)
            | _, Some r, _ => Some (JBool true, r)
            | _, _, Some r => Some (JBool false, r)
            | _, _, _ =>
                match number t with
                | Some (n, r) => Some (JNum n, r)
                | None => None
                end
            end
      end
  end
with elements (fuel : nat) (s : string) (acc : list json)
    : option (json * string) :=
  match fuel with
  | O => None
  | S fuel' =>
      match value fuel' s with
      | Some (v, r) =>
          match skipWs r with
          | String "," r' => elements fuel' r' (acc ++ [v])
          | String "]" r' => Some (JArr (acc ++ [v]), r')
          | _ => None
          end
      | None => None
      end
  end
with members (fuel : nat) (s : string) (acc : list (string * json))
    : option (json * string) :=
  match fuel with
  | O => None
  | S fuel' =>
      match skipWs s with
      | String c rest =>
          if codeOf c =? 34 then
            match stringBody rest EmptyString with
            | Some (key, r) =>
                match skipWs r with
                | String ":" r' =>
                    match value fuel' r' with
                    | Some (v, r'') =>
                        match skipWs r'' with
                        | String "," r3 => members fuel' r3 (acc ++ [(key, v)])
                        | String "}" r3 => Some (JObj (acc ++ [(key, v)]), r3)
                        | _ => None
                        end
                    | None => None
                    end
                | _ => None
                end
            | None => None
            end
          else None
      | EmptyString => None
      end
  end.

(** [JSON.parse(text)]: one value, then nothing but white space. *)
Definition parse (text : string) : option json :=
  match value (S (String.length text)) text with
  | Some (v, rest) =>
      match skipWs rest with
      | EmptyString => Some v
      | _ => None
      end
  | None => None
  end.

End MiniJSON.

(* --------------------------------------------------------------------- *)
(*  A platform for the scenarios                                          *)
(* --------------------------------------------------------------------- *)

Module Scenario.
Import JS.

Definition plainError (msg : string) : Worklet.jsError :=
  Worklet.mkError (Worklet.Plain msg) None.

(** Modelled from the spec: [validateNonEmptyString] of utils/validation.js
    (not among the sources); a missing or wrong-typed field is refused. *)
Definition validateNonEmptyString (v : value) (name : string)
    : option Worklet.jsError :=
  match v with
  | Some (JStr (String _ _)) => None
  | _ => Some (plainError (name ++ " must be a non-empty string")%string)
  end.

(** Modelled from the spec: [validateJSON] of utils/validation.js (not among
    the sources); it hands back the parsed value. *)
Definition validateJSON (v : value) (name : string)
    : Worklet.jsError + json :=
  match v with
  | Some (JStr s) =>
      match MiniJSON.parse s with
      | Some parsed => inr parsed
      | None => inl (plainError (name ++ " must be valid JSON")%string)
      end
  | _ => inl (plainError (name ++ " must be a JSON string")%string)
  end.

Definition base64Char (c : ascii) : bool :=
  let n := MiniJSON.codeOf c in
  ((65 <=? n) && (n <=? 90)) || ((97 <=? n) && (n <=? 122))
  || ((48 <=? n) && (n <=? 57)) || (n =? 43) || (n =? 47) || (n =? 61).

Fixpoint allChars (p : ascii -> bool) (s : string) : bool :=
  match s with
  | EmptyString => true
  | String c rest => p c && allChars p rest
  end.

(** Modelled from the spec: [validateBase64] of utils/validation.js (not
    among the sources). *)
Definition validateBase64 (v : value) (name : string)
    : option Worklet.jsError :=
  match v with
  | Some (JStr (String _ _ as s)) =>
      if allChars base64Char s then None
      else Some (plainError (name ++ " must be base64")%string)
  | _ => Some (plainError (name ++ " must be base64")%string)
  end.

(** A stand-in for [decrypt] of utils/crypto.js: the seed is the bytes of
    the first argument.  No cryptography is modelled, and no theorem below
    runs a scenario as far as this call. *)
Definition decrypt (encrypted key : value) : Worklet.jsError + bytes :=
  match encrypted, key with
  | Some (JStr e), Some (JStr _) => inr (list_byte_of_string e)
  | _, _ => inl (plainError "Invalid encrypted data")
  end.

(** Modelled from the spec: [createStructuredError] of
    exceptions/rpc-exception.js (not among the sources): the code of the
    error, else the default, else UNKNOWN, with the message of the error. *)
Definition createStructuredError (error : Worklet.jsError)
    (defaultErrorCode : option string) : Worklet.StructuredError :=
  Worklet.mkStructured
    match Worklet.code error, defaultErrorCode with
    | Some c, _ => c
    | None, Some d => d
    | None, None => "UNKNOWN"
    end
    match Worklet.message error with
    | Worklet.Plain s => s
    | Worklet.Json v => MiniJSON.print v
    end
    None.

(** The entropy, mnemonic and account libraries are not linked in the
    scenarios: the handlers that forward to them throw. *)
Definition notLinked (_ : value) : Worklet.outcome Worklet.result :=
  Worklet.Thrown (plainError "library not linked").

(** Numbers print in decimal, as the runtime prints the integers of the
    scenarios. *)
Definition platform : Worklet.Platform :=
  Worklet.mkPlatform MiniJSON.parse MiniJSON.print decimal
    validateNonEmptyString validateJSON validateBase64 decrypt
    createStructuredError notLinked notLinked notLinked
    (fun params _ => notLinked params).

(** The runtime of a client whose tasks are not cancelled. *)
Definition foundation : Client.Runtime :=
  Client.mkRuntime
    (fun v => Some (list_byte_of_string (MiniJSON.print v)))
    (fun b => MiniJSON.parse (string_of_list_byte b))
    false.

(** The same runtime for a task that is cancelled during the start-up. *)
Definition cancelled : Client.Runtime :=
  Client.mkRuntime
    (fun v => Some (list_byte_of_string (MiniJSON.print v)))
    (fun b => MiniJSON.parse (string_of_list_byte b))
    true.

(** A request envelope and its frame, as the client sends them. *)
Definition request (id : Z) (method : string) (params : list (string * json))
    : json :=
  JObj [ ("jsonrpc", JStr "2.0"); ("id", JNum id); ("method", JStr method);
         ("params", JObj params) ].

Definition frameOf (v : json) : bytes :=
  Worklet.framed (list_byte_of_string (MiniJSON.print v)).

(** A worker that has just started. *)
Definition idle : bytes * Worklet.Worker :=
  ([], Worklet.mkWorker (Worklet.mkSession None []) []).

End Scenario.

(* --------------------------------------------------------------------- *)
(*  An account library for the scenarios                                  *)
(* --------------------------------------------------------------------- *)

Module Fixture.
Import JS.

(** White space taken off both ends; the scenarios use ASCII only. *)
Definition trim (s : string) : string :=
  let front := MiniJSON.skipWs s in
  string_of_list_ascii
    (rev (list_ascii_of_string
            (MiniJSON.skipWs
               (string_of_list_ascii (rev (list_ascii_of_string front)))))).

(** Modelled from the spec: [validateNonNegativeInteger] of
    utils/validation.js (not among the sources). *)
Definition validateNonNegativeInteger (v : value) (name : string)
    : option Worklet.jsError :=
  match v with
  | Some (JNum n) =>
      if 0 <=? n then None
      else Some (Scenario.plainError
                   (name ++ " must be a non-negative integer")%string)
  | _ => Some (Scenario.plainError
                 (name ++ " must be a non-negative integer")%string)
  end.

(** A stand-in for the account library: every network has one account,
    named after it, with three methods: [getAddress] yields a text,
    [getBalance] a BigInt and [sync] nothing; no protocol is registered
    and the secret-sharing library is not linked. *)
Definition library : RpcHandlers.Library string unit :=
  RpcHandlers.mkLibrary string unit
    trim
    validateNonNegativeInteger
    (fun result =>
       match result with
       | RpcHandlers.Data v => inr v
       | RpcHandlers.Opaque _ => inr (JObj [])
       | _ => inl (Scenario.plainError "Unexpected token")
       end)
    (fun _ network _ => inr network)
    (fun _ _ => inl (Scenario.plainError "No swap protocol registered"))
    (fun _ _ => inl (Scenario.plainError "No bridge protocol registered"))
    (fun _ _ => inl (Scenario.plainError "No lending protocol registered"))
    (fun _ _ => inl (Scenario.plainError "No fiat protocol registered"))
    (fun _ key =>
       match key with
       | Some (JStr name) =>
           String.eqb name "getAddress" || String.eqb name "getBalance"
           || String.eqb name "sync"
       | _ => false
       end)
    (fun _ => ["index"; "path"])
    (fun account key _ =>
       match key with
       | Some (JStr name) =>
           if String.eqb name "getAddress" then
             Worklet.Returned (RpcHandlers.Data (JStr ("0x" ++ account)))
           else if String.eqb name "getBalance" then
             Worklet.Returned RpcHandlers.BigInt
           else Worklet.Returned RpcHandlers.Undefined
       | _ => Worklet.Thrown (Scenario.plainError "not a function")
       end)
    (fun _ _ _ => inl (Scenario.plainError "library not linked"))
    (fun _ => inl (Scenario.plainError "library not linked")).

End Fixture.

(* ===================================================================== *)
(*  Part II.  Proofs                                                      *)
(* ===================================================================== *)

(* --------------------------------------------------------------------- *)
(*  The length field                                                      *)
(* --------------------------------------------------------------------- *)

Lemma land_255 z : Z.land z 255 = z mod 256.
Proof. exact (Z.land_ones z 8 ltac:(lia)). Qed.

Lemma Z_of_byte_of_Z z : Z_of_byte (byte_of_Z z) = Z.land z 255.
Proof.
  unfold Z_of_byte, byte_of_Z.
  assert (Hr : 0 <= Z.land z 255 <= 255).
  { rewrite land_255. pose proof (Z.mod_pos_bound z 256). lia. }
  destruct (Byte.of_N (Z.to_N (Z.land z 255))) as [b|] eqn:Hb.
  - apply Byte.to_of_N in Hb. rewrite Hb. lia.
  - apply Byte.of_N_None_iff in Hb. lia.
Qed.

Lemma testbit_255 i : 0 <= i -> Z.testbit 255 i = (i <? 8).
Proof.
  intros Hi. change 255 with (Z.ones 8).
  destruct (Z.ltb_spec i 8).
  - apply Z.ones_spec_low. lia.
  - apply Z.ones_spec_high. lia.
Qed.

Ltac bit_cases :=
  repeat match goal with
  | |- context [Z.testbit 255 ?j] =>
      first [ rewrite (testbit_255 j) by lia
            | rewrite (Z.testbit_neg_r 255 j) by lia ]
  | |- context [Z.testbit (Z.shiftr ?v ?k) ?j] =>
      first [ rewrite (Z.shiftr_spec v k j) by lia
            | rewrite (Z.testbit_neg_r (Z.shiftr v k) j) by lia ]
  | |- context [?a <? ?b] => destruct (Z.ltb_spec a b); try lia
  end;
  rewrite ?andb_true_r, ?andb_false_r, ?andb_false_l, ?orb_false_r,
    ?orb_false_l;
  try reflexivity; try (f_equal; lia).

(** Reading back the four bytes written for [v] gives [v] modulo 2^32. *)
Lemma be32_of_bytes v :
  be32 (byte_of_Z (Z.shiftr v 24)) (byte_of_Z (Z.shiftr v 16))
       (byte_of_Z (Z.shiftr v 8)) (byte_of_Z v) = v mod 2 ^ 32.
Proof.
  unfold be32. rewrite !Z_of_byte_of_Z.
  apply Z.bits_inj'. intros i Hi.
  rewrite !Z.lor_spec, !Z.shiftl_spec, !Z.land_spec by lia.
  destruct (Z.ltb_spec i 32) as [Hlt|Hge].
  - rewrite Z.mod_pow2_bits_low by lia.
    destruct (Z.ltb_spec i 8);
      [|destruct (Z.ltb_spec i 16); [|destruct (Z.ltb_spec i 24)]];
      bit_cases.
  - rewrite Z.mod_pow2_bits_high by lia. bit_cases.
Qed.

Lemma be32_nonneg b0 b1 b2 b3 : 0 <= be32 b0 b1 b2 b3.
Proof.
  unfold be32. rewrite !Z.lor_nonneg, !Z.shiftl_nonneg.
  unfold Z_of_byte; repeat split; apply N2Z.is_nonneg.
Qed.

Lemma readUInt32BE_nonneg buf n : readUInt32BE buf = Some n -> 0 <= n.
Proof.
  destruct buf as [|b0 [|b1 [|b2 [|b3 r]]]]; cbn [readUInt32BE];
    try discriminate.
  intros H. assert (n = be32 b0 b1 b2 b3) as -> by congruence.
  apply be32_nonneg.
Qed.

Lemma readUInt32BE_write v rest :
  readUInt32BE (writeUInt32BE v ++ rest) = Some (v mod 2 ^ 32).
Proof.
  unfold writeUInt32BE. cbn [app readUInt32BE].
  rewrite be32_of_bytes. reflexivity.
Qed.

Lemma readUInt32BE_write_small v rest :
  0 <= v <= UINT32_MAX -> readUInt32BE (writeUInt32BE v ++ rest) = Some v.
Proof.
  intros Hv. rewrite readUInt32BE_write, Z.mod_small; [reflexivity|].
  unfold UINT32_MAX in Hv. change (2 ^ 32) with 4294967296. lia.
Qed.

Lemma readUInt32BE_app buf more n :
  readUInt32BE buf = Some n -> readUInt32BE (buf ++ more) = Some n.
Proof.
  destruct buf as [|b0 [|b1 [|b2 [|b3 r]]]]; cbn [readUInt32BE app];
    try discriminate; auto.
Qed.

Lemma blen_app a b : blen (a ++ b) = blen a + blen b.
Proof. unfold blen. rewrite length_app. lia. Qed.

Lemma blen_nonneg a : 0 <= blen a.
Proof. unfold blen. lia. Qed.

Lemma blen_writeUInt32BE v : blen (writeUInt32BE v) = 4.
Proof. reflexivity. Qed.

(* --------------------------------------------------------------------- *)
(*  Framing in the worklet                                                *)
(* --------------------------------------------------------------------- *)

Module WorkletFraming.
Import Worklet.

Lemma nextFrame_Some readBuffer messageData rest :
  nextFrame readBuffer = Some (messageData, rest) ->
  exists n, readUInt32BE readBuffer = Some n /\ 0 <= n /\
            4 + n <= blen readBuffer /\
            messageData = slice 4 (4 + n) readBuffer /\
            rest = slice_from (4 + n) readBuffer.
Proof.
  unfold nextFrame.
  destruct (Z.leb_spec 4 (blen readBuffer)) as [H4|H4]; [|discriminate].
  destruct (readUInt32BE readBuffer) as [n|] eqn:Hn; [|discriminate].
  destruct (Z.ltb_spec (blen readBuffer) (4 + n)) as [Hlt|Hge];
    [discriminate|].
  intros H. exists n.
  pose proof (readUInt32BE_nonneg _ _ Hn).
  repeat split; auto; congruence.
Qed.

Lemma nextFrame_shrinks readBuffer messageData rest :
  nextFrame readBuffer = Some (messageData, rest) ->
  (length rest < length readBuffer)%nat.
Proof.
  intros H. apply nextFrame_Some in H.
  destruct H as (n & _ & Hn & Hlen & _ & ->).
  unfold slice_from, blen in *. rewrite length_skipn. lia.
Qed.

(** A frame that is complete stays the next frame when more bytes follow. *)
Lemma nextFrame_app readBuffer more messageData rest :
  nextFrame readBuffer = Some (messageData, rest) ->
  nextFrame (readBuffer ++ more) = Some (messageData, rest ++ more).
Proof.
  intros H. apply nextFrame_Some in H.
  destruct H as (n & Hrd & Hn & Hlen & -> & ->).
  unfold nextFrame. rewrite blen_app.
  pose proof (blen_nonneg more).
  destruct (Z.leb_spec 4 (blen readBuffer + blen more)); [|lia].
  rewrite (readUInt32BE_app _ more _ Hrd).
  destruct (Z.ltb_spec (blen readBuffer + blen more) (4 + n)); [lia|].
  unfold slice, slice_from, blen in *.
  rewrite !skipn_app, firstn_app.
  replace (Z.to_nat (4 + n) - length readBuffer)%nat with 0%nat by lia.
  rewrite length_skipn.
  replace (Z.to_nat (4 + n - 4) - (length readBuffer - Z.to_nat 4))%nat
    with 0%nat by lia.
  cbn [skipn firstn]. rewrite app_nil_r. reflexivity.
Qed.

(** The frame built by [framed] is read back whole, whatever follows. *)
Lemma nextFrame_framed payload rest :
  blen payload <= UINT32_MAX ->
  nextFrame (framed payload ++ rest) = Some (payload, rest).
Proof.
  intros Hlen. pose proof (blen_nonneg payload) as H0.
  pose proof (blen_nonneg rest) as H1.
  unfold nextFrame, framed. rewrite <- app_assoc.
  rewrite readUInt32BE_write_small by lia.
  rewrite !blen_app, blen_writeUInt32BE.
  destruct (Z.leb_spec 4 (4 + (blen payload + blen rest))); [|lia].
  destruct (Z.ltb_spec (4 + (blen payload + blen rest)) (4 + blen payload));
    [lia|].
  unfold slice, slice_from.
  replace (Z.to_nat (4 + blen payload - 4)) with (length payload)
    by (unfold blen; lia).
  replace (Z.to_nat (4 + blen payload)) with (4 + length payload)%nat
    by (unfold blen; lia).
  change (Z.to_nat 4) with 4%nat.
  unfold writeUInt32BE.
  cbn [app skipn Nat.add].
  rewrite firstn_app, firstn_all, Nat.sub_diag, skipn_app, skipn_all,
    Nat.sub_diag.
  cbn [firstn skipn app]. rewrite app_nil_r. reflexivity.
Qed.

(** A header without its whole payload is not a frame yet. *)
Lemma nextFrame_incomplete payload k :
  blen payload <= UINT32_MAX -> (k < length payload)%nat ->
  nextFrame (writeUInt32BE (blen payload) ++ firstn k payload) = None.
Proof.
  intros Hlen Hk. pose proof (blen_nonneg payload) as H0.
  unfold nextFrame.
  rewrite readUInt32BE_write_small by lia.
  rewrite blen_app, blen_writeUInt32BE.
  unfold blen at 1 2. rewrite firstn_length_le by lia.
  destruct (Z.leb_spec 4 (4 + Z.of_nat k)); [|lia].
  unfold blen.
  destruct (Z.ltb_spec (4 + Z.of_nat k) (4 + Z.of_nat (length payload)));
    [reflexivity|lia].
Qed.

Section LoopFacts.
Context {S : Type}.
Variable onMessage : bytes -> S -> S.

Lemma frameLoop_Some readBuffer s messageData rest :
  nextFrame readBuffer = Some (messageData, rest) ->
  frameLoop onMessage readBuffer s =
  frameLoop onMessage rest (onMessage messageData s).
Proof.
  intros H. rewrite frameLoop_equation_1.
  destruct (inspect (nextFrame readBuffer)) as [[[m r]|] Hy];
    cbn [frameLoop_unfold_clause_1]; congruence.
Qed.

Lemma frameLoop_None readBuffer s :
  nextFrame readBuffer = None ->
  frameLoop onMessage readBuffer s = (readBuffer, s).
Proof.
  intros H. rewrite frameLoop_equation_1.
  destruct (inspect (nextFrame readBuffer)) as [[[m r]|] Hy];
    cbn [frameLoop_unfold_clause_1]; congruence.
Qed.

(** Running the loop on a buffer followed by more bytes is running it on
    the buffer, then on what it left followed by those bytes. *)
Lemma frameLoop_app more readBuffer s :
  frameLoop onMessage (readBuffer ++ more) s =
  frameLoop onMessage (fst (frameLoop onMessage readBuffer s) ++ more)
                      (snd (frameLoop onMessage readBuffer s)).
Proof.
  remember (length readBuffer) as k eqn:Hk.
  revert readBuffer s Hk.
  induction k as [k IH] using lt_wf_ind. intros readBuffer s Hk.
  destruct (nextFrame readBuffer) as [[m r]|] eqn:Hnf.
  - rewrite (frameLoop_Some (readBuffer ++ more) s m (r ++ more))
      by (apply nextFrame_app; exact Hnf).
    rewrite (frameLoop_Some readBuffer s m r Hnf).
    apply (IH (length r)); [|reflexivity].
    subst k. eapply nextFrame_shrinks; eauto.
  - rewrite (frameLoop_None readBuffer s Hnf). reflexivity.
Qed.

(** Chunking does not matter: feeding the chunks one by one is feeding
    their concatenation at once. *)
Lemma feedAll_concat chunks readBuffer s :
  feedAll onMessage chunks (frameLoop onMessage readBuffer s) =
  frameLoop onMessage (readBuffer ++ concat chunks) s.
Proof.
  revert readBuffer s. induction chunks as [|c cs IH]; intros readBuffer s.
  - cbn [feedAll fold_left concat]. rewrite app_nil_r. reflexivity.
  - cbn [feedAll fold_left concat]. unfold feed at 2.
    rewrite <- frameLoop_app.
    change (feedAll onMessage cs (frameLoop onMessage (readBuffer ++ c) s) =
            frameLoop onMessage (readBuffer ++ c ++ concat cs) s).
    rewrite IH, app_assoc. reflexivity.
Qed.

(** A stream of whole frames is consumed frame by frame, in order. *)
Lemma frameLoop_frames payloads s :
  Forall (fun p => blen p <= UINT32_MAX) payloads ->
  frameLoop onMessage (concat (map framed payloads)) s =
  ([], fold_left (fun s p => onMessage p s) payloads s).
Proof.
  intros Hall. revert s. induction Hall as [|p ps Hp _ IH]; intros s.
  - cbn [map concat fold_left]. apply frameLoop_None. reflexivity.
  - cbn [map concat fold_left].
    rewrite (frameLoop_Some _ s p (concat (map framed ps)))
      by (apply nextFrame_framed; exact Hp).
    apply IH.
Qed.

Lemma feedAll_frames chunks payloads s :
  Forall (fun p => blen p <= UINT32_MAX) payloads ->
  concat chunks = concat (map framed payloads) ->
  feedAll onMessage chunks ([], s) =
  ([], fold_left (fun s p => onMessage p s) payloads s).
Proof.
  intros Hall Hcat.
  rewrite <- (frameLoop_None [] s) at 1 by reflexivity.
  rewrite feedAll_concat. cbn [app]. rewrite Hcat.
  apply frameLoop_frames. exact Hall.
Qed.

End LoopFacts.

(** The messages the loop collects are appended to those it started with. *)
Lemma frameLoop_push readBuffer messages :
  frameLoop TestFraming.push readBuffer messages =
  (fst (frameLoop TestFraming.push readBuffer []),
   messages ++ snd (frameLoop TestFraming.push readBuffer [])).
Proof.
  remember (length readBuffer) as k eqn:Hk.
  revert readBuffer messages Hk.
  induction k as [k IH] using lt_wf_ind. intros readBuffer messages Hk.
  destruct (nextFrame readBuffer) as [[m r]|] eqn:Hnf.
  - rewrite !(frameLoop_Some TestFraming.push readBuffer _ m r Hnf).
    assert (Hr : (length r < k)%nat)
      by (subst k; eapply nextFrame_shrinks; eauto).
    rewrite (IH _ Hr r (TestFraming.push m messages) eq_refl).
    rewrite (IH _ Hr r (TestFraming.push m []) eq_refl).
    unfold TestFraming.push. cbn [fst snd app]. rewrite <- app_assoc.
    reflexivity.
  - rewrite !(frameLoop_None TestFraming.push readBuffer _ Hnf).
    cbn [fst snd]. rewrite app_nil_r. reflexivity.
Qed.

End WorkletFraming.

(* --------------------------------------------------------------------- *)
(*  Reading frames in the client                                          *)
(* --------------------------------------------------------------------- *)

Module ClientFraming.
Import Client.

(** The loop of [readExactly] only moves bytes from the transport to the
    buffer, and stops as soon as enough are buffered. *)
Lemma fill_Some count incoming readBuffer buffered rest :
  fill count readBuffer incoming = Some (buffered, rest) ->
  buffered ++ concat rest = readBuffer ++ concat incoming /\
  count <= blen buffered.
Proof.
  revert readBuffer. induction incoming as [|chunk more IH]; intros readBuffer.
  - cbn [fill]. destruct (Z.ltb_spec (blen readBuffer) count) as [Hlt|Hge];
      [discriminate|].
    intros Hf. assert (buffered = readBuffer) as -> by congruence.
    assert (rest = []) as -> by congruence. split; [reflexivity|lia].
  - cbn [fill]. destruct (Z.ltb_spec (blen readBuffer) count) as [Hlt|Hge].
    + intros Hf. apply IH in Hf. destruct Hf as [H1 H2].
      split; [|exact H2]. rewrite H1. cbn [concat].
      rewrite app_assoc. reflexivity.
    + intros Hf. assert (buffered = readBuffer) as -> by congruence.
      assert (rest = chunk :: more) as -> by congruence.
      split; [reflexivity|lia].
Qed.

Lemma fill_None count incoming readBuffer :
  fill count readBuffer incoming = None ->
  blen (readBuffer ++ concat incoming) < count.
Proof.
  revert readBuffer. induction incoming as [|chunk more IH]; intros readBuffer.
  - cbn [fill concat]. rewrite app_nil_r.
    destruct (Z.ltb_spec (blen readBuffer) count); [lia|discriminate].
  - cbn [fill concat].
    destruct (Z.ltb_spec (blen readBuffer) count) as [Hlt|Hge].
    + intros Hf. apply IH in Hf. rewrite <- app_assoc in Hf. exact Hf.
    + discriminate.
Qed.

(** [readExactly] hands over the first [count] bytes of the stream and
    leaves the rest of it, however the stream is cut into chunks. *)
Lemma readExactly_ok count c :
  ipc c = true -> 0 <= count <= blen (stream c) ->
  exists c',
    readExactly count c = (Ok (firstn (Z.to_nat count) (stream c)), c') /\
    stream c' = skipn (Z.to_nat count) (stream c) /\
    requestId c' = requestId c /\ isWorkletStarted c' = isWorkletStarted c /\
    ipc c' = true /\ outgoing c' = outgoing c.
Proof.
  intros Hipc Hcount. unfold readExactly. rewrite Hipc. cbn [negb].
  destruct (fill count (readBuffer c) (incoming c)) as [[buffered rest]|]
    eqn:Hfill.
  - apply fill_Some in Hfill. destruct Hfill as [Hstream Hlen].
    assert (Hz : (Z.to_nat count - length buffered = 0)%nat)
      by (unfold blen in *; lia).
    exists (mkState (requestId c) (isWorkletStarted c) true
              (skipn (Z.to_nat count) buffered) rest (outgoing c)).
    unfold stream. cbn [readBuffer incoming requestId isWorkletStarted ipc
                        outgoing].
    rewrite <- Hstream, firstn_app, skipn_app, Hz.
    cbn [firstn skipn]. rewrite app_nil_r. repeat split; reflexivity.
  - apply fill_None in Hfill. unfold stream in Hcount. lia.
Qed.

(** When the stream ends first, [readExactly] reports the closed
    connection. *)
Lemma readExactly_closed count c :
  ipc c = true -> blen (stream c) < count ->
  fst (readExactly count c) =
  Fail (thrown (ipcError "Connection closed while reading")).
Proof.
  intros Hipc Hcount. unfold readExactly. rewrite Hipc. cbn [negb].
  destruct (fill count (readBuffer c) (incoming c)) as [[buffered rest]|]
    eqn:Hfill; [|reflexivity].
  apply fill_Some in Hfill. destruct Hfill as [Hstream Hlen].
  unfold stream in Hcount. rewrite <- Hstream, blen_app in Hcount.
  pose proof (blen_nonneg (concat rest)). lia.
Qed.

End ClientFraming.

(* --------------------------------------------------------------------- *)
(*  C2: the decoder does not depend on how the stream is cut              *)
(* --------------------------------------------------------------------- *)

Lemma fold_push payloads messages :
  fold_left (fun s p => TestFraming.push p s) payloads messages =
  messages ++ payloads.
Proof.
  revert messages. induction payloads as [|p ps IH]; intros messages.
  - cbn [fold_left]. rewrite app_nil_r. reflexivity.
  - cbn [fold_left]. rewrite IH. unfold TestFraming.push.
    rewrite <- app_assoc. reflexivity.
Qed.

(** The run of the framing test is the worklet loop with [messages.push]
    as body. *)
Lemma TestFraming_run_feedAll chunks readBuffer messages :
  Worklet.feedAll TestFraming.push chunks (readBuffer, messages) =
  (snd (TestFraming.run chunks readBuffer),
   messages ++ fst (TestFraming.run chunks readBuffer)).
Proof.
  revert readBuffer messages.
  induction chunks as [|c cs IH]; intros readBuffer messages.
  - cbn [Worklet.feedAll fold_left TestFraming.run fst snd].
    rewrite app_nil_r. reflexivity.
  - cbn [Worklet.feedAll fold_left TestFraming.run].
    unfold Worklet.feed at 2. cbn [fst snd].
    rewrite WorkletFraming.frameLoop_push.
    change (Worklet.feedAll TestFraming.push cs
              (fst (Worklet.frameLoop TestFraming.push (readBuffer ++ c) []),
               messages ++
               snd (Worklet.frameLoop TestFraming.push (readBuffer ++ c) [])) =
            (snd (TestFraming.run cs
                    (snd (TestFraming.processFramedData c readBuffer))),
             messages ++
             (fst (TestFraming.processFramedData c readBuffer) ++
              fst (TestFraming.run cs
                     (snd (TestFraming.processFramedData c readBuffer)))))).
    rewrite IH. unfold TestFraming.processFramedData. cbn [fst snd].
    rewrite app_assoc. reflexivity.
Qed.

(** C2.  For payloads whose length fits the 4-byte prefix, feeding the
    concatenation of their frames emits exactly the payloads, in order, and
    leaves the buffer empty, whatever the cut of the bytes into chunks:
    for the framing test and for the loop of [processFramedData] with any
    body, which is run on exactly p1, ..., pn; on the client side,
    [readExactly] hands over the same bytes whatever the chunks that
    carried them. *)
Theorem framing_round_trip_under_any_chunking
    (payloads chunks : list bytes) :
  Forall (fun p => blen p <= UINT32_MAX) payloads ->
  concat chunks = concat (map Worklet.framed payloads) ->
  TestFraming.run chunks [] = (payloads, []) /\
  (forall (S : Type) (onMessage : bytes -> S -> S) (s : S),
     Worklet.feedAll onMessage chunks ([], s) =
     ([], fold_left (fun s p => onMessage p s) payloads s)) /\
  (forall (count : Z) (c : Client.State),
     Client.ipc c = true -> 0 <= count <= blen (Client.stream c) ->
     exists c',
       Client.readExactly count c =
         (Client.Ok (firstn (Z.to_nat count) (Client.stream c)), c') /\
       Client.stream c' = skipn (Z.to_nat count) (Client.stream c)).
Proof.
  intros Hall Hcat. split; [|split].
  - pose proof (TestFraming_run_feedAll chunks [] []) as Hrun.
    pose proof (WorkletFraming.feedAll_frames TestFraming.push chunks payloads []
                  Hall Hcat) as Hfed.
    rewrite fold_push in Hfed.
    pose proof (eq_trans (eq_sym Hrun) Hfed) as Heq.
    destruct (TestFraming.run chunks []) as [messages readBuffer].
    cbn [fst snd app] in Heq. injection Heq as -> ->. reflexivity.
  - intros S onMessage s.
    apply WorkletFraming.feedAll_frames; assumption.
  - intros count c Hipc Hcount.
    destruct (ClientFraming.readExactly_ok count c Hipc Hcount)
      as (c' & Hread & Hstream & _).
    exists c'. split; assumption.
Qed.

(** The frames of the empty payload and of the two bytes "hi", cut inside
    both length prefixes and then byte by byte. *)
Lemma framing_round_trip_witness :
  TestFraming.run [ [x00; x00]; [x00; x00; x00]; [x00; x00]; [x02]; [x68];
                [x69] ] [] =
  ([ []; [x68; x69] ], []).
Proof.
  refine (proj1 (framing_round_trip_under_any_chunking
                   [ []; [x68; x69] ]
                   [ [x00; x00]; [x00; x00; x00]; [x00; x00]; [x02]; [x68];
                     [x69] ] _ _)).
  - repeat constructor; cbv; discriminate.
  - reflexivity.
Defined.

(* --------------------------------------------------------------------- *)
(*  C3, C4: message sizes                                                 *)
(* --------------------------------------------------------------------- *)

Module ClientFrames.
Import Client.

(** What [readFramed] does once the four header bytes are read. *)
Lemma readFramed_rejects c lengthData c1 declared :
  readExactly 4 c = (Ok lengthData, c1) ->
  readUInt32BE lengthData = Some declared ->
  declared <= 0 \/ 10000000 <= declared ->
  readFramed c =
  (Fail (thrown (ipcError ("Invalid message length: " ++ decimal declared))),
   c1).
Proof.
  intros Hhead Hlen Hbad. unfold readFramed, bind. rewrite Hhead, Hlen.
  destruct (Z.ltb_spec 0 declared); destruct (Z.ltb_spec declared 10000000);
    cbn [andb]; try reflexivity; lia.
Qed.

Lemma readFramed_accepts c lengthData c1 declared :
  readExactly 4 c = (Ok lengthData, c1) ->
  readUInt32BE lengthData = Some declared ->
  0 < declared < 10000000 ->
  readFramed c = readExactly declared c1.
Proof.
  intros Hhead Hlen Hgood. unfold readFramed, bind. rewrite Hhead, Hlen.
  destruct (Z.ltb_spec 0 declared); destruct (Z.ltb_spec declared 10000000);
    cbn [andb]; try reflexivity; lia.
Qed.

(** A frame at the head of the stream is read whole when its payload is
    neither empty nor 10,000,000 bytes or more. *)
Lemma readFramed_frame c payload rest :
  ipc c = true ->
  stream c = Worklet.framed payload ++ rest ->
  0 < blen payload < 10000000 ->
  exists c',
    readFramed c = (Ok payload, c') /\ stream c' = rest /\
    requestId c' = requestId c /\ isWorkletStarted c' = isWorkletStarted c /\
    ipc c' = true /\ outgoing c' = outgoing c.
Proof.
  intros Hipc Hstream Hlen.
  pose proof (blen_nonneg rest) as Hrest.
  assert (H4 : 0 <= 4 <= blen (stream c)).
  { rewrite Hstream. unfold Worklet.framed.
    rewrite !blen_app, blen_writeUInt32BE. lia. }
  destruct (ClientFraming.readExactly_ok 4 c Hipc H4)
    as (c1 & Hread & Hs1 & Hid1 & Hst1 & Hipc1 & Hout1).
  rewrite Hstream in Hread, Hs1.
  unfold Worklet.framed, writeUInt32BE in Hread, Hs1.
  change (Z.to_nat 4) with 4%nat in Hread, Hs1.
  cbn [app firstn skipn] in Hread, Hs1.
  rewrite (readFramed_accepts c _ c1 (blen payload) Hread).
  - assert (HL : 0 <= blen payload <= blen (stream c1)).
    { rewrite Hs1, blen_app. lia. }
    destruct (ClientFraming.readExactly_ok (blen payload) c1 Hipc1 HL)
      as (c2 & Hread2 & Hs2 & Hid2 & Hst2 & Hipc2 & Hout2).
    exists c2. rewrite Hread2, Hs2, Hs1.
    unfold blen. rewrite Nat2Z.id, firstn_app, skipn_app, firstn_all,
      skipn_all, Nat.sub_diag.
    cbn [firstn skipn app]. rewrite app_nil_r.
    repeat split; congruence.
  - cbn [readUInt32BE]. rewrite be32_of_bytes.
    rewrite Z.mod_small; [reflexivity|].
    change (2 ^ 32) with 4294967296. lia.
  - exact Hlen.
Qed.

End ClientFrames.

Lemma blen_repeat (b : byte) (n : Z) : 0 <= n -> blen (repeat b (Z.to_nat n)) = n.
Proof. intros Hn. unfold blen. rewrite repeat_length. lia. Qed.

(** C3, counterexample.  A payload of 10,000,001 bytes exceeds the maximum,
    yet both encoders frame it: the worklet builds the frame with the prefix
    00 98 96 81, and the client writes that same frame to the transport. *)
Lemma oversize_payload_is_framed :
  Worklet.framed (repeat x00 (Z.to_nat 10000001)) =
    [x00; x98; x96; x81] ++ repeat x00 (Z.to_nat 10000001) /\
  Client.writeFramed (repeat x00 (Z.to_nat 10000001))
    (Client.mkState 0 true true [] [] []) =
    (Client.Ok tt,
     Client.mkState 0 true true [] []
       [[x00; x98; x96; x81] ++ repeat x00 (Z.to_nat 10000001)]).
Proof.
  split.
  - unfold Worklet.framed. rewrite blen_repeat by lia. reflexivity.
  - unfold Client.writeFramed.
    cbn [Client.ipc negb Client.requestId Client.isWorkletStarted
         Client.readBuffer Client.incoming Client.outgoing].
    rewrite blen_repeat by lia. reflexivity.
Qed.

(** C3, as amended.  Neither encoder enforces the 10,000,000-byte maximum:
    for every payload whose length fits the 4-byte prefix the worklet builds
    the frame (prefix equal to the payload length, then the payload) and the
    client writes that frame.  The limit is checked when the client reads: a
    declared length above 10,000,000 is refused with an [ipcError] in the
    state the client is in right after the four header bytes, before any
    payload byte is read. *)
Theorem size_limit_is_checked_only_when_the_client_reads
    (payload lengthData : bytes) (c c1 : Client.State) (declared : Z) :
  blen payload <= UINT32_MAX ->
  Client.ipc c = true ->
  Client.readExactly 4 c = (Client.Ok lengthData, c1) ->
  readUInt32BE lengthData = Some declared ->
  10000000 < declared ->
  readUInt32BE (Worklet.framed payload) = Some (blen payload) /\
  skipn 4 (Worklet.framed payload) = payload /\
  Client.writeFramed payload c =
    (Client.Ok tt,
     Client.mkState (Client.requestId c) (Client.isWorkletStarted c) true
       (Client.readBuffer c) (Client.incoming c)
       (Client.outgoing c ++ [Worklet.framed payload])) /\
  Client.readFramed c =
    (Client.Fail
       (Client.thrown
          (Client.ipcError ("Invalid message length: " ++ decimal declared))),
     c1).
Proof.
  intros Hfit Hipc Hhead Hlen Hover.
  pose proof (blen_nonneg payload) as H0.
  split; [|split; [|split]].
  - rewrite <- (app_nil_r (Worklet.framed payload)). unfold Worklet.framed.
    rewrite <- app_assoc. apply readUInt32BE_write_small. lia.
  - reflexivity.
  - unfold Client.writeFramed. rewrite Hipc. cbn [negb].
    destruct (Z.ltb_spec UINT32_MAX (blen payload)); [lia|reflexivity].
  - apply (ClientFrames.readFramed_rejects c lengthData c1 declared Hhead Hlen).
    right. lia.
Qed.

(** A two-byte payload, and a client whose transport delivers a header
    declaring 10,000,001 bytes followed by one payload byte. *)
Lemma size_limit_witness :
  Client.readFramed
    (Client.mkState 0 true true [] [[x00; x98; x96; x81; x01]] []) =
  (Client.Fail
     (Client.thrown (Client.ipcError "Invalid message length: 10000001")),
   Client.mkState 0 true true [x01] [] []).
Proof.
  refine (proj2 (proj2 (proj2
    (size_limit_is_checked_only_when_the_client_reads
       [x68; x69] [x00; x98; x96; x81]
       (Client.mkState 0 true true [] [[x00; x98; x96; x81; x01]] [])
       (Client.mkState 0 true true [x01] [] [])
       10000001 _ _ _ _ _)))).
  - cbv; discriminate.
  - reflexivity.
  - reflexivity.
  - reflexivity.
  - reflexivity.
Defined.

(** The same guard refuses a declared length of exactly 10,000,000
    (header 00 98 96 80). *)
Lemma client_refuses_exactly_ten_million :
  Client.readFramed
    (Client.mkState 0 true true [] [[x00; x98; x96; x80]] []) =
  (Client.Fail
     (Client.thrown (Client.ipcError "Invalid message length: 10000000")),
   Client.mkState 0 true true [] [] []).
Proof. reflexivity. Qed.

(** The worklet decoder has no limit: it waits for the payload of a header
    that declares 10,000,001 bytes. *)
Lemma worklet_waits_for_an_oversize_payload :
  TestFraming.processFramedData [x00; x98; x96; x81] [] =
  ([], [x00; x98; x96; x81]).
Proof. reflexivity. Qed.

(** C4.  The empty payload is framed as 00 00 00 00 by both encoders and
    the worklet decoder emits it, but the client refuses a frame whose
    declared length is 0: [readFramed] throws
    [ipcError("Invalid message length: 0")]. *)
Theorem client_refuses_the_empty_frame :
  Worklet.framed [] = [x00; x00; x00; x00] /\
  Client.writeFramed [] (Client.mkState 0 true true [] [] []) =
    (Client.Ok tt,
     Client.mkState 0 true true [] [] [[x00; x00; x00; x00]]) /\
  TestFraming.processFramedData [x00; x00; x00; x00] [] = ([[]], []) /\
  Client.readFramed
    (Client.mkState 0 true true [] [[x00; x00; x00; x00]] []) =
  (Client.Fail (Client.thrown (Client.ipcError "Invalid message length: 0")),
   Client.mkState 0 true true [] [] []).
Proof. split; [|split; [|split]]; reflexivity. Qed.

(* --------------------------------------------------------------------- *)
(*  C7: request ids                                                       *)
(* --------------------------------------------------------------------- *)

Module ClientIds.
Import Client.

Lemma nextRequestId_step c :
  requestId c < INT_MAX ->
  nextRequestId c =
  (Ok (requestId c + 1),
   mkState (requestId c + 1) (isWorkletStarted c) (ipc c) (readBuffer c)
     (incoming c) (outgoing c)).
Proof.
  intros Hc. unfold nextRequestId.
  destruct (Z.ltb_spec (requestId c) INT_MAX); [reflexivity|lia].
Qed.

(** [n] runs of the block hand out the [n] integers after the counter. *)
Lemma issue_from n c :
  requestId c + Z.of_nat n <= INT_MAX ->
  issue n c =
  Some (map (fun k => requestId c + Z.of_nat k) (seq 1 n),
        mkState (requestId c + Z.of_nat n) (isWorkletStarted c) (ipc c)
          (readBuffer c) (incoming c) (outgoing c)).
Proof.
  revert c. induction n as [|n IH]; intros c Hn.
  - cbn [issue seq map]. rewrite Z.add_0_r. destruct c; reflexivity.
  - cbn [issue]. rewrite nextRequestId_step by lia.
    rewrite IH by (cbn [requestId]; lia).
    cbn [requestId isWorkletStarted ipc readBuffer incoming outgoing].
    cbn [seq map]. rewrite <- (seq_shift n 1), map_map.
    f_equal. f_equal.
    + f_equal. apply map_ext. intros k. lia.
    + f_equal. lia.
Qed.

Lemma ids_increasing base n :
  StronglySorted Z.lt (map (fun k => base + Z.of_nat k) (seq 1 n)).
Proof.
  generalize 1%nat as start. induction n as [|n IH]; intros start.
  - constructor.
  - cbn [seq map]. constructor; [apply IH|].
    apply Forall_forall. intros x Hx. apply in_map_iff in Hx.
    destruct Hx as (k & <- & Hk). apply in_seq in Hk. lia.
Qed.

Lemma ids_distinct base n :
  NoDup (map (fun k => base + Z.of_nat k) (seq 1 n)).
Proof.
  generalize 1%nat as start. induction n as [|n IH]; intros start.
  - constructor.
  - cbn [seq map]. constructor; [|apply IH].
    intros Hx. apply in_map_iff in Hx.
    destruct Hx as (k & Heq & Hk). apply in_seq in Hk. lia.
Qed.

Lemma writeFramed_keeps_id payload c :
  requestId (snd (writeFramed payload c)) = requestId c.
Proof.
  unfold writeFramed. destruct (negb (ipc c)); [reflexivity|].
  destruct (UINT32_MAX <? blen payload); reflexivity.
Qed.

Lemma readExactly_keeps_id count c :
  requestId (snd (readExactly count c)) = requestId c.
Proof.
  unfold readExactly. destruct (negb (ipc c)); [reflexivity|].
  destruct (fill count (readBuffer c) (incoming c)) as [[b r]|]; reflexivity.
Qed.

Lemma readFramed_keeps_id c :
  requestId (snd (readFramed c)) = requestId c.
Proof.
  unfold readFramed, bind.
  pose proof (readExactly_keeps_id 4 c) as H4.
  destruct (readExactly 4 c) as [[lengthData|f] c1]; cbn [snd] in *;
    [|exact H4].
  destruct (readUInt32BE lengthData) as [declared|]; [|exact H4].
  destruct ((0 <? declared) && (declared <? 10000000)); [|exact H4].
  rewrite readExactly_keeps_id. exact H4.
Qed.

(** A call that gets past the start-up has moved the counter by one,
    whatever becomes of it afterwards. *)
Lemma call_moves_counter_by_one F method params c :
  requestId c < INT_MAX ->
  isWorkletStarted c = true \/ sleepCancelled F = false ->
  requestId (snd (call F method params c)) = requestId c + 1.
Proof.
  intros Hc Hrun. unfold call, bind at 1.
  assert (Hstart : requestId (snd (ensureWorkletStarted F c)) = requestId c).
  { unfold ensureWorkletStarted.
    destruct (isWorkletStarted c); [reflexivity|].
    destruct (sleepCancelled F); reflexivity. }
  assert (Hok : fst (ensureWorkletStarted F c) = Ok tt).
  { unfold ensureWorkletStarted.
    destruct (isWorkletStarted c); [reflexivity|].
    destruct Hrun as [Hrun|Hrun]; [discriminate|].
    rewrite Hrun. reflexivity. }
  destruct (ensureWorkletStarted F c) as [r c0]. cbn [fst snd] in *. subst r.
  unfold bind at 1. rewrite nextRequestId_step by lia.
  set (c1 := mkState _ _ _ _ _ _).
  assert (H1 : requestId c1 = requestId c + 1)
    by (subst c1; cbn [requestId]; lia).
  clearbody c1.
  destruct (data F _) as [requestData|]; [|exact H1].
  unfold bind at 1.
  pose proof (writeFramed_keeps_id requestData c1) as Hw.
  destruct (writeFramed requestData c1) as [[[]|f] c2]; cbn [snd] in *;
    [|lia].
  unfold bind at 1.
  pose proof (readFramed_keeps_id c2) as Hr.
  destruct (readFramed c2) as [[responseData|f] c3]; cbn [snd] in *; [|lia].
  destruct (jsonObject F responseData) as [[| | | | |response]|];
    try (cbn [fail snd]; lia).
  destruct (JS.assoc "error" response) as [[| | | | |error]|];
    try (cbn [fail snd]; lia);
    destruct (JS.assoc "result" response) as [[| | | | |result]|];
    cbn [fail ret snd]; lia.
Qed.

(** A call whose task is cancelled while the worklet starts throws before
    it takes an id. *)
Lemma call_cancelled_at_startup F method params c :
  isWorkletStarted c = false -> sleepCancelled F = true ->
  call F method params c = (Fail cancellation, c).
Proof.
  intros Hs Hcancel. unfold call, bind at 1, ensureWorkletStarted.
  rewrite Hs, Hcancel. reflexivity.
Qed.

End ClientIds.

(** C7, counterexample.  The first call of a client, made from a task that
    is cancelled during the start-up sleep, throws [CancellationError] and
    leaves the counter at 0: this call has not incremented it. *)
Lemma cancelled_call_takes_no_id :
  Client.call Scenario.cancelled "workletStart" [] (Client.fresh []) =
  (Client.Fail Client.cancellation, Client.fresh []) /\
  Client.requestId
    (snd (Client.call Scenario.cancelled "workletStart" []
            (Client.fresh []))) = 0.
Proof. split; reflexivity. Qed.

(** C7, as amended.  The counter starts at zero, so the first id taken is
    1; [n] runs of the block of [nextRequestId], one after the other as the
    serial queue makes them, hand out exactly 1, 2, ..., n: strictly
    increasing, hence never the same id twice; a call that gets past the
    start-up of the worklet moves the counter by one whatever its later
    outcome, and a call whose task is cancelled during the start-up throws
    before it takes an id and leaves the counter as it was.  (The counter
    is a 64-bit [Int]: the bounds keep it below its maximum, where [+=]
    would trap.) *)
Theorem request_ids_are_consecutive
    (F : Client.Runtime) (n : nat) (transport : list bytes)
    (method : string) (params : list (string * JS.json)) (c : Client.State) :
  Z.of_nat n <= Client.INT_MAX ->
  Client.requestId c < Client.INT_MAX ->
  fst (Client.nextRequestId (Client.fresh transport)) = Client.Ok 1 /\
  (exists c',
     Client.issue n (Client.fresh transport) =
       Some (map Z.of_nat (seq 1 n), c') /\
     Client.requestId c' = Z.of_nat n) /\
  StronglySorted Z.lt (map Z.of_nat (seq 1 n)) /\
  NoDup (map Z.of_nat (seq 1 n)) /\
  Client.requestId (snd (Client.call F method params c)) =
    (if Client.isWorkletStarted c || negb (Client.sleepCancelled F)
     then Client.requestId c + 1 else Client.requestId c).
Proof.
  intros Hn Hc. split; [reflexivity|]. split; [|split; [|split]].
  - eexists. split.
    + rewrite ClientIds.issue_from by (cbn [Client.fresh Client.requestId]; lia).
      cbn [Client.fresh Client.requestId]. reflexivity.
    + cbn [Client.requestId]. lia.
  - apply (ClientIds.ids_increasing 0 n).
  - apply (ClientIds.ids_distinct 0 n).
  - destruct (Client.isWorkletStarted c) eqn:Hs;
      [|destruct (Client.sleepCancelled F) eqn:Hcancel]; cbn [orb negb].
    + apply ClientIds.call_moves_counter_by_one; auto.
    + rewrite ClientIds.call_cancelled_at_startup by assumption. reflexivity.
    + apply ClientIds.call_moves_counter_by_one; auto.
Qed.

(** Three ids from a fresh client, and a call that fails because the
    transport is closed: the counter still moves from 0 to 1. *)
Lemma request_ids_witness :
  Client.issue 3 (Client.fresh []) =
    Some ([1; 2; 3], Client.mkState 3 false false [] [] []) /\
  Client.call Scenario.foundation "dispose" [] (Client.fresh []) =
    (Client.Fail
       (Client.thrown (Client.ipcError "Connection closed while reading")),
     Client.mkState 1 true true [] []
       [Scenario.frameOf (Scenario.request 1 "dispose" [])]) /\
  Client.requestId
    (snd (Client.call Scenario.foundation "dispose" [] (Client.fresh []))) = 1.
Proof.
  pose proof (request_ids_are_consecutive Scenario.foundation 3 []
                "dispose" [] (Client.fresh [])
                ltac:(cbv; discriminate) ltac:(reflexivity)) as H.
  split; [reflexivity|].
  split; [vm_compute; reflexivity|].
  exact (proj2 (proj2 (proj2 (proj2 H)))).
Defined.

(* --------------------------------------------------------------------- *)

(** C1, counterexample.  A fresh client issues its first call, which gets
    id 1; the next frame on the transport is a response bearing id 2.  No
    pending call has id 2, yet the frame is not discarded: the call with
    id 1 returns the result carried by that frame. *)
Lemma call_takes_a_response_bearing_another_id :
  Client.call Scenario.foundation "workletStart" []
    (Client.fresh
       [Scenario.frameOf
          (JS.JObj [ ("jsonrpc", JS.JStr "2.0"); ("id", JS.JNum 2);
                     ("result", JS.JObj [("status", JS.JStr "disposed")]) ])])
  = (Client.Ok [("status", JS.JStr "disposed")],
     Client.mkState 1 true true [] []
       [Scenario.frameOf (Scenario.request 1 "workletStart" [])]).
Proof. vm_compute. reflexivity. Qed.

(** C1, as amended.  The client keeps no table of pending calls.  A call
    takes the next id, writes its request frame and then reads the next
    frame of the stream as its own response, whatever id that frame bears:
    when the frame holds an object, the call fails with the [rpcError] of
    its [error] member if that is an object, else returns its [result]
    member if that is an object, else fails with [invalidResponse]. *)
Theorem call_resolves_with_the_next_frame
    (F : Client.Runtime) (method : string)
    (params response : list (string * JS.json))
    (c : Client.State) (requestData payload rest : bytes) :
  Client.requestId c < Client.INT_MAX ->
  (if Client.isWorkletStarted c then Client.ipc c
   else negb (Client.sleepCancelled F)) = true ->
  Client.data F
    (JS.JObj [ ("jsonrpc", JS.JStr "2.0");
               ("id", JS.JNum (Client.requestId c + 1));
               ("method", JS.JStr method); ("params", JS.JObj params) ])
    = Some requestData ->
  blen requestData <= UINT32_MAX ->
  Client.stream c = Worklet.framed payload ++ rest ->
  0 < blen payload < 10000000 ->
  Client.jsonObject F payload = Some (JS.JObj response) ->
  exists c',
    Client.call F method params c = (Client.outcomeOf response, c') /\
    Client.requestId c' = Client.requestId c + 1 /\
    Client.stream c' = rest /\
    Client.outgoing c' = Client.outgoing c ++ [Worklet.framed requestData].
Proof.
  intros Hid Hinv Hdata Hfit Hstream Hlen Hparse.
  unfold Client.call, Client.bind at 1.
  assert (Hen : exists c0,
             Client.ensureWorkletStarted F c = (Client.Ok tt, c0) /\
             Client.ipc c0 = true /\
             Client.requestId c0 = Client.requestId c /\
             Client.stream c0 = Client.stream c /\
             Client.outgoing c0 = Client.outgoing c).
  { unfold Client.ensureWorkletStarted.
    destruct (Client.isWorkletStarted c) eqn:Hs.
    - exists c. auto.
    - destruct (Client.sleepCancelled F); [discriminate|].
      eexists. split; [reflexivity|]. auto. }
  destruct Hen as (c0 & -> & Hipc0 & Hid0 & Hs0 & Ho0).
  unfold Client.bind at 1.
  rewrite ClientIds.nextRequestId_step by lia.
  rewrite Hid0, Hdata.
  unfold Client.bind at 1. unfold Client.writeFramed at 1.
  cbn [Client.ipc Client.requestId Client.isWorkletStarted Client.readBuffer
       Client.incoming Client.outgoing].
  rewrite Hipc0. cbn [negb].
  destruct (Z.ltb_spec UINT32_MAX (blen requestData)); [lia|].
  set (c2 := Client.mkState _ _ _ _ _ _).
  assert (Hipc2 : Client.ipc c2 = true) by reflexivity.
  assert (Hs2 : Client.stream c2 = Worklet.framed payload ++ rest)
    by (rewrite <- Hstream, <- Hs0; reflexivity).
  destruct (ClientFrames.readFramed_frame c2 payload rest Hipc2 Hs2 Hlen)
    as (c3 & Hread & Hs3 & Hid3 & _ & _ & Ho3).
  unfold Client.bind at 1. rewrite Hread, Hparse.
  exists c3. split; [|split; [|split]].
  - unfold Client.outcomeOf.
    destruct (JS.assoc "error" response) as [[| | | | |error]|];
      try reflexivity;
      destruct (JS.assoc "result" response) as [[| | | | |result]|];
      reflexivity.
  - rewrite Hid3. reflexivity.
  - exact Hs3.
  - rewrite Ho3. subst c2. cbn [Client.outgoing]. rewrite Ho0. reflexivity.
Qed.

(** The second call of a client (id 2) while the transport delivers, in
    two chunks, an error response that bears id 7. *)
Lemma call_resolves_with_the_next_frame_witness :
  exists c',
    Client.call Scenario.foundation "dispose" []
      (Client.mkState 1 true true []
         [ firstn 3 (Scenario.frameOf
             (JS.JObj [ ("jsonrpc", JS.JStr "2.0"); ("id", JS.JNum 7);
                        ("error",
                         JS.JObj [ ("message", JS.JStr "no");
                                   ("code", JS.JStr "BAD_REQUEST") ]) ]));
           skipn 3 (Scenario.frameOf
             (JS.JObj [ ("jsonrpc", JS.JStr "2.0"); ("id", JS.JNum 7);
                        ("error",
                         JS.JObj [ ("message", JS.JStr "no");
                                   ("code", JS.JStr "BAD_REQUEST") ]) ])) ]
         []) =
    (Client.Fail (Client.thrown (Client.rpcError "BAD_REQUEST" "no")), c') /\
    Client.requestId c' = 2 /\
    Client.stream c' = [] /\
    Client.outgoing c' = [Scenario.frameOf (Scenario.request 2 "dispose" [])].
Proof.
  refine (call_resolves_with_the_next_frame Scenario.foundation "dispose" []
            [ ("jsonrpc", JS.JStr "2.0"); ("id", JS.JNum 7);
              ("error", JS.JObj [ ("message", JS.JStr "no");
                                  ("code", JS.JStr "BAD_REQUEST") ]) ]
            _ (list_byte_of_string
                 (MiniJSON.print (Scenario.request 2 "dispose" [])))
            (list_byte_of_string
               (MiniJSON.print
                  (JS.JObj [ ("jsonrpc", JS.JStr "2.0"); ("id", JS.JNum 7);
                             ("error",
                              JS.JObj [ ("message", JS.JStr "no");
                                        ("code", JS.JStr "BAD_REQUEST") ]) ])))
            [] _ _ _ _ _ _ _).
  - reflexivity.
  - reflexivity.
  - reflexivity.
  - cbv; discriminate.
  - vm_compute; reflexivity.
  - split; reflexivity.
  - vm_compute; reflexivity.
Defined.

(* --------------------------------------------------------------------- *)
(*  The body of the loop of the worklet                                   *)
(* --------------------------------------------------------------------- *)

Module WorkletEvents.
Import JS Worklet.

Section Facts.
Variable P : Platform.

(** A call alone, once it has settled. *)
Lemma settled_started message w :
  settled (started P message (w, [])) = handleJsonRpcMessage P message w.
Proof.
  unfold started, handleJsonRpcMessage, settled. cbn [fst snd].
  destruct (respond P message (session w)) as [[response s']|];
    [|reflexivity].
  destruct (awaited (prop message "method")); reflexivity.
Qed.

(** A payload that is no JSON text leaves the state of the loop as it is. *)
Lemma received_unparsed payload st :
  JSON_parse P (string_of_list_byte payload) = None ->
  received P payload st = st.
Proof. intros Hparse. unfold received. rewrite Hparse. reflexivity. Qed.

(** A payload that says [jsonrpc: '2.0'] is handed to the dispatcher. *)
Lemma received_request payload message st :
  JSON_parse P (string_of_list_byte payload) = Some message ->
  prop message "jsonrpc" = Some (JStr "2.0") ->
  received P payload st = started P message st.
Proof.
  intros Hparse Hrpc. unfold received. rewrite Hparse.
  destruct message; try discriminate Hrpc. rewrite Hrpc. reflexivity.
Qed.

(** A payload that is JSON and does not say [jsonrpc: '2.0'] leaves the
    state of the loop as it is. *)
Lemma received_other payload message st :
  JSON_parse P (string_of_list_byte payload) = Some message ->
  prop message "jsonrpc" <> Some (JStr "2.0") ->
  received P payload st = st.
Proof.
  intros Hparse Hver. unfold received. rewrite Hparse.
  destruct message; try reflexivity;
    destruct (prop _ "jsonrpc") as [[| | |v| |]|]; try reflexivity;
    destruct (String.eqb_spec v "2.0") as [->|]; try reflexivity;
    contradiction.
Qed.

(** A message whose method cannot be printed leaves the state of the loop
    as it is, whatever else it says. *)
Lemma received_unprintable payload message st :
  JSON_parse P (string_of_list_byte payload) = Some message ->
  toStringV (Number_toString P) (prop message "method") = None ->
  received P payload st = st.
Proof.
  intros Hparse Hname. unfold received. rewrite Hparse.
  destruct message; try reflexivity;
    destruct (prop _ "jsonrpc") as [[| | |v| |]|]; try reflexivity;
    destruct (String.eqb v "2.0"); try reflexivity;
    unfold started, respond; rewrite Hname; reflexivity.
Qed.

(** A chunk that holds one frame: the worker once the call has settled. *)
Lemma one_frame payload w :
  blen payload <= UINT32_MAX ->
  processFramedData P (framed payload) ([], w) = ([], onMessage P payload w).
Proof.
  intros Hfit. unfold processFramedData, feed, onMessage. cbn [fst snd app].
  rewrite <- (app_nil_r (framed payload)).
  rewrite (WorkletFraming.frameLoop_Some (received P)
             (framed payload ++ []) (w, []) payload [])
    by (apply WorkletFraming.nextFrame_framed; exact Hfit).
  rewrite WorkletFraming.frameLoop_None by reflexivity.
  reflexivity.
Qed.

End Facts.

End WorkletEvents.

(** Two requests, [dispose] and then a method the switch has no case for.
    When one chunk carries both, the second is answered first: its error is
    written while the loop runs, the response of [dispose] once the loop is
    over.  When each comes in a chunk of its own, they are answered in the
    order of arrival. *)
Lemma an_unknown_method_is_answered_first :
  let first := Scenario.request 1 "dispose" [] in
  let second := Scenario.request 2 "nope" [] in
  let disposed :=
    Scenario.frameOf
      (JS.JObj [ ("jsonrpc", JS.JStr "2.0"); ("id", JS.JNum 1);
                 ("result", JS.JObj [("status", JS.JStr "disposed")]) ]) in
  let unknown :=
    Scenario.frameOf
      (JS.JObj [ ("jsonrpc", JS.JStr "2.0"); ("id", JS.JNum 2);
                 ("error",
                  JS.JObj [ ("message", JS.JStr "Unknown method: nope");
                            ("code", JS.JStr "INTERNAL_ERROR") ]) ]) in
  Worklet.processFramedData Scenario.platform
    (Scenario.frameOf first ++ Scenario.frameOf second) Scenario.idle =
    ([], Worklet.mkWorker (Worklet.mkSession None []) [unknown; disposed]) /\
  Worklet.processFramedData Scenario.platform (Scenario.frameOf second)
    (Worklet.processFramedData Scenario.platform (Scenario.frameOf first)
       Scenario.idle) =
    ([], Worklet.mkWorker (Worklet.mkSession None []) [disposed; unknown]).
Proof. split; vm_compute; reflexivity. Qed.

(* --------------------------------------------------------------------- *)
(*  C8: a frame that is not JSON                                          *)
(* --------------------------------------------------------------------- *)

(** C8, counterexample.  The worker receives a frame whose payload is the
    five bytes of the text {oops, which is no JSON: nothing is written back
    and the worker is as it was. *)
Lemma malformed_json_gets_no_response :
  Worklet.processFramedData Scenario.platform
    (Worklet.framed (list_byte_of_string "{oops")) Scenario.idle
  = Scenario.idle.
Proof. vm_compute. reflexivity. Qed.

(** C8, as amended.  When the payload of a frame is not well-formed JSON the
    worker skips the frame: no response is written, the session is
    untouched, and the bytes that follow are decoded and served as if the
    frame had not been there. *)
Theorem malformed_json_is_skipped
    (P : Worklet.Platform) (payload rest : bytes) (w : Worklet.Worker) :
  blen payload <= UINT32_MAX ->
  Worklet.JSON_parse P (string_of_list_byte payload) = None ->
  Worklet.onMessage P payload w = w /\
  Worklet.processFramedData P (Worklet.framed payload ++ rest) ([], w) =
  Worklet.processFramedData P rest ([], w).
Proof.
  intros Hfit Hparse.
  split.
  - unfold Worklet.onMessage.
    rewrite (WorkletEvents.received_unparsed P payload (w, []) Hparse).
    reflexivity.
  - unfold Worklet.processFramedData, Worklet.feed. cbn [fst snd app].
    rewrite (WorkletFraming.frameLoop_Some (Worklet.received P)
               (Worklet.framed payload ++ rest) (w, []) payload rest)
      by (apply WorkletFraming.nextFrame_framed; exact Hfit).
    rewrite (WorkletEvents.received_unparsed P payload (w, []) Hparse).
    reflexivity.
Qed.

(** A malformed frame followed by a [dispose] request: only the request is
    answered. *)
Lemma malformed_json_is_skipped_witness :
  Worklet.processFramedData Scenario.platform
    (Worklet.framed (list_byte_of_string "{oops") ++
     Scenario.frameOf (Scenario.request 5 "dispose" [])) Scenario.idle =
  ([], Worklet.mkWorker (Worklet.mkSession None [])
         [Scenario.frameOf
            (JS.JObj [ ("jsonrpc", JS.JStr "2.0"); ("id", JS.JNum 5);
                       ("result",
                        JS.JObj [("status", JS.JStr "disposed")]) ])]).
Proof.
  refine (eq_trans
            (proj2 (malformed_json_is_skipped Scenario.platform
                      (list_byte_of_string "{oops")
                      (Scenario.frameOf (Scenario.request 5 "dispose" []))
                      (snd Scenario.idle) _ _)) _).
  - cbv; discriminate.
  - reflexivity.
  - vm_compute. reflexivity.
Defined.

(* --------------------------------------------------------------------- *)
(*  C5: one response for each request                                     *)
(* --------------------------------------------------------------------- *)

Module Dispatcher.
Import JS Worklet.

Section Facts.
Variable P : Platform.

(** Whatever a wrapped handler throws carries a structured error. *)
Lemma withErrorHandling_throws {A} (handler : M A) d s e s' :
  withErrorHandling P handler d s = (Thrown e, s') ->
  exists se, e = mkError (Json (structuredJson se)) None.
Proof.
  unfold withErrorHandling.
  destruct (handler s) as [[a|error] s1]; intros H; [discriminate|].
  exists (createStructuredError P error d). congruence.
Qed.

(** The [default] case, for a method that can be printed. *)
Lemma default_throws method name (s : Session) :
  toStringV (Number_toString P) method = Some name ->
  bind (converted P method)
    (fun name =>
       throw (A := result)
         (mkError (Plain ("Unknown method: " ++ name)%string) None)) s =
  (Thrown (mkError (Plain ("Unknown method: " ++ name)%string) None), s).
Proof.
  intros Hname. unfold bind, converted. rewrite Hname. reflexivity.
Qed.

Lemma dispatch_throws method name params s e s' :
  toStringV (Number_toString P) method = Some name ->
  dispatch P method params s = (Thrown e, s') ->
  (exists se, e = mkError (Json (structuredJson se)) None) \/
  (e = mkError (Plain ("Unknown method: " ++ name)%string) None /\ s' = s).
Proof.
  intros Hname. unfold dispatch.
  destruct method as [[| | |m| |]|];
    try (rewrite (default_throws _ _ s Hname); intros H; right; split;
         congruence).
  repeat match goal with
  | |- context [if String.eqb m ?label then _ else _] =>
      destruct (String.eqb m label)
  end;
  try (intros H; left; eapply withErrorHandling_throws; exact H).
  rewrite (default_throws _ _ s Hname); intros H; right; split; congruence.
Qed.

(** A method that is none of the nine labels is thrown back by the
    [default] case, with the session untouched. *)
Lemma dispatch_unknown method name params s :
  toStringV (Number_toString P) method = Some name ->
  (forall m, method = Some (JStr m) -> ~ In m methods) ->
  dispatch P method params s =
  (Thrown (mkError (Plain ("Unknown method: " ++ name)%string) None), s).
Proof.
  intros Hname Hunknown. unfold dispatch.
  destruct method as [[| | |m| |]|];
    try (exact (default_throws _ _ s Hname)).
  specialize (Hunknown m eq_refl).
  repeat match goal with
  | |- context [if String.eqb m ?label then _ else _] =>
      destruct (String.eqb_spec m label) as [->|_];
        [exfalso; apply Hunknown; cbn; tauto|]
  end.
  exact (default_throws _ _ s Hname).
Qed.

(** The switch has a case for a method exactly when the method is one of
    the nine labels: a call that is not awaited took the [default]. *)
Lemma not_awaited_is_unknown method name params s :
  toStringV (Number_toString P) method = Some name ->
  awaited method = false ->
  dispatch P method params s =
  (Thrown (mkError (Plain ("Unknown method: " ++ name)%string) None), s).
Proof.
  intros Hname Hawaited. apply dispatch_unknown; [exact Hname|].
  intros m -> Hin. cbn [awaited] in Hawaited.
  assert (existsb (String.eqb m) methods = true) as Hex.
  { apply existsb_exists. exists m. split; [exact Hin|apply String.eqb_refl]. }
  congruence.
Qed.

(** A message whose method cannot be printed gets no response. *)
Lemma respond_none message s :
  toStringV (Number_toString P) (prop message "method") = None ->
  respond P message s = None.
Proof. intros Hname. unfold respond. rewrite Hname. reflexivity. Qed.

(** [handlers.splitMnemonic] and [handlers.combineShares] have no case in
    the switch: over JSON-RPC their names are unknown methods. *)
Lemma secret_sharing_is_not_dispatched params s :
  dispatch P (Some (JStr "splitMnemonic")) params s =
    (Thrown (mkError (Plain "Unknown method: splitMnemonic") None), s) /\
  dispatch P (Some (JStr "combineShares")) params s =
    (Thrown (mkError (Plain "Unknown method: combineShares") None), s).
Proof. split; reflexivity. Qed.

(** The error object of a response has a string code and a string message,
    for the errors the dispatcher can meet. *)
Lemma errorResponse_structured se :
  prop (errorResponse P (mkError (Json (structuredJson se)) None)) "code"
    = Some (JStr (se_code se)) /\
  prop (errorResponse P (mkError (Json (structuredJson se)) None)) "message"
    = Some (JStr (se_message se)).
Proof.
  unfold errorResponse, structuredJson. cbn [message literal].
  destruct (se_data se); cbn; auto.
Qed.

Lemma errorResponse_plain text c :
  exists code msg,
    errorResponse P (mkError (Plain text) c) =
    JObj [("message", JStr msg); ("code", JStr code)] /\
    (c = None -> code = "INTERNAL_ERROR") /\
    (text <> EmptyString -> msg = text).
Proof.
  unfold errorResponse, plainErrorResponse. cbn [message code render literal].
  eexists. eexists. split; [reflexivity|]. split.
  - intros ->. reflexivity.
  - intros Hne. destruct (String.eqb_spec text ""); [contradiction|reflexivity].
Qed.

End Facts.

End Dispatcher.

(** C5.  For every message with an id whose method can be printed, as
    every method name can (a string prints as itself), whatever the method
    and the params, exactly one frame is written back: the JSON text of an
    envelope with [jsonrpc] 2.0, the same id, and either a [result] or an
    [error] object holding a string [code] and a string [message].  A
    method that is none of the nine labels gets the error INTERNAL_ERROR /
    "Unknown method: ..." and leaves the session as it was. *)
Theorem every_request_gets_one_response
    (P : Worklet.Platform) (message id : JS.json) (name : string)
    (w : Worklet.Worker) :
  JS.prop message "id" = Some id ->
  JS.toStringV (Worklet.Number_toString P) (JS.prop message "method") =
    Some name ->
  exists (envelope : JS.json) (s' : Worklet.Session),
    Worklet.handleJsonRpcMessage P message w =
      Worklet.mkWorker s'
        (Worklet.written w ++
         [Worklet.framed
            (list_byte_of_string (Worklet.JSON_stringify P envelope))]) /\
    JS.prop envelope "jsonrpc" = Some (JS.JStr "2.0") /\
    JS.prop envelope "id" = Some id /\
    ((exists result,
        JS.prop envelope "result" = Some result /\
        JS.prop envelope "error" = None) \/
     (exists error code msg,
        JS.prop envelope "error" = Some error /\
        JS.prop envelope "result" = None /\
        JS.prop error "code" = Some (JS.JStr code) /\
        JS.prop error "message" = Some (JS.JStr msg))) /\
    ((forall m, JS.prop message "method" = Some (JS.JStr m) ->
                ~ In m Worklet.methods) ->
     s' = Worklet.session w /\
     JS.prop envelope "error" =
       Some (JS.JObj
               [ ("message", JS.JStr ("Unknown method: " ++ name));
                 ("code", JS.JStr "INTERNAL_ERROR") ])).
Proof.
  intros Hid Hname. unfold Worklet.handleJsonRpcMessage, Worklet.respond.
  rewrite Hid, Hname.
  destruct (Worklet.dispatch P (JS.prop message "method")
              (JS.prop message "params") (Worklet.session w))
    as [[[result|]|error] s'] eqn:Hd.
  - (* the handler returned a value *)
    eexists. exists s'. split; [reflexivity|].
    cbn [JS.literal JS.prop JS.assoc String.eqb Ascii.eqb Bool.eqb].
    split; [reflexivity|]. split; [reflexivity|]. split.
    + left. eexists. split; reflexivity.
    + intros Hunknown.
      rewrite (Dispatcher.dispatch_unknown P _ _ _ _ Hname Hunknown) in Hd.
      discriminate.
  - (* the value cannot be serialized: the TypeError is reported *)
    unfold Worklet.errorText, Worklet.writeFramed, Worklet.TypeError.
    destruct (Dispatcher.errorResponse_plain P Worklet.notSerializable None)
      as (code & msg & Her & _ & _).
    rewrite Her. eexists. exists s'. split; [reflexivity|].
    cbn [JS.literal JS.prop JS.assoc String.eqb Ascii.eqb Bool.eqb].
    split; [reflexivity|]. split; [reflexivity|]. split.
    + right. exists (JS.JObj [("message", JS.JStr msg);
                              ("code", JS.JStr code)]), code, msg.
      split; [reflexivity|]. split; [reflexivity|].
      split; reflexivity.
    + intros Hunknown.
      rewrite (Dispatcher.dispatch_unknown P _ _ _ _ Hname Hunknown) in Hd.
      discriminate.
  - (* the handler, or the switch, threw *)
    unfold Worklet.errorText, Worklet.writeFramed.
    eexists. exists s'. split; [reflexivity|].
    cbn [Worklet.session Worklet.written JS.literal JS.prop JS.assoc
         String.eqb Ascii.eqb Bool.eqb].
    split; [reflexivity|]. split; [reflexivity|]. split.
    + right. exists (Worklet.errorResponse P error).
      destruct (Dispatcher.dispatch_throws P _ _ _ _ _ _ Hname Hd)
        as [[se ->]|[-> _]].
      * destruct (Dispatcher.errorResponse_structured P se) as [Hc Hm].
        exists (Worklet.se_code se), (Worklet.se_message se).
        split; [reflexivity|]. split; [reflexivity|]. split; assumption.
      * destruct (Dispatcher.errorResponse_plain P
                    ("Unknown method: " ++ name) None)
          as (code & msg & Her & _ & _).
        rewrite Her. exists code, msg.
        split; [reflexivity|]. split; [reflexivity|]. split; reflexivity.
    + intros Hunknown.
      rewrite (Dispatcher.dispatch_unknown P _ _ _ _ Hname Hunknown) in Hd.
      assert (s' = Worklet.session w) as -> by congruence.
      split; [reflexivity|].
      assert (error =
              Worklet.mkError
                (Worklet.Plain ("Unknown method: " ++ name)) None)
        as -> by congruence.
      reflexivity.
Qed.

(** A request for a method the worker does not know, on an idle worker:
    one frame is written. *)
Lemma every_request_gets_one_response_witness :
  length (Worklet.written
            (Worklet.handleJsonRpcMessage Scenario.platform
               (Scenario.request 3 "nope" []) (snd Scenario.idle))) = 1%nat.
Proof.
  destruct (every_request_gets_one_response Scenario.platform
              (Scenario.request 3 "nope" []) (JS.JNum 3) "nope"
              (snd Scenario.idle) eq_refl eq_refl)
    as (envelope & s' & -> & _).
  reflexivity.
Defined.

(* --------------------------------------------------------------------- *)
(*  C10: dispose                                                          *)
(* --------------------------------------------------------------------- *)

(** C10.  [dispose] always returns [{status: 'disposed'}] and leaves the
    session slot empty; with no instance installed it changes nothing;
    run a second time it returns the same result and leaves the same state;
    and the [dispose] method of the dispatcher returns that result too,
    whatever the params. *)
Theorem dispose_is_total_and_idempotent
    (P : Worklet.Platform) (s : Worklet.Session) (trace : list Worklet.libCall)
    (params : JS.value) :
  fst (Worklet.dispose s) =
    Worklet.Returned (JS.JObj [("status", JS.JStr "disposed")]) /\
  Worklet.wdk (snd (Worklet.dispose s)) = None /\
  Worklet.dispose (Worklet.mkSession None trace) =
    (Worklet.Returned (JS.JObj [("status", JS.JStr "disposed")]),
     Worklet.mkSession None trace) /\
  Worklet.dispose (snd (Worklet.dispose s)) = Worklet.dispose s /\
  Worklet.dispatch P (Some (JS.JStr "dispose")) params s =
    (Worklet.Returned
       (Worklet.Value (JS.JObj [("status", JS.JStr "disposed")])),
     snd (Worklet.dispose s)).
Proof.
  destruct s as [[h|] calls];
    (split; [|split; [|split; [|split]]]); reflexivity.
Qed.

(* --------------------------------------------------------------------- *)
(*  C6: validation and side effects in the handlers                       *)
(* --------------------------------------------------------------------- *)

(** C6.  [initializeWDK] called with an object whose fields fail the
    validation, while the session holds the instance [h]: the call throws
    the validation error, but [h] has been disposed by then, and the slot
    still names it. *)
Theorem initializeWDK_disposes_before_it_validates
    (P : Worklet.Platform) (fields : list (string * JS.json))
    (e : Worklet.jsError) (h : nat) (trace : list Worklet.libCall) :
  Worklet.validateRequest (Some (JS.JObj fields))
    (Worklet.initValidation P (JS.JObj fields)) "Init" = inl e ->
  Worklet.initializeWDK P (Some (JS.JObj fields))
    (Worklet.mkSession (Some h) trace) =
  (Worklet.Thrown e,
   Worklet.mkSession (Some h) (trace ++ [Worklet.Dispose h])).
Proof.
  intros Hval.
  unfold Worklet.initializeWDK, Worklet.bind, Worklet.getWdk, Worklet.lib.
  cbn [Worklet.wdk Worklet.calls]. rewrite Hval. reflexivity.
Qed.

(** The session holds instance 0; [initializeWDK] is called with a valid
    config and nothing else: the code itself raises BAD_REQUEST for the
    missing [encryptionKey], after the instance has been disposed. *)
Lemma initializeWDK_disposes_before_it_validates_witness :
  Worklet.initializeWDK Scenario.platform
    (Some (JS.JObj
             [("config",
               JS.JStr (MiniJSON.print
                          (JS.JObj [("networks",
                                     JS.JObj [("ethereum", JS.JObj [])])])))]))
    (Worklet.mkSession (Some 0%nat) [Worklet.New 0 [x01]]) =
  (Worklet.Thrown
     (Worklet.createErrorWithCode
        "(encryptionKey + encryptedSeed) must be provided"
        Worklet.BAD_REQUEST),
   Worklet.mkSession (Some 0%nat)
     [Worklet.New 0 [x01]; Worklet.Dispose 0]).
Proof.
  refine (initializeWDK_disposes_before_it_validates Scenario.platform
            _ _ 0%nat [Worklet.New 0 [x01]] _).
  vm_compute. reflexivity.
Defined.

(** With no field at all the validator of [config] is the one that throws;
    the instance is disposed all the same. *)
Lemma initializeWDK_with_no_field :
  Worklet.initializeWDK Scenario.platform (Some (JS.JObj []))
    (Worklet.mkSession (Some 0%nat) [Worklet.New 0 [x01]]) =
  (Worklet.Thrown
     (Worklet.mkError (Worklet.Plain "config must be a non-empty string")
        (Some Worklet.BAD_REQUEST)),
   Worklet.mkSession (Some 0%nat)
     [Worklet.New 0 [x01]; Worklet.Dispose 0]).
Proof. reflexivity. Qed.

(** An error that leaves [validateRequest] is a BAD_REQUEST as soon as the
    validators throw errors without a code of their own. *)
Lemma validation_errors_are_bad_requests {A : Type}
    (request : JS.value) (validationFn : Worklet.jsError + A)
    (fieldName : string) (e : Worklet.jsError) :
  Worklet.validateRequest request validationFn fieldName = inl e ->
  (forall e0, validationFn = inl e0 ->
     Worklet.noCode e0 = true \/
     Worklet.code e0 = Some Worklet.BAD_REQUEST) ->
  Worklet.code e = Some Worklet.BAD_REQUEST.
Proof.
  unfold Worklet.validateRequest. intros Hval Hcodes.
  destruct (negb (JS.truthy request) || negb (JS.typeof_object request)).
  - assert (e = Worklet.mkError
                  (Worklet.Plain (fieldName ++ " must be an object"))
                  (Some Worklet.BAD_REQUEST)) as -> by congruence.
    reflexivity.
  - destruct validationFn as [e0|a]; [|discriminate].
    destruct (Hcodes e0 eq_refl) as [Hno|Hbad].
    + rewrite Hno in Hval.
      assert (e = Worklet.mkError (Worklet.message e0)
                    (Some Worklet.BAD_REQUEST)) as -> by congruence.
      reflexivity.
    + destruct (Worklet.noCode e0).
      * assert (e = Worklet.mkError (Worklet.message e0)
                      (Some Worklet.BAD_REQUEST)) as -> by congruence.
        reflexivity.
      * assert (e = e0) as -> by congruence. exact Hbad.
Qed.

(** The sibling handler [registerWallet] validates first: when the
    validation of its request fails, the session is as it was. *)
Lemma registerWallet_validates_before_it_acts
    (P : Worklet.Platform) (request : JS.json) (e : Worklet.jsError)
    (s : Worklet.Session) :
  request <> JS.JNull ->
  Worklet.validateRequest (Some request)
    (Worklet.bindE
       (Worklet.check
          (Worklet.validateNonEmptyString P (JS.prop request "config")
             "config"))
       (fun _ => Worklet.validateJSON P (JS.prop request "config") "config"))
    "RegisterWalletRequest" = inl e ->
  Worklet.registerWallet P (Some request) s = (Worklet.Thrown e, s).
Proof.
  intros Hnull Hval. unfold Worklet.registerWallet.
  destruct request; try contradiction;
    unfold Worklet.bind at 1; rewrite Hval; reflexivity.
Qed.

(* --------------------------------------------------------------------- *)
(*  The two sides together                                                *)
(* --------------------------------------------------------------------- *)

(** A [dispose] call end to end: the frame the client writes is decoded and
    answered by an idle worker, and the frame the worker writes is what the
    client reads back as its result. *)
Lemma dispose_end_to_end :
  let sent := Scenario.frameOf (Scenario.request 1 "dispose" []) in
  let answered :=
    Worklet.written
      (snd (Worklet.processFramedData Scenario.platform sent Scenario.idle)) in
  Client.call Scenario.foundation "dispose" [] (Client.fresh answered) =
  (Client.Ok [("status", JS.JStr "disposed")],
   Client.mkState 1 true true [] [] [sent]).
Proof. vm_compute. reflexivity. Qed.

(* --------------------------------------------------------------------- *)
(*  The decoder on arbitrary bytes                                        *)
(* --------------------------------------------------------------------- *)

Lemma Z_of_byte_range b : 0 <= Z_of_byte b < 256.
Proof. unfold Z_of_byte. pose proof (Byte.to_N_bounded b). lia. Qed.

Lemma byte_of_Z_land z b : Z.land z 255 = Z_of_byte b -> byte_of_Z z = b.
Proof.
  intros H. unfold byte_of_Z. rewrite H. unfold Z_of_byte.
  rewrite N2Z.id, Byte.of_to_N. reflexivity.
Qed.

Lemma testbit_byte_high b i : 8 <= i -> Z.testbit (Z_of_byte b) i = false.
Proof.
  intros Hi. pose proof (Z_of_byte_range b) as Hb.
  destruct (Z.eq_dec (Z_of_byte b) 0) as [->|Hne]; [apply Z.bits_0|].
  apply Z.bits_above_log2; [lia|].
  apply Z.lt_le_trans with 8; [|exact Hi].
  apply Z.log2_lt_pow2; [lia|]. change (2 ^ 8) with 256. lia.
Qed.

Lemma be32_bits b0 b1 b2 b3 j :
  0 <= j ->
  Z.testbit (be32 b0 b1 b2 b3) j =
  Z.testbit (Z_of_byte b0) (j - 24) || Z.testbit (Z_of_byte b1) (j - 16)
  || Z.testbit (Z_of_byte b2) (j - 8) || Z.testbit (Z_of_byte b3) j.
Proof.
  intros Hj. unfold be32. rewrite !Z.lor_spec, !Z.shiftl_spec by lia.
  rewrite !orb_assoc. reflexivity.
Qed.

Ltac byte_bits :=
  repeat match goal with
  | |- context [Z.testbit (Z_of_byte ?b) ?j] =>
      first [ rewrite (testbit_byte_high b j) by lia
            | rewrite (Z.testbit_neg_r (Z_of_byte b) j) by lia ]
  end;
  rewrite ?orb_false_r, ?orb_false_l, ?andb_true_r, ?andb_false_r.

Lemma land_be32 b0 b1 b2 b3 k b :
  (k = 24 /\ b = b0) \/ (k = 16 /\ b = b1) \/ (k = 8 /\ b = b2)
  \/ (k = 0 /\ b = b3) ->
  Z.land (Z.shiftr (be32 b0 b1 b2 b3) k) 255 = Z_of_byte b.
Proof.
  intros Hk. apply Z.bits_inj'. intros i Hi.
  rewrite Z.land_spec, Z.shiftr_spec by lia.
  rewrite be32_bits by lia. rewrite testbit_255 by lia.
  destruct (Z.ltb_spec i 8) as [Hlt|Hge].
  - destruct Hk as [[-> ->]|[[-> ->]|[[-> ->]|[-> ->]]]].
    + replace (i + 24 - 24) with i by lia. byte_bits. reflexivity.
    + replace (i + 16 - 16) with i by lia. byte_bits. reflexivity.
    + replace (i + 8 - 8) with i by lia. byte_bits. reflexivity.
    + replace (i + 0) with i by lia. byte_bits. reflexivity.
  - rewrite andb_false_r. symmetry. apply testbit_byte_high. exact Hge.
Qed.

(** The four bytes written for the value read from four bytes are those
    bytes. *)
Lemma writeUInt32BE_be32 b0 b1 b2 b3 :
  writeUInt32BE (be32 b0 b1 b2 b3) = [b0; b1; b2; b3].
Proof.
  unfold writeUInt32BE.
  rewrite (byte_of_Z_land (Z.shiftr (be32 b0 b1 b2 b3) 24) b0)
    by (apply land_be32; tauto).
  rewrite (byte_of_Z_land (Z.shiftr (be32 b0 b1 b2 b3) 16) b1)
    by (apply land_be32; tauto).
  rewrite (byte_of_Z_land (Z.shiftr (be32 b0 b1 b2 b3) 8) b2)
    by (apply land_be32; tauto).
  rewrite (byte_of_Z_land (be32 b0 b1 b2 b3) b3)
    by (rewrite <- (Z.shiftr_0_r (be32 b0 b1 b2 b3)) at 1;
        apply land_be32; tauto).
  reflexivity.
Qed.

Lemma be32_bound b0 b1 b2 b3 : 0 <= be32 b0 b1 b2 b3 <= UINT32_MAX.
Proof.
  pose proof (readUInt32BE_write (be32 b0 b1 b2 b3) []) as H.
  rewrite writeUInt32BE_be32 in H. cbn [app readUInt32BE] in H.
  assert (Heq : be32 b0 b1 b2 b3 = be32 b0 b1 b2 b3 mod 2 ^ 32)
    by congruence.
  pose proof (Z.mod_pos_bound (be32 b0 b1 b2 b3) (2 ^ 32) ltac:(lia)) as Hm.
  rewrite <- Heq in Hm. unfold UINT32_MAX.
  change (2 ^ 32) with 4294967296 in Hm. lia.
Qed.

Module Decoder.
Import Worklet.

(** What the loop takes off the buffer is a frame as [writeFramed] builds
    it: the encoding of the message it hands over. *)
Lemma nextFrame_is_a_frame readBuffer messageData rest :
  nextFrame readBuffer = Some (messageData, rest) ->
  readBuffer = framed messageData ++ rest /\ blen messageData <= UINT32_MAX.
Proof.
  intros H. apply WorkletFraming.nextFrame_Some in H.
  destruct H as (n & Hrd & Hn & Hlen & Hm & Hr).
  destruct readBuffer as [|b0 [|b1 [|b2 [|b3 tail]]]];
    cbn [readUInt32BE] in Hrd; try discriminate.
  assert (Hn' : n = be32 b0 b1 b2 b3) by congruence.
  assert (Hlen' : (Z.to_nat n <= length tail)%nat)
    by (unfold blen in Hlen; cbn [length] in Hlen; lia).
  assert (Hm' : messageData = firstn (Z.to_nat n) tail).
  { rewrite Hm. unfold slice. replace (4 + n - 4) with n by lia.
    reflexivity. }
  assert (Hr' : rest = skipn (Z.to_nat n) tail).
  { rewrite Hr. unfold slice_from.
    replace (Z.to_nat (4 + n)) with (4 + Z.to_nat n)%nat by lia.
    reflexivity. }
  assert (Hbl : blen messageData = n).
  { rewrite Hm'. unfold blen. rewrite firstn_length_le by exact Hlen'. lia. }
  split.
  - unfold framed. rewrite Hbl, Hn', writeUInt32BE_be32, Hm', Hr'.
    cbn [app]. rewrite firstn_skipn. reflexivity.
  - rewrite Hbl, Hn'. apply be32_bound.
Qed.

(** When the loop is left, the buffer holds no complete frame. *)
Lemma nextFrame_None readBuffer :
  nextFrame readBuffer = None <->
  (blen readBuffer < 4 \/
   exists n, readUInt32BE readBuffer = Some n /\ blen readBuffer < 4 + n).
Proof.
  unfold nextFrame. split.
  - destruct (Z.leb_spec 4 (blen readBuffer)) as [H4|H4]; [|left; lia].
    destruct (readUInt32BE readBuffer) as [n|] eqn:Hn.
    + destruct (Z.ltb_spec (blen readBuffer) (4 + n)); [|discriminate].
      intros _. right. exists n. split; [reflexivity|assumption].
    + destruct readBuffer as [|b0 [|b1 [|b2 [|b3 tail]]]];
        cbn [readUInt32BE] in Hn; try discriminate;
        unfold blen in H4; cbn [length] in H4; lia.
  - intros [Hshort|(n & Hn & Hlt)].
    + destruct (Z.leb_spec 4 (blen readBuffer)); [lia|reflexivity].
    + rewrite Hn.
      destruct (Z.leb_spec 4 (blen readBuffer)); [|reflexivity].
      destruct (Z.ltb_spec (blen readBuffer) (4 + n)); [reflexivity|lia].
Qed.

Section Loop.
Context {S : Type}.
Variable onMessage : bytes -> S -> S.

Lemma frameLoop_leftover readBuffer s :
  nextFrame (fst (frameLoop onMessage readBuffer s)) = None.
Proof.
  remember (length readBuffer) as k eqn:Hk.
  revert readBuffer s Hk.
  induction k as [k IH] using lt_wf_ind. intros readBuffer s Hk.
  destruct (nextFrame readBuffer) as [[m r]|] eqn:Hnf.
  - rewrite (WorkletFraming.frameLoop_Some onMessage readBuffer s m r Hnf).
    apply (IH (length r)); [|reflexivity].
    subst k. eapply WorkletFraming.nextFrame_shrinks; eauto.
  - rewrite (WorkletFraming.frameLoop_None onMessage readBuffer s Hnf).
    exact Hnf.
Qed.

End Loop.

(** The messages collected by the loop, framed again and followed by what
    the loop left, are the bytes the loop was given. *)
Lemma frameLoop_lossless readBuffer :
  concat (map framed (snd (frameLoop TestFraming.push readBuffer []))) ++
  fst (frameLoop TestFraming.push readBuffer []) = readBuffer /\
  Forall (fun m => blen m <= UINT32_MAX)
    (snd (frameLoop TestFraming.push readBuffer [])).
Proof.
  remember (length readBuffer) as k eqn:Hk.
  revert readBuffer Hk.
  induction k as [k IH] using lt_wf_ind. intros readBuffer Hk.
  destruct (nextFrame readBuffer) as [[m r]|] eqn:Hnf.
  - rewrite (WorkletFraming.frameLoop_Some TestFraming.push readBuffer [] m r
               Hnf).
    rewrite WorkletFraming.frameLoop_push. cbn [fst snd].
    assert (Hr : (length r < k)%nat)
      by (subst k; eapply WorkletFraming.nextFrame_shrinks; eauto).
    destruct (IH _ Hr r eq_refl) as [IH1 IH2].
    destruct (nextFrame_is_a_frame _ _ _ Hnf) as [Hbuf Hfit].
    change (TestFraming.push m []) with [m]. cbn [app map concat]. split.
    + rewrite <- app_assoc, IH1. symmetry. exact Hbuf.
    + constructor; assumption.
  - rewrite (WorkletFraming.frameLoop_None TestFraming.push readBuffer [] Hnf).
    cbn [fst snd map concat app]. split; [reflexivity|constructor].
Qed.

End Decoder.

(** X1.  The decoder of the framing test loses no byte and invents none:
    whatever bytes it is fed, in whatever chunks and from whatever buffer,
    the messages it emits, framed again by [writeFramed] and followed by
    the bytes it keeps buffered, are exactly the bytes it was given; and
    every message it emits has a length that fits the 4-byte prefix. *)
Theorem decoding_loses_no_byte (chunks : list bytes) (readBuffer : bytes) :
  concat (map TestFraming.writeFramed
            (fst (TestFraming.run chunks readBuffer))) ++
  snd (TestFraming.run chunks readBuffer) = readBuffer ++ concat chunks /\
  Forall (fun m => blen m <= UINT32_MAX)
    (fst (TestFraming.run chunks readBuffer)).
Proof.
  revert readBuffer. induction chunks as [|c cs IH]; intros readBuffer.
  - cbn [TestFraming.run fst snd map concat app]. rewrite app_nil_r.
    split; [reflexivity|constructor].
  - cbn [TestFraming.run concat].
    pose proof (Decoder.frameLoop_lossless (readBuffer ++ c)) as Hc.
    unfold TestFraming.processFramedData. cbn [fst snd].
    destruct (Worklet.frameLoop TestFraming.push (readBuffer ++ c) [])
      as [rb1 msgs].
    cbn [fst snd] in *. destruct Hc as [H1 H2].
    destruct (IH rb1) as [IH1 IH2].
    destruct (TestFraming.run cs rb1) as [msgs' rb']. cbn [fst snd] in *.
    split.
    + rewrite map_app, concat_app, <- app_assoc, IH1, app_assoc.
      change (map TestFraming.writeFramed msgs) with (map Worklet.framed msgs).
      rewrite H1, <- app_assoc. reflexivity.
    + apply Forall_app. split; assumption.
Qed.

(** X2.  The decoder of the framing test holds nothing back: once
    [processFramedData] has returned, the buffer is shorter than a header,
    or shorter than the frame its header declares; so feeding the empty
    chunk afterwards emits nothing and changes nothing. *)
Theorem no_complete_frame_is_left_waiting (chunk readBuffer : bytes) :
  (blen (snd (TestFraming.processFramedData chunk readBuffer)) < 4 \/
   exists n,
     readUInt32BE (snd (TestFraming.processFramedData chunk readBuffer))
       = Some n /\
     blen (snd (TestFraming.processFramedData chunk readBuffer)) < 4 + n) /\
  TestFraming.processFramedData []
    (snd (TestFraming.processFramedData chunk readBuffer)) =
  ([], snd (TestFraming.processFramedData chunk readBuffer)).
Proof.
  unfold TestFraming.processFramedData at 1 2 3 5 6. cbn [fst snd].
  pose proof (Decoder.frameLoop_leftover TestFraming.push
                (readBuffer ++ chunk) []) as Hleft.
  split.
  - apply Decoder.nextFrame_None. exact Hleft.
  - unfold TestFraming.processFramedData. rewrite app_nil_r.
    rewrite (WorkletFraming.frameLoop_None TestFraming.push _ [] Hleft).
    reflexivity.
Qed.

(** X3.  For the decoder of the framing test the cut of the bytes into
    chunks never matters, whatever the bytes are (whole frames or not):
    feeding chunks one after the other emits the messages, and leaves the
    buffer, that feeding their concatenation at once does. *)
Theorem chunk_boundaries_do_not_matter
    (chunk : bytes) (chunks : list bytes) (readBuffer : bytes) :
  TestFraming.run (chunk :: chunks) readBuffer =
  TestFraming.processFramedData (chunk ++ concat chunks) readBuffer.
Proof.
  pose proof (TestFraming_run_feedAll (chunk :: chunks) readBuffer []) as Hrun.
  cbn [Worklet.feedAll fold_left] in Hrun.
  unfold Worklet.feed at 2 in Hrun. cbn [fst snd] in Hrun.
  change (Worklet.feedAll TestFraming.push chunks
            (Worklet.frameLoop TestFraming.push (readBuffer ++ chunk) []) =
          (snd (TestFraming.run (chunk :: chunks) readBuffer),
           [] ++ fst (TestFraming.run (chunk :: chunks) readBuffer))) in Hrun.
  rewrite WorkletFraming.feedAll_concat, <- app_assoc in Hrun.
  unfold TestFraming.processFramedData.
  destruct (TestFraming.run (chunk :: chunks) readBuffer) as [msgs rb].
  rewrite Hrun. reflexivity.
Qed.

(** X4.  The worklet never refuses a length: a chunk that leaves the buffer
    shorter than a header, or shorter than the frame its header declares
    (up to the largest length the prefix can hold), is only buffered; no
    handler runs and nothing is written. *)
Theorem incomplete_data_is_only_buffered
    (P : Worklet.Platform) (chunk readBuffer : bytes) (w : Worklet.Worker) :
  (blen (readBuffer ++ chunk) < 4 \/
   exists n, readUInt32BE (readBuffer ++ chunk) = Some n /\
             blen (readBuffer ++ chunk) < 4 + n) ->
  Worklet.processFramedData P chunk (readBuffer, w) = (readBuffer ++ chunk, w).
Proof.
  intros Hshort. apply Decoder.nextFrame_None in Hshort.
  unfold Worklet.processFramedData, Worklet.feed. cbn [fst snd].
  rewrite (WorkletFraming.frameLoop_None (Worklet.received P) _ (w, [])
             Hshort).
  reflexivity.
Qed.

(** Two bytes are buffered, three more arrive: the header ff ff ff ff
    declares 4,294,967,295 bytes, of which one is there. *)
Lemma incomplete_data_is_only_buffered_witness :
  Worklet.processFramedData Scenario.platform [xff; xff; x01]
    ([xff; xff], snd Scenario.idle) =
  ([xff; xff; xff; xff; x01], snd Scenario.idle).
Proof.
  apply (incomplete_data_is_only_buffered Scenario.platform [xff; xff; x01]
           [xff; xff] (snd Scenario.idle)).
  right. exists 4294967295. split; reflexivity.
Defined.

(* --------------------------------------------------------------------- *)
(*  The client: reads that follow one another                             *)
(* --------------------------------------------------------------------- *)

Module ClientReads.
Import Client.

(** When the stream ends first, every byte received stays buffered. *)
Lemma readExactly_closed_stream count c :
  ipc c = true -> blen (stream c) < count ->
  stream (snd (readExactly count c)) = stream c /\
  outgoing (snd (readExactly count c)) = outgoing c /\
  requestId (snd (readExactly count c)) = requestId c.
Proof.
  intros Hipc Hcount. unfold readExactly. rewrite Hipc. cbn [negb].
  destruct (fill count (readBuffer c) (incoming c)) as [[buffered rest]|]
    eqn:Hfill.
  - apply ClientFraming.fill_Some in Hfill. destruct Hfill as [Hstream Hlen].
    unfold stream in Hcount. rewrite <- Hstream, blen_app in Hcount.
    pose proof (blen_nonneg (concat rest)). lia.
  - cbn [snd]. unfold stream.
    cbn [readBuffer incoming outgoing requestId concat].
    rewrite app_nil_r. repeat split; reflexivity.
Qed.

Lemma firstn_plus {A : Type} (m n : nat) (l : list A) :
  firstn (m + n) l = firstn m l ++ firstn n (skipn m l).
Proof.
  revert l. induction m as [|m IH]; intros l; [reflexivity|].
  destruct l as [|x l]; cbn [Nat.add firstn skipn app].
  - rewrite firstn_nil. reflexivity.
  - rewrite IH. reflexivity.
Qed.

Lemma firstn_header v rest :
  firstn 4 (writeUInt32BE v ++ rest) = writeUInt32BE v /\
  skipn 4 (writeUInt32BE v ++ rest) = rest.
Proof. split; reflexivity. Qed.

End ClientReads.

(** X5.  Reads of the client compose: reading [m] bytes and then [n] bytes
    hands over, piece by piece, the bytes that one read of [m + n] bytes
    hands over, and leaves the same bytes to be read, however the transport
    cuts the stream into chunks. *)
Theorem reads_compose (m n : Z) (c : Client.State) :
  Client.ipc c = true -> 0 <= m -> 0 <= n ->
  m + n <= blen (Client.stream c) ->
  exists (a b : bytes) (c1 c2 c' : Client.State),
    Client.readExactly m c = (Client.Ok a, c1) /\
    Client.readExactly n c1 = (Client.Ok b, c2) /\
    Client.readExactly (m + n) c = (Client.Ok (a ++ b), c') /\
    Client.stream c2 = Client.stream c' /\
    blen a = m /\ blen b = n.
Proof.
  intros Hipc Hm Hn Hlen.
  destruct (ClientFraming.readExactly_ok m c Hipc ltac:(lia))
    as (c1 & Hr1 & Hs1 & _ & _ & Hipc1 & _).
  assert (Hlen1 : 0 <= n <= blen (Client.stream c1)).
  { rewrite Hs1. unfold blen in *. rewrite length_skipn. lia. }
  destruct (ClientFraming.readExactly_ok n c1 Hipc1 Hlen1)
    as (c2 & Hr2 & Hs2 & _).
  destruct (ClientFraming.readExactly_ok (m + n) c Hipc ltac:(lia))
    as (c' & Hr & Hs & _).
  exists (firstn (Z.to_nat m) (Client.stream c)),
         (firstn (Z.to_nat n) (Client.stream c1)), c1, c2, c'.
  split; [exact Hr1|]. split; [exact Hr2|]. split; [|split; [|split]].
  - rewrite Hr, Hs1, Z2Nat.inj_add, ClientReads.firstn_plus by lia.
    reflexivity.
  - rewrite Hs2, Hs1, Hs, skipn_skipn, Z2Nat.inj_add by lia.
    f_equal. lia.
  - unfold blen in *. rewrite firstn_length_le by lia. lia.
  - unfold blen in *. rewrite firstn_length_le by lia. lia.
Qed.

(** A stream of five bytes in three chunks, read as 2 + 2 and as 4. *)
Lemma reads_compose_witness :
  exists (a b : bytes) (c1 c2 c' : Client.State),
    Client.readExactly 2
      (Client.mkState 0 true true [] [[x01]; [x02; x03]; [x04; x05]] [])
      = (Client.Ok a, c1) /\
    Client.readExactly 2 c1 = (Client.Ok b, c2) /\
    Client.readExactly (2 + 2)
      (Client.mkState 0 true true [] [[x01]; [x02; x03]; [x04; x05]] [])
      = (Client.Ok (a ++ b), c') /\
    Client.stream c2 = Client.stream c' /\
    blen a = 2 /\ blen b = 2.
Proof.
  apply (reads_compose 2 2
           (Client.mkState 0 true true [] [[x01]; [x02; x03]; [x04; x05]] [])).
  - reflexivity.
  - lia.
  - lia.
  - vm_compute. discriminate.
Defined.

(** X6.  What [readFramed] makes of a header followed by any bytes, for
    every length [n] a header can declare: [n = 0] and [n >= 10,000,000]
    are refused with "Invalid message length"; otherwise the payload is
    handed over when [n] bytes follow, and the closed connection is
    reported when the stream ends before.  In the two failing cases the
    four header bytes are gone and the bytes after them are still in the
    stream. *)
Theorem readFramed_on_any_header (n : Z) (rest : bytes) (c : Client.State) :
  Client.ipc c = true -> 0 <= n <= UINT32_MAX ->
  Client.stream c = writeUInt32BE n ++ rest ->
  fst (Client.readFramed c) =
    (if (n =? 0) || (10000000 <=? n) then
       Client.Fail (Client.thrown
         (Client.ipcError ("Invalid message length: " ++ decimal n)))
     else if blen rest <? n then
       Client.Fail (Client.thrown
         (Client.ipcError "Connection closed while reading"))
     else Client.Ok (firstn (Z.to_nat n) rest)) /\
  Client.stream (snd (Client.readFramed c)) =
    (if (n =? 0) || (10000000 <=? n) then rest
     else if blen rest <? n then rest
     else skipn (Z.to_nat n) rest).
Proof.
  intros Hipc Hn Hstream.
  assert (H4 : 0 <= 4 <= blen (Client.stream c)).
  { rewrite Hstream, blen_app, blen_writeUInt32BE.
    pose proof (blen_nonneg rest). lia. }
  destruct (ClientFraming.readExactly_ok 4 c Hipc H4)
    as (c1 & Hread & Hs1 & _ & _ & Hipc1 & _).
  rewrite Hstream in Hread, Hs1. change (Z.to_nat 4) with 4%nat in Hread, Hs1.
  destruct (ClientReads.firstn_header n rest) as [Hf Hsk].
  rewrite Hf in Hread. rewrite Hsk in Hs1.
  assert (Hlen : readUInt32BE (writeUInt32BE n) = Some n).
  { rewrite <- (app_nil_r (writeUInt32BE n)).
    apply readUInt32BE_write_small. exact Hn. }
  destruct (Z.eqb_spec n 0) as [H0|H0];
    [|destruct (Z.leb_spec 10000000 n) as [Hbig|Hsmall]]; cbn [orb].
  - rewrite (ClientFrames.readFramed_rejects c _ c1 n Hread Hlen)
      by (left; lia).
    split; [reflexivity|exact Hs1].
  - rewrite (ClientFrames.readFramed_rejects c _ c1 n Hread Hlen)
      by (right; lia).
    split; [reflexivity|exact Hs1].
  - rewrite (ClientFrames.readFramed_accepts c _ c1 n Hread Hlen) by lia.
    destruct (Z.ltb_spec (blen rest) n) as [Hshort|Hlong].
    + split.
      * apply ClientFraming.readExactly_closed; [exact Hipc1|].
        rewrite Hs1. exact Hshort.
      * rewrite <- Hs1.
        apply ClientReads.readExactly_closed_stream; [exact Hipc1|].
        rewrite Hs1. exact Hshort.
    + destruct (ClientFraming.readExactly_ok n c1 Hipc1)
        as (c2 & Hread2 & Hs2 & _); [rewrite Hs1; lia|].
      rewrite Hread2. cbn [fst snd]. rewrite Hs2, Hs1.
      split; reflexivity.
Qed.

(** A header that declares two bytes, one byte behind it, then the end of
    the stream: the connection is reported closed and the byte is kept. *)
Lemma readFramed_on_any_header_witness :
  fst (Client.readFramed
         (Client.mkState 0 true true [] [[x00; x00; x00]; [x02; x68]] [])) =
    Client.Fail (Client.thrown
      (Client.ipcError "Connection closed while reading")) /\
  Client.stream
    (snd (Client.readFramed
            (Client.mkState 0 true true [] [[x00; x00; x00]; [x02; x68]] [])))
    = [x68].
Proof.
  apply (readFramed_on_any_header 2 [x68]
           (Client.mkState 0 true true [] [[x00; x00; x00]; [x02; x68]] [])).
  - reflexivity.
  - split; [lia|vm_compute; discriminate].
  - reflexivity.
Defined.

(* --------------------------------------------------------------------- *)
(*  The client: calls that follow one another                             *)
(* --------------------------------------------------------------------- *)

Module ClientCalls.
Import JS Client.

(** The request envelope of [call]. *)
Lemma call_on_started F method params c :
  isWorkletStarted c = true ->
  call F method params c =
  (id <- nextRequestId ;;
   match data F (JObj [ ("jsonrpc", JStr "2.0"); ("id", JNum id);
                        ("method", JStr method); ("params", JObj params) ])
   with
   | None => fail (serialization "JSONSerialization.data")
   | Some requestData =>
       writeFramed requestData ;;;
       responseData <- readFramed ;;
       match jsonObject F responseData with
       | None => fail (serialization "JSONSerialization.jsonObject")
       | Some (JObj response) =>
           match outcomeOf response with
           | Ok result => ret result
           | Fail f => fail f
           end
       | Some _ => fail (thrown (invalidResponse "Invalid JSON response"))
       end
   end) c.
Proof.
  intros Hs. unfold call, bind, ensureWorkletStarted. rewrite Hs.
  destruct (nextRequestId c) as [[id|f] c1]; [|reflexivity].
  destruct (data F _) as [requestData|]; [|reflexivity].
  destruct (writeFramed requestData c1) as [[[]|f] c2]; [|reflexivity].
  destruct (readFramed c2) as [[responseData|f] c3]; [|reflexivity].
  destruct (jsonObject F responseData) as [[| | | | |response]|];
    try reflexivity.
  unfold outcomeOf.
  destruct (assoc "error" response) as [[| | | | |error]|];
    try reflexivity;
    destruct (assoc "result" response) as [[| | | | |result]|];
    reflexivity.
Qed.

(** One call of a started client whose stream begins with a frame. *)
Lemma call_answered F method params response c requestData payload rest :
  requestId c < INT_MAX ->
  isWorkletStarted c = true -> ipc c = true ->
  data F (JObj [ ("jsonrpc", JStr "2.0"); ("id", JNum (requestId c + 1));
                 ("method", JStr method); ("params", JObj params) ])
    = Some requestData ->
  blen requestData <= UINT32_MAX ->
  stream c = Worklet.framed payload ++ rest ->
  0 < blen payload < 10000000 ->
  jsonObject F payload = Some (JObj response) ->
  exists c',
    call F method params c = (outcomeOf response, c') /\
    requestId c' = requestId c + 1 /\ stream c' = rest /\
    outgoing c' = outgoing c ++ [Worklet.framed requestData] /\
    isWorkletStarted c' = true /\ ipc c' = true.
Proof.
  intros Hid Hs Hipc Hdata Hfit Hstream Hlen Hparse.
  rewrite (call_on_started F method params c Hs).
  unfold bind at 1. rewrite ClientIds.nextRequestId_step by exact Hid.
  rewrite Hdata.
  unfold bind at 1. unfold writeFramed at 1.
  cbn [ipc requestId isWorkletStarted readBuffer incoming outgoing].
  rewrite Hipc. cbn [negb].
  destruct (Z.ltb_spec UINT32_MAX (blen requestData)); [lia|].
  set (c2 := mkState _ _ _ _ _ _).
  assert (Hipc2 : ipc c2 = true) by reflexivity.
  assert (Hs2 : stream c2 = Worklet.framed payload ++ rest)
    by (rewrite <- Hstream; reflexivity).
  destruct (ClientFrames.readFramed_frame c2 payload rest Hipc2 Hs2 Hlen)
    as (c3 & Hread & Hs3 & Hid3 & Hst3 & Hipc3 & Ho3).
  unfold bind at 1. rewrite Hread, Hparse.
  exists c3. split; [|split; [|split; [|split; [|split]]]].
  - destruct (outcomeOf response); reflexivity.
  - rewrite Hid3. reflexivity.
  - exact Hs3.
  - rewrite Ho3. reflexivity.
  - rewrite Hst3. subst c2. cbn [isWorkletStarted]. exact Hs.
  - exact Hipc3.
Qed.

End ClientCalls.

(** X7.  Calls awaited one after the other are answered in order.  When
    the stream of a started client carries the frames of [k] response
    objects, cut into chunks in any way, [k] successive calls take the ids
    that follow the counter, write their [k] request frames in order, and
    the i-th call gets the outcome of the i-th response: its [result], or
    the [rpcError] of its [error]; the bytes after the [k] frames are left
    in the stream. *)
Theorem sequential_calls_are_answered_in_order
    (F : Client.Runtime) (c : Client.State) (rest : bytes)
    (requests : list (string * list (string * JS.json)))
    (sent payloads : list bytes)
    (responses : list (list (string * JS.json))) :
  Client.isWorkletStarted c = true -> Client.ipc c = true ->
  Client.requestId c + Z.of_nat (length requests) <= Client.INT_MAX ->
  length sent = length requests ->
  (forall (i : nat) (method : string) (params : list (string * JS.json)),
     nth_error requests i = Some (method, params) ->
     exists requestData,
       nth_error sent i = Some requestData /\
       Client.data F
         (JS.JObj [ ("jsonrpc", JS.JStr "2.0");
                    ("id", JS.JNum (Client.requestId c + Z.of_nat i + 1));
                    ("method", JS.JStr method); ("params", JS.JObj params) ])
         = Some requestData /\
       blen requestData <= UINT32_MAX) ->
  length payloads = length requests ->
  Forall2 (fun payload response =>
             0 < blen payload < 10000000 /\
             Client.jsonObject F payload = Some (JS.JObj response))
    payloads responses ->
  Client.stream c = concat (map Worklet.framed payloads) ++ rest ->
  exists c',
    ClientAPI.callAll F requests c = (map Client.outcomeOf responses, c') /\
    Client.requestId c' = Client.requestId c + Z.of_nat (length requests) /\
    Client.stream c' = rest /\
    Client.outgoing c' = Client.outgoing c ++ map Worklet.framed sent.
Proof.
  revert c sent payloads responses.
  induction requests as [|[method params] requests IH];
    intros c sent payloads responses Hs Hipc Hid Hsent Hdata Hlen Hall Hstream.
  - destruct sent; [|discriminate]. destruct payloads; [|discriminate].
    inversion Hall; subst. exists c.
    cbn [ClientAPI.callAll map length concat app] in *.
    rewrite app_nil_r, Z.add_0_r. repeat split; auto.
  - destruct sent as [|requestData sent]; [discriminate|].
    destruct payloads as [|payload payloads]; [discriminate|].
    inversion Hall as [|? response ? responses' [Hpl Hparse] Hall' ]; subst.
    cbn [length] in Hid, Hsent, Hlen.
    destruct (Hdata 0%nat method params eq_refl) as (d & Hd & Hdat & Hfit).
    cbn [nth_error] in Hd. assert (d = requestData) as -> by congruence.
    rewrite Z.add_0_r in Hdat.
    cbn [map concat] in Hstream. rewrite <- app_assoc in Hstream.
    destruct (ClientCalls.call_answered F method params response c requestData
                payload (concat (map Worklet.framed payloads) ++ rest)
                ltac:(lia) Hs Hipc Hdat Hfit Hstream Hpl Hparse)
      as (c1 & Hcall & Hid1 & Hs1 & Ho1 & Hst1 & Hipc1).
    destruct (IH c1 sent payloads responses' Hst1 Hipc1) as
      (c' & Hrun & Hid' & Hs' & Ho'); try lia; try assumption.
    + intros i m p Hnth.
      destruct (Hdata (S i) m p Hnth) as (d & Hnd & Hdat' & Hfit').
      exists d. split; [exact Hnd|]. split; [|exact Hfit'].
      rewrite Hid1.
      replace (Client.requestId c + 1 + Z.of_nat i + 1)
        with (Client.requestId c + Z.of_nat (S i) + 1) by lia.
      exact Hdat'.
    + exists c'. cbn [ClientAPI.callAll]. rewrite Hcall. cbn [fst snd].
      rewrite Hrun. cbn [fst snd map length].
      split; [reflexivity|]. split; [lia|]. split; [exact Hs'|].
      rewrite Ho', Ho1, <- app_assoc. reflexivity.
Qed.

(** Two calls of a started client; the transport delivers, cut after ten
    bytes, the frame of a result and the frame of an error. *)
Lemma sequential_calls_witness :
  exists c',
    ClientAPI.callAll Scenario.foundation
      [("workletStart", []); ("dispose", [])]
      (Client.mkState 0 true true []
         [ firstn 10
             (Scenario.frameOf
                (JS.JObj [ ("jsonrpc", JS.JStr "2.0"); ("id", JS.JNum 1);
                           ("result",
                            JS.JObj [("status", JS.JStr "started")]) ]) ++
              Scenario.frameOf
                (JS.JObj [ ("jsonrpc", JS.JStr "2.0"); ("id", JS.JNum 2);
                           ("error",
                            JS.JObj [ ("message", JS.JStr "no");
                                      ("code", JS.JStr "BAD_REQUEST") ]) ]));
           skipn 10
             (Scenario.frameOf
                (JS.JObj [ ("jsonrpc", JS.JStr "2.0"); ("id", JS.JNum 1);
                           ("result",
                            JS.JObj [("status", JS.JStr "started")]) ]) ++
              Scenario.frameOf
                (JS.JObj [ ("jsonrpc", JS.JStr "2.0"); ("id", JS.JNum 2);
                           ("error",
                            JS.JObj [ ("message", JS.JStr "no");
                                      ("code", JS.JStr "BAD_REQUEST") ]) ])) ]
         []) =
    ([ Client.Ok [("status", JS.JStr "started")];
       Client.Fail (Client.thrown (Client.rpcError "BAD_REQUEST" "no")) ],
     c') /\
    Client.requestId c' = 0 + Z.of_nat 2 /\
    Client.stream c' = [] /\
    Client.outgoing c' =
      [] ++ map Worklet.framed
              [ list_byte_of_string
                  (MiniJSON.print (Scenario.request 1 "workletStart" []));
                list_byte_of_string
                  (MiniJSON.print (Scenario.request 2 "dispose" [])) ].
Proof.
  refine (sequential_calls_are_answered_in_order Scenario.foundation
            _ [] [("workletStart", []); ("dispose", [])]
            [ list_byte_of_string
                (MiniJSON.print (Scenario.request 1 "workletStart" []));
              list_byte_of_string
                (MiniJSON.print (Scenario.request 2 "dispose" [])) ]
            [ list_byte_of_string
                (MiniJSON.print
                   (JS.JObj [ ("jsonrpc", JS.JStr "2.0"); ("id", JS.JNum 1);
                              ("result",
                               JS.JObj [("status", JS.JStr "started")]) ]));
              list_byte_of_string
                (MiniJSON.print
                   (JS.JObj [ ("jsonrpc", JS.JStr "2.0"); ("id", JS.JNum 2);
                              ("error",
                               JS.JObj [ ("message", JS.JStr "no");
                                         ("code", JS.JStr "BAD_REQUEST") ]) ])) ]
            [ [ ("jsonrpc", JS.JStr "2.0"); ("id", JS.JNum 1);
                ("result", JS.JObj [("status", JS.JStr "started")]) ];
              [ ("jsonrpc", JS.JStr "2.0"); ("id", JS.JNum 2);
                ("error", JS.JObj [ ("message", JS.JStr "no");
                                    ("code", JS.JStr "BAD_REQUEST") ]) ] ]
            _ _ _ _ _ _ _ _).
  - reflexivity.
  - reflexivity.
  - vm_compute. discriminate.
  - reflexivity.
  - intros [|[|i]] method params Hnth; cbn [nth_error] in Hnth.
    + injection Hnth as <- <-. eexists. split; [reflexivity|].
      split; [reflexivity|vm_compute; discriminate].
    + injection Hnth as <- <-. eexists. split; [reflexivity|].
      split; [reflexivity|vm_compute; discriminate].
    + destruct i; discriminate.
  - reflexivity.
  - repeat constructor; vm_compute; reflexivity.
  - vm_compute. reflexivity.
Defined.

(* --------------------------------------------------------------------- *)
(*  The handlers of the session: what they register, and when they stop   *)
(* --------------------------------------------------------------------- *)

(** [config && typeof config === 'object'], the test of the registration
    loops. *)
Local Abbreviation isConfig c :=
  (JS.truthy (Some c) && JS.typeof_object (Some c)).

(** The calls [registerWallet(networkName, walletManager, config)] made on
    instance [h] for a list of networks: one for each entry whose config is
    an object, in order. *)
Local Abbreviation registrations h networks :=
  (flat_map
     (fun entry : string * JS.json =>
        if isConfig (snd entry) then
          match Worklet.walletManagers (fst entry) with
          | Some walletManager =>
              [Worklet.RegisterWallet h (fst entry) walletManager (snd entry)]
          | None => []
          end
        else [])
     networks).

(** Every entry whose config is an object names a network that has a wallet
    manager. *)
Local Abbreviation registrable networks :=
  (Forall
     (fun entry : string * JS.json =>
        isConfig (snd entry) = true ->
        Worklet.walletManagers (fst entry) <> None)
     networks).

Module HandlerLoops.
Import JS Worklet.

Lemma initWallets_app h pre post s :
  initWallets h (pre ++ post) s =
  match initWallets h pre s with
  | (Returned _, s1) => initWallets h post s1
  | (Thrown e, s1) => (Thrown e, s1)
  end.
Proof.
  revert s. induction pre as [|[name cfg] pre IH]; intros s; [reflexivity|].
  cbn [app initWallets]. unfold bind.
  match goal with
  | |- context [match ?m s with _ => _ end] =>
      destruct (m s) as [[[]|e] s1]; [apply IH|reflexivity]
  end.
Qed.

Lemma initWallets_ok h networks s :
  registrable networks ->
  initWallets h networks s =
  (Returned tt, mkSession (wdk s) (calls s ++ registrations h networks)).
Proof.
  intros Hall. revert s.
  induction Hall as [|[name cfg] rest Hok _ IH]; intros s.
  - cbn [initWallets flat_map]. rewrite app_nil_r. destruct s; reflexivity.
  - cbn [initWallets flat_map fst snd] in *. unfold bind at 1.
    destruct (isConfig cfg) eqn:Hobj.
    + destruct (walletManagers name) as [m|] eqn:Hm;
        [|exfalso; apply Hok; reflexivity].
      unfold lib. rewrite IH. cbn [wdk calls].
      rewrite <- app_assoc. reflexivity.
    + unfold ret. rewrite IH. reflexivity.
Qed.

Lemma initWallets_stops h name cfg post s :
  isConfig cfg = true -> walletManagers name = None ->
  initWallets h ((name, cfg) :: post) s =
  (Thrown (createErrorWithCode
             ("No wallet manager found for network: " ++ name)
             WDK_MANAGER_INIT), s).
Proof.
  intros Hobj Hm. cbn [initWallets]. unfold bind at 1.
  rewrite Hobj, Hm. reflexivity.
Qed.

Lemma registerWallets_ok h networks registered s :
  registrable networks ->
  registerWallets h networks registered s =
  (Returned (registered ++
             map fst (filter (fun entry => isConfig (snd entry)) networks)),
   mkSession (wdk s) (calls s ++ registrations h networks)).
Proof.
  intros Hall. revert registered s.
  induction Hall as [|[name cfg] rest Hok _ IH]; intros registered s.
  - cbn [registerWallets flat_map filter map]. rewrite !app_nil_r.
    destruct s; reflexivity.
  - cbn [registerWallets flat_map filter fst snd] in *.
    destruct (isConfig cfg) eqn:Hobj.
    + destruct (walletManagers name) as [m|] eqn:Hm;
        [|exfalso; apply Hok; reflexivity].
      unfold bind at 1, lib. rewrite IH. cbn [wdk calls map fst].
      rewrite <- !app_assoc. reflexivity.
    + rewrite IH. reflexivity.
Qed.

Lemma registerWallets_app h pre post registered s :
  registerWallets h (pre ++ post) registered s =
  match registerWallets h pre registered s with
  | (Returned l, s1) => registerWallets h post l s1
  | (Thrown e, s1) => (Thrown e, s1)
  end.
Proof.
  revert registered s.
  induction pre as [|[name cfg] pre IH]; intros registered s; [reflexivity|].
  cbn [app registerWallets].
  destruct (isConfig cfg); [|apply IH].
  destruct (walletManagers name) as [m|]; [|reflexivity].
  unfold bind at 1 2, lib. apply IH.
Qed.

(** A name that is no member of [Object.prototype] has no protocol
    manager: the table [protocolManagers] is empty. *)
Lemma protocolManagers_empty name :
  ~ In name objectPrototypeMembers -> protocolManagers name = None.
Proof.
  intros Hn. unfold protocolManagers, inherited.
  destruct (existsb (String.eqb name) objectPrototypeMembers) eqn:He;
    [|reflexivity].
  apply existsb_exists in He. destruct He as (x & Hin & Heq).
  apply String.eqb_eq in Heq. subst x. contradiction.
Qed.

Lemma registerProtocols_registers_nothing P h protocols s :
  Forall (fun entry : string * json => ~ In (fst entry) objectPrototypeMembers)
    protocols ->
  registerProtocols P h protocols s =
  (match find (fun entry => isConfig (snd entry)) protocols with
   | Some (protocolName, _) =>
       Thrown (createErrorWithCode
                 ("No protocol manager found for protocol: " ++ protocolName)
                 BAD_REQUEST)
   | None => Returned tt
   end, s).
Proof.
  intros Hall. revert s.
  induction Hall as [|[name cfg] rest Hok _ IH]; intros s; [reflexivity|].
  cbn [registerProtocols find fst snd] in *. unfold bind at 1.
  destruct (isConfig cfg).
  - rewrite (protocolManagers_empty name Hok). reflexivity.
  - unfold ret. apply IH.
Qed.

End HandlerLoops.

Module Initialize.
Import JS Worklet.

(** Once the request is validated and the seed decrypted, [initializeWDK]
    has disposed the instance it found, created a new one and installed it;
    the registration loops run from there. *)
Lemma initializeWDK_reaches_registration
    P fields workletConfig networks seed s :
  validateRequest (Some (JObj fields)) (initValidation P (JObj fields))
    "Init" = inr workletConfig ->
  prop workletConfig "networks" = Some (JObj networks) ->
  networks <> [] ->
  decrypt P (prop (JObj fields) "encryptedSeed")
    (prop (JObj fields) "encryptionKey") = inr seed ->
  initializeWDK P (Some (JObj fields)) s =
  (initWallets
     (length (calls s ++ match wdk s with
                         | Some old => [Dispose old]
                         | None => []
                         end)) networks ;;;
   (if truthy (prop workletConfig "protocols")
       && match prop workletConfig "protocols" with
          | Some protocols => (0 <? length (entries protocols))%nat
          | None => false
          end
    then initProtocols P
           (length (calls s ++ match wdk s with
                               | Some old => [Dispose old]
                               | None => []
                               end))
           match prop workletConfig "protocols" with
           | Some protocols => entries protocols
           | None => []
           end
    else ret tt) ;;;
   ret (JObj [("status", JStr "initialized")]))
    (mkSession
       (Some (length (calls s ++ match wdk s with
                                 | Some old => [Dispose old]
                                 | None => []
                                 end)))
       ((calls s ++ match wdk s with
                    | Some old => [Dispose old]
                    | None => []
                    end) ++
        [New (length (calls s ++ match wdk s with
                                 | Some old => [Dispose old]
                                 | None => []
                                 end)) seed])).
Proof.
  intros Hval Hnet Hne Hdec.
  assert (Hwc : truthy (Some workletConfig) = true)
    by (destruct workletConfig; cbn [prop] in Hnet; try discriminate;
        reflexivity).
  destruct networks as [|entry networks]; [contradiction|].
  unfold initializeWDK.
  unfold bind at 1. unfold bind at 1. unfold getWdk at 1.
  destruct s as [[old|] trace]; cbn [wdk calls];
    [unfold lib at 1; cbn [wdk calls] | unfold ret at 1;
     rewrite app_nil_r];
    (unfold bind at 1; rewrite Hval; cbn [liftE]; unfold ret at 1;
     unfold bind at 1; rewrite Hwc, Hnet;
     cbn [truthy typeof_object negb orb entries length Nat.eqb];
     unfold ret at 1;
     unfold bind at 1; rewrite Hdec; cbn [liftE]; unfold ret at 1;
     unfold bind at 1; unfold newWDK at 1; cbn [wdk calls];
     unfold bind at 1; unfold setWdk at 1; cbn [wdk calls];
     reflexivity).
Qed.

End Initialize.

(** X8.  [initializeWDK] on a request that passes validation, with a
    config whose networks all have wallet managers and no protocol to
    register: the instance found in the session is disposed, a new one is
    created from the decrypted seed and installed, and one wallet is
    registered on it for each network whose config is an object, in the
    order of the config; the call returns [{status: 'initialized'}]. *)
Theorem initializeWDK_installs_and_registers
    (P : Worklet.Platform) (fields : list (string * JS.json))
    (workletConfig : JS.json) (networks : list (string * JS.json))
    (seed : bytes) (s : Worklet.Session) :
  Worklet.validateRequest (Some (JS.JObj fields))
    (Worklet.initValidation P (JS.JObj fields)) "Init" = inr workletConfig ->
  JS.prop workletConfig "networks" = Some (JS.JObj networks) ->
  networks <> [] ->
  (forall protocols,
     JS.prop workletConfig "protocols" = Some protocols ->
     JS.entries protocols = []) ->
  registrable networks ->
  Worklet.decrypt P (JS.prop (JS.JObj fields) "encryptedSeed")
    (JS.prop (JS.JObj fields) "encryptionKey") = inr seed ->
  let disposed :=
    Worklet.calls s ++ match Worklet.wdk s with
                       | Some old => [Worklet.Dispose old]
                       | None => []
                       end in
  let h := length disposed in
  Worklet.initializeWDK P (Some (JS.JObj fields)) s =
  (Worklet.Returned (JS.JObj [("status", JS.JStr "initialized")]),
   Worklet.mkSession (Some h)
     (disposed ++ Worklet.New h seed :: registrations h networks)).
Proof.
  intros Hval Hnet Hne Hprot Hall Hdec disposed h.
  rewrite (Initialize.initializeWDK_reaches_registration P fields
             workletConfig networks seed s Hval Hnet Hne Hdec).
  fold disposed. fold h.
  unfold Worklet.bind at 1.
  rewrite (HandlerLoops.initWallets_ok h networks _ Hall).
  cbn [Worklet.wdk Worklet.calls]. unfold Worklet.bind at 1.
  assert (Hno : JS.truthy (JS.prop workletConfig "protocols")
                && match JS.prop workletConfig "protocols" with
                   | Some protocols =>
                       (0 <? length (JS.entries protocols))%nat
                   | None => false
                   end = false).
  { destruct (JS.prop workletConfig "protocols") as [protocols|] eqn:Hp;
      [|apply andb_false_r].
    rewrite (Hprot protocols eq_refl). apply andb_false_r. }
  rewrite Hno. unfold Worklet.ret. rewrite <- app_assoc. reflexivity.
Qed.

(** The session holds instance 0; the config names ethereum and solana,
    and carries a member that is no object, which the loop passes over. *)
Lemma initializeWDK_installs_and_registers_witness :
  Worklet.initializeWDK Scenario.platform
    (Some (JS.JObj
       [ ("config",
          JS.JStr (MiniJSON.print
            (JS.JObj [("networks",
                       JS.JObj [ ("ethereum", JS.JObj []);
                                 ("note", JS.JStr "x");
                                 ("solana", JS.JObj []) ])])));
         ("encryptionKey", JS.JStr "a2V5");
         ("encryptedSeed", JS.JStr "c2VlZA==") ]))
    (Worklet.mkSession (Some 0%nat) [Worklet.New 0 [x01]]) =
  (Worklet.Returned (JS.JObj [("status", JS.JStr "initialized")]),
   Worklet.mkSession (Some 2%nat)
     [ Worklet.New 0 [x01]; Worklet.Dispose 0;
       Worklet.New 2 (list_byte_of_string "c2VlZA==");
       Worklet.RegisterWallet 2 "ethereum" Worklet.EVMWallet (JS.JObj []);
       Worklet.RegisterWallet 2 "solana" Worklet.SolanaWallet (JS.JObj []) ]).
Proof.
  refine (initializeWDK_installs_and_registers Scenario.platform _
            (JS.JObj [("networks",
                       JS.JObj [ ("ethereum", JS.JObj []);
                                 ("note", JS.JStr "x");
                                 ("solana", JS.JObj []) ])])
            [ ("ethereum", JS.JObj []); ("note", JS.JStr "x");
              ("solana", JS.JObj []) ]
            (list_byte_of_string "c2VlZA==")
            (Worklet.mkSession (Some 0%nat) [Worklet.New 0 [x01]])
            _ _ _ _ _ _).
  - vm_compute. reflexivity.
  - reflexivity.
  - discriminate.
  - intros protocols Hp. discriminate Hp.
  - repeat constructor; cbn; intros; try discriminate.
  - reflexivity.
Defined.

(** X9.  [initializeWDK] is not atomic.  When the config names, after
    networks that can be registered, a network that has no wallet manager,
    the call throws WDK_MANAGER_INIT; by then the instance found in the
    session has been disposed, the new instance is installed, and the
    wallets of the networks before the unknown one are registered on it. *)
Theorem initializeWDK_stops_half_way
    (P : Worklet.Platform) (fields : list (string * JS.json))
    (workletConfig : JS.json) (before after : list (string * JS.json))
    (networkName : string) (config : JS.json)
    (seed : bytes) (s : Worklet.Session) :
  Worklet.validateRequest (Some (JS.JObj fields))
    (Worklet.initValidation P (JS.JObj fields)) "Init" = inr workletConfig ->
  JS.prop workletConfig "networks" =
    Some (JS.JObj (before ++ (networkName, config) :: after)) ->
  registrable before ->
  isConfig config = true ->
  Worklet.walletManagers networkName = None ->
  Worklet.decrypt P (JS.prop (JS.JObj fields) "encryptedSeed")
    (JS.prop (JS.JObj fields) "encryptionKey") = inr seed ->
  let disposed :=
    Worklet.calls s ++ match Worklet.wdk s with
                       | Some old => [Worklet.Dispose old]
                       | None => []
                       end in
  let h := length disposed in
  Worklet.initializeWDK P (Some (JS.JObj fields)) s =
  (Worklet.Thrown
     (Worklet.createErrorWithCode
        ("No wallet manager found for network: " ++ networkName)
        Worklet.WDK_MANAGER_INIT),
   Worklet.mkSession (Some h)
     (disposed ++ Worklet.New h seed :: registrations h before)).
Proof.
  intros Hval Hnet Hall Hobj Hm Hdec disposed h.
  rewrite (Initialize.initializeWDK_reaches_registration P fields
             workletConfig _ seed s Hval Hnet
             ltac:(destruct before; discriminate) Hdec).
  fold disposed. fold h.
  unfold Worklet.bind at 1.
  rewrite HandlerLoops.initWallets_app.
  rewrite (HandlerLoops.initWallets_ok h before _ Hall).
  rewrite (HandlerLoops.initWallets_stops h networkName config after _
             Hobj Hm).
  cbn [Worklet.wdk Worklet.calls]. rewrite <- app_assoc. reflexivity.
Qed.

(** No instance yet; the config names ethereum and then a network called
    bitcoin, for which there is no wallet manager. *)
Lemma initializeWDK_stops_half_way_witness :
  Worklet.initializeWDK Scenario.platform
    (Some (JS.JObj
       [ ("config",
          JS.JStr (MiniJSON.print
            (JS.JObj [("networks",
                       JS.JObj [ ("ethereum", JS.JObj []);
                                 ("bitcoin", JS.JObj []);
                                 ("solana", JS.JObj []) ])])));
         ("encryptionKey", JS.JStr "a2V5");
         ("encryptedSeed", JS.JStr "c2VlZA==") ]))
    (Worklet.mkSession None []) =
  (Worklet.Thrown
     (Worklet.createErrorWithCode
        "No wallet manager found for network: bitcoin"
        Worklet.WDK_MANAGER_INIT),
   Worklet.mkSession (Some 0%nat)
     [ Worklet.New 0 (list_byte_of_string "c2VlZA==");
       Worklet.RegisterWallet 0 "ethereum" Worklet.EVMWallet (JS.JObj []) ]).
Proof.
  refine (initializeWDK_stops_half_way Scenario.platform _
            (JS.JObj [("networks",
                       JS.JObj [ ("ethereum", JS.JObj []);
                                 ("bitcoin", JS.JObj []);
                                 ("solana", JS.JObj []) ])])
            [("ethereum", JS.JObj [])] [("solana", JS.JObj [])]
            "bitcoin" (JS.JObj [])
            (list_byte_of_string "c2VlZA==")
            (Worklet.mkSession None [])
            _ _ _ _ _ _).
  - vm_compute. reflexivity.
  - reflexivity.
  - repeat constructor; cbn; intros; try discriminate.
  - reflexivity.
  - reflexivity.
  - reflexivity.
Defined.

(** X10.  [initializeWDK] cannot register a protocol: the table
    [protocolManagers] is empty.  When the config has a [protocols] member
    with at least one entry, and the name of the first is no member of
    [Object.prototype], the call throws WDK_MANAGER_INIT for that name,
    after the new instance has been installed and every wallet of the
    config registered on it. *)
Theorem initializeWDK_cannot_register_a_protocol
    (P : Worklet.Platform) (fields : list (string * JS.json))
    (workletConfig protocols : JS.json)
    (networks more : list (string * JS.json))
    (protocolName : string) (protocolConfig : JS.json)
    (seed : bytes) (s : Worklet.Session) :
  Worklet.validateRequest (Some (JS.JObj fields))
    (Worklet.initValidation P (JS.JObj fields)) "Init" = inr workletConfig ->
  JS.prop workletConfig "networks" = Some (JS.JObj networks) ->
  networks <> [] ->
  registrable networks ->
  JS.prop workletConfig "protocols" = Some protocols ->
  JS.entries protocols = (protocolName, protocolConfig) :: more ->
  ~ In protocolName Worklet.objectPrototypeMembers ->
  Worklet.decrypt P (JS.prop (JS.JObj fields) "encryptedSeed")
    (JS.prop (JS.JObj fields) "encryptionKey") = inr seed ->
  let disposed :=
    Worklet.calls s ++ match Worklet.wdk s with
                       | Some old => [Worklet.Dispose old]
                       | None => []
                       end in
  let h := length disposed in
  Worklet.initializeWDK P (Some (JS.JObj fields)) s =
  (Worklet.Thrown
     (Worklet.createErrorWithCode
        ("No protocol manager found for protocol: " ++ protocolName)
        Worklet.WDK_MANAGER_INIT),
   Worklet.mkSession (Some h)
     (disposed ++ Worklet.New h seed :: registrations h networks)).
Proof.
  intros Hval Hnet Hne Hall Hp Hentries Hhonest Hdec disposed h.
  rewrite (Initialize.initializeWDK_reaches_registration P fields
             workletConfig networks seed s Hval Hnet Hne Hdec).
  fold disposed. fold h.
  unfold Worklet.bind at 1.
  rewrite (HandlerLoops.initWallets_ok h networks _ Hall).
  cbn [Worklet.wdk Worklet.calls]. unfold Worklet.bind at 1.
  rewrite Hp, Hentries.
  assert (Ht : JS.truthy (Some protocols) = true).
  { destruct protocols as [| | |str| |]; cbn [JS.entries] in Hentries;
      try discriminate; try reflexivity.
    destruct str; [discriminate|reflexivity]. }
  rewrite Ht. cbn [andb length Nat.ltb Nat.leb Worklet.initProtocols].
  unfold Worklet.bind at 1.
  rewrite (HandlerLoops.protocolManagers_empty protocolName Hhonest).
  unfold Worklet.throw. rewrite <- app_assoc. reflexivity.
Qed.

(** A config with one network and one protocol, USDT0. *)
Lemma initializeWDK_cannot_register_a_protocol_witness :
  Worklet.initializeWDK Scenario.platform
    (Some (JS.JObj
       [ ("config",
          JS.JStr (MiniJSON.print
            (JS.JObj [ ("networks", JS.JObj [("ethereum", JS.JObj [])]);
                       ("protocols",
                        JS.JObj [("USDT0",
                                  JS.JObj [("network",
                                            JS.JStr "ethereum")])]) ])));
         ("encryptionKey", JS.JStr "a2V5");
         ("encryptedSeed", JS.JStr "c2VlZA==") ]))
    (Worklet.mkSession None []) =
  (Worklet.Thrown
     (Worklet.createErrorWithCode
        "No protocol manager found for protocol: USDT0"
        Worklet.WDK_MANAGER_INIT),
   Worklet.mkSession (Some 0%nat)
     [ Worklet.New 0 (list_byte_of_string "c2VlZA==");
       Worklet.RegisterWallet 0 "ethereum" Worklet.EVMWallet (JS.JObj []) ]).
Proof.
  refine (initializeWDK_cannot_register_a_protocol Scenario.platform _
            (JS.JObj [ ("networks", JS.JObj [("ethereum", JS.JObj [])]);
                       ("protocols",
                        JS.JObj [("USDT0",
                                  JS.JObj [("network",
                                            JS.JStr "ethereum")])]) ])
            (JS.JObj [("USDT0", JS.JObj [("network", JS.JStr "ethereum")])])
            [("ethereum", JS.JObj [])] []
            "USDT0" (JS.JObj [("network", JS.JStr "ethereum")])
            (list_byte_of_string "c2VlZA==")
            (Worklet.mkSession None [])
            _ _ _ _ _ _ _ _).
  - vm_compute. reflexivity.
  - reflexivity.
  - discriminate.
  - repeat constructor; cbn; intros; try discriminate.
  - reflexivity.
  - reflexivity.
  - cbn. intuition discriminate.
  - reflexivity.
Defined.

(** X11.  [registerWallet] on an initialized session, with a request that
    passes validation and networks that all have wallet managers: one
    wallet is registered on the instance for each network whose config is
    an object, in the order of the config, and the result lists exactly
    those networks, as the JSON text of an array, under [blockchains];
    when no network has an object for config nothing is registered and the
    call throws BAD_REQUEST. *)
Theorem registerWallet_reports_what_it_registers
    (P : Worklet.Platform) (request workletConfig : JS.json)
    (networks : list (string * JS.json)) (h : nat)
    (trace : list Worklet.libCall) :
  request <> JS.JNull ->
  Worklet.validateRequest (Some request)
    (Worklet.bindE
       (Worklet.check
          (Worklet.validateNonEmptyString P (JS.prop request "config")
             "config"))
       (fun _ => Worklet.validateJSON P (JS.prop request "config") "config"))
    "RegisterWalletRequest" = inr workletConfig ->
  JS.prop workletConfig "networks" = Some (JS.JObj networks) ->
  registrable networks ->
  let registered :=
    map fst (filter (fun entry => isConfig (snd entry)) networks) in
  Worklet.registerWallet P (Some request) (Worklet.mkSession (Some h) trace) =
  (match registered with
   | [] =>
       Worklet.Thrown
         (Worklet.createErrorWithCode
            "no valid network configurations provided" Worklet.BAD_REQUEST)
   | _ :: _ =>
       Worklet.Returned
         (JS.JObj
            [ ("status", JS.JStr "registered");
              ("blockchains",
               JS.JStr (Worklet.JSON_stringify P
                          (JS.JArr (map JS.JStr registered)))) ])
   end,
   Worklet.mkSession (Some h) (trace ++ registrations h networks)).
Proof.
  intros Hnull Hval Hnet Hall registered.
  assert (Hwc : JS.truthy (Some workletConfig) = true /\
                JS.typeof_object (Some workletConfig) = true)
    by (destruct workletConfig; cbn [JS.prop] in Hnet; try discriminate;
        split; reflexivity).
  destruct Hwc as [Hwc1 Hwc2].
  unfold Worklet.registerWallet.
  destruct request; try contradiction;
    (unfold Worklet.bind at 1; rewrite Hval; cbn [Worklet.liftE];
     unfold Worklet.ret at 1; unfold Worklet.bind at 1;
     rewrite Hwc1, Hwc2, Hnet; cbn [JS.truthy JS.typeof_object negb orb];
     unfold Worklet.ret at 1; unfold Worklet.bind at 1;
     unfold Worklet.getWdk at 1; cbn [Worklet.wdk JS.entries];
     unfold Worklet.bind at 1;
     rewrite (HandlerLoops.registerWallets_ok h networks [] _ Hall);
     cbn [app Worklet.wdk Worklet.calls]; fold registered;
     destruct registered; reflexivity).
Qed.

(** An initialized session; the config names solana, carries a member that
    is no object, and names polygon. *)
Lemma registerWallet_reports_what_it_registers_witness :
  Worklet.registerWallet Scenario.platform
    (Some (JS.JObj
       [("config",
         JS.JStr (MiniJSON.print
           (JS.JObj [("networks",
                      JS.JObj [ ("solana", JS.JObj []);
                                ("comment", JS.JNum 1);
                                ("polygon", JS.JObj []) ])])))]))
    (Worklet.mkSession (Some 0%nat) [Worklet.New 0 [x01]]) =
  (Worklet.Returned
     (JS.JObj [ ("status", JS.JStr "registered");
                ("blockchains",
                 JS.JStr (MiniJSON.print
                            (JS.JArr [JS.JStr "solana";
                                      JS.JStr "polygon"]))) ]),
   Worklet.mkSession (Some 0%nat)
     [ Worklet.New 0 [x01];
       Worklet.RegisterWallet 0 "solana" Worklet.SolanaWallet (JS.JObj []);
       Worklet.RegisterWallet 0 "polygon" Worklet.EVMWallet (JS.JObj []) ]).
Proof.
  refine (registerWallet_reports_what_it_registers Scenario.platform _
            (JS.JObj [("networks",
                       JS.JObj [ ("solana", JS.JObj []);
                                 ("comment", JS.JNum 1);
                                 ("polygon", JS.JObj []) ])])
            [ ("solana", JS.JObj []); ("comment", JS.JNum 1);
              ("polygon", JS.JObj []) ]
            0%nat [Worklet.New 0 [x01]] _ _ _ _).
  - discriminate.
  - vm_compute. reflexivity.
  - reflexivity.
  - repeat constructor; cbn; intros; try discriminate.
Defined.

(** X12.  [registerWallet] is not atomic: when the config names, after
    networks that can be registered, a network that has no wallet manager,
    the call throws BAD_REQUEST, and the wallets of the networks before the
    unknown one stay registered. *)
Theorem registerWallet_stops_half_way
    (P : Worklet.Platform) (request workletConfig : JS.json)
    (before after : list (string * JS.json))
    (networkName : string) (config : JS.json) (h : nat)
    (trace : list Worklet.libCall) :
  request <> JS.JNull ->
  Worklet.validateRequest (Some request)
    (Worklet.bindE
       (Worklet.check
          (Worklet.validateNonEmptyString P (JS.prop request "config")
             "config"))
       (fun _ => Worklet.validateJSON P (JS.prop request "config") "config"))
    "RegisterWalletRequest" = inr workletConfig ->
  JS.prop workletConfig "networks" =
    Some (JS.JObj (before ++ (networkName, config) :: after)) ->
  registrable before ->
  isConfig config = true ->
  Worklet.walletManagers networkName = None ->
  Worklet.registerWallet P (Some request) (Worklet.mkSession (Some h) trace) =
  (Worklet.Thrown
     (Worklet.createErrorWithCode
        ("No wallet manager found for blockchain: " ++ networkName)
        Worklet.BAD_REQUEST),
   Worklet.mkSession (Some h) (trace ++ registrations h before)).
Proof.
  intros Hnull Hval Hnet Hall Hobj Hm.
  assert (Hwc : JS.truthy (Some workletConfig) = true /\
                JS.typeof_object (Some workletConfig) = true)
    by (destruct workletConfig; cbn [JS.prop] in Hnet; try discriminate;
        split; reflexivity).
  destruct Hwc as [Hwc1 Hwc2].
  unfold Worklet.registerWallet.
  destruct request; try contradiction;
    (unfold Worklet.bind at 1; rewrite Hval; cbn [Worklet.liftE];
     unfold Worklet.ret at 1; unfold Worklet.bind at 1;
     rewrite Hwc1, Hwc2, Hnet; cbn [JS.truthy JS.typeof_object negb orb];
     unfold Worklet.ret at 1; unfold Worklet.bind at 1;
     unfold Worklet.getWdk at 1; cbn [Worklet.wdk JS.entries];
     unfold Worklet.bind at 1;
     rewrite HandlerLoops.registerWallets_app;
     rewrite (HandlerLoops.registerWallets_ok h before [] _ Hall);
     cbn [Worklet.registerWallets]; rewrite Hobj, Hm;
     reflexivity).
Qed.

(** An initialized session; the config names solana and then bitcoin. *)
Lemma registerWallet_stops_half_way_witness :
  Worklet.registerWallet Scenario.platform
    (Some (JS.JObj
       [("config",
         JS.JStr (MiniJSON.print
           (JS.JObj [("networks",
                      JS.JObj [ ("solana", JS.JObj []);
                                ("bitcoin", JS.JObj []) ])])))]))
    (Worklet.mkSession (Some 0%nat) [Worklet.New 0 [x01]]) =
  (Worklet.Thrown
     (Worklet.createErrorWithCode
        "No wallet manager found for blockchain: bitcoin"
        Worklet.BAD_REQUEST),
   Worklet.mkSession (Some 0%nat)
     [ Worklet.New 0 [x01];
       Worklet.RegisterWallet 0 "solana" Worklet.SolanaWallet (JS.JObj []) ]).
Proof.
  refine (registerWallet_stops_half_way Scenario.platform _
            (JS.JObj [("networks",
                       JS.JObj [ ("solana", JS.JObj []);
                                 ("bitcoin", JS.JObj []) ])])
            [("solana", JS.JObj [])] [] "bitcoin" (JS.JObj [])
            0%nat [Worklet.New 0 [x01]] _ _ _ _ _ _).
  - discriminate.
  - vm_compute. reflexivity.
  - reflexivity.
  - repeat constructor; cbn; intros; try discriminate.
  - reflexivity.
  - reflexivity.
Defined.

(** X13.  [registerProtocol] registers nothing: the table
    [protocolManagers] is empty.  On an initialized session, when the
    config parses and no protocol name is a member of [Object.prototype],
    the call leaves the session as it was and makes no call into the
    wallet library; it throws BAD_REQUEST for the first protocol whose
    config is an object, and returns [{status: 'registered'}] only when
    there is no such protocol. *)
Theorem registerProtocol_registers_nothing
    (P : Worklet.Platform) (request parsed protocols : JS.json) (h : nat)
    (trace : list Worklet.libCall) :
  request <> JS.JNull ->
  Worklet.validateJSON P (JS.prop request "config") "config" = inr parsed ->
  JS.prop parsed "protocols" = Some protocols ->
  protocols <> JS.JNull ->
  Forall (fun entry : string * JS.json =>
            ~ In (fst entry) Worklet.objectPrototypeMembers)
    (JS.entries protocols) ->
  Worklet.registerProtocol P (Some request)
    (Worklet.mkSession (Some h) trace) =
  (match find (fun entry => isConfig (snd entry)) (JS.entries protocols) with
   | Some (protocolName, _) =>
       Worklet.Thrown
         (Worklet.createErrorWithCode
            ("No protocol manager found for protocol: " ++ protocolName)
            Worklet.BAD_REQUEST)
   | None => Worklet.Returned (JS.JObj [("status", JS.JStr "registered")])
   end,
   Worklet.mkSession (Some h) trace).
Proof.
  intros Hnull Hval Hp Hpn Hall.
  assert (Hparsed : exists members, parsed = JS.JObj members)
    by (destruct parsed; cbn [JS.prop] in Hp; try discriminate; eauto).
  destruct Hparsed as [members ->].
  unfold Worklet.registerProtocol.
  destruct request; try contradiction;
    (unfold Worklet.bind at 1; rewrite Hval; cbn [Worklet.liftE];
     unfold Worklet.ret at 1; unfold Worklet.bind at 1;
     unfold Worklet.getWdk at 1; cbn [Worklet.wdk]; rewrite Hp;
     destruct protocols; try contradiction;
     (unfold Worklet.bind at 1;
      rewrite (HandlerLoops.registerProtocols_registers_nothing P h _ _ Hall);
      match goal with
      | |- context [find ?f ?l] => destruct (find f l) as [[name cfg]|]
      end; reflexivity)).
Qed.

(** An initialized session and a config with one protocol, USDT0. *)
Lemma registerProtocol_registers_nothing_witness :
  Worklet.registerProtocol Scenario.platform
    (Some (JS.JObj
       [("config",
         JS.JStr (MiniJSON.print
           (JS.JObj [("protocols",
                      JS.JObj [("USDT0",
                                JS.JObj [("network",
                                          JS.JStr "ethereum")])])])))]))
    (Worklet.mkSession (Some 0%nat) [Worklet.New 0 [x01]]) =
  (Worklet.Thrown
     (Worklet.createErrorWithCode
        "No protocol manager found for protocol: USDT0" Worklet.BAD_REQUEST),
   Worklet.mkSession (Some 0%nat) [Worklet.New 0 [x01]]).
Proof.
  refine (registerProtocol_registers_nothing Scenario.platform _
            (JS.JObj [("protocols",
                       JS.JObj [("USDT0",
                                 JS.JObj [("network",
                                           JS.JStr "ethereum")])])])
            (JS.JObj [("USDT0", JS.JObj [("network", JS.JStr "ethereum")])])
            0%nat [Worklet.New 0 [x01]] _ _ _ _ _).
  - discriminate.
  - vm_compute. reflexivity.
  - reflexivity.
  - discriminate.
  - repeat constructor. cbn. intuition discriminate.
Defined.

(* --------------------------------------------------------------------- *)
(*  Requests that are refused before anything is done                     *)
(* --------------------------------------------------------------------- *)

(** X14.  A request that is not an object ([undefined], [null], a string,
    a number or a boolean) is refused by every handler before anything is
    done.  [initializeWDK] throws BAD_REQUEST without disposing the
    instance of the session.  The handlers that destructure their request
    first ([registerWallet], [callMethod], [splitMnemonic],
    [combineShares]) throw BAD_REQUEST "... must be an object" for a string,
    a number or a boolean, but for [null] and [undefined] they throw the
    TypeError of the destructuring, which carries no code. *)
Theorem requests_that_are_not_objects_are_refused
    {account object : Type}
    (P : Worklet.Platform) (L : RpcHandlers.Library account object)
    (request : JS.value) (s : Worklet.Session) (wdk : option nat) :
  JS.truthy request && JS.typeof_object request = false ->
  Worklet.initializeWDK P request s =
    (Worklet.Thrown
       (Worklet.createErrorWithCode "Init must be an object"
          Worklet.BAD_REQUEST), s) /\
  match request with
  | None | Some JS.JNull =>
      (exists msg,
         Worklet.registerWallet P request s =
         (Worklet.Thrown (Worklet.TypeError msg), s)) /\
      (exists msg,
         RpcHandlers.callMethod P L request wdk =
         Worklet.Thrown (Worklet.TypeError msg)) /\
      (exists msg,
         RpcHandlers.splitMnemonic L request =
         Worklet.Thrown (Worklet.TypeError msg)) /\
      (exists msg,
         RpcHandlers.combineShares L request =
         Worklet.Thrown (Worklet.TypeError msg))
  | Some _ =>
      Worklet.registerWallet P request s =
        (Worklet.Thrown
           (Worklet.createErrorWithCode
              "RegisterWalletRequest must be an object" Worklet.BAD_REQUEST),
         s) /\
      RpcHandlers.callMethod P L request wdk =
        Worklet.Thrown
          (Worklet.createErrorWithCode "Payload must be an object"
             Worklet.BAD_REQUEST) /\
      RpcHandlers.splitMnemonic L request =
        Worklet.Thrown
          (Worklet.createErrorWithCode "Request must be an object"
             Worklet.BAD_REQUEST) /\
      RpcHandlers.combineShares L request =
        Worklet.Thrown
          (Worklet.createErrorWithCode "Request must be an object"
             Worklet.BAD_REQUEST)
  end.
Proof.
  intros Hno.
  destruct request as [[|b|n|str|items|members]|];
    cbn [JS.truthy JS.typeof_object andb] in Hno;
    try (rewrite andb_true_r in Hno); try discriminate;
    (split; [reflexivity|]);
    try (split; [|split; [|split]]; eexists; reflexivity);
    unfold Worklet.registerWallet, RpcHandlers.callMethod,
      RpcHandlers.splitMnemonic, RpcHandlers.combineShares,
      Worklet.validateRequest, Worklet.bind, Worklet.liftE;
    cbn [JS.truthy JS.typeof_object negb orb];
    rewrite ?orb_true_r; try rewrite Hno; cbn [negb orb];
    (split; [|split; [|split]]; reflexivity).
Qed.

(** The request is the number 7, on a session that holds instance 0. *)
Lemma requests_that_are_not_objects_witness :
  Worklet.initializeWDK Scenario.platform (Some (JS.JNum 7))
    (Worklet.mkSession (Some 0%nat) [Worklet.New 0 [x01]]) =
  (Worklet.Thrown
     (Worklet.createErrorWithCode "Init must be an object"
        Worklet.BAD_REQUEST),
   Worklet.mkSession (Some 0%nat) [Worklet.New 0 [x01]]).
Proof.
  exact (proj1 (requests_that_are_not_objects_are_refused
                  Scenario.platform Fixture.library (Some (JS.JNum 7))
                  (Worklet.mkSession (Some 0%nat) [Worklet.New 0 [x01]])
                  None eq_refl)).
Defined.

(** X15.  The handlers that work on the instance refuse to run without
    one.  On a session that holds no instance, a [registerWallet] request
    whose config is valid, a [registerProtocol] request whose config parses
    and a [callMethod] payload that passes validation all throw
    WDK_MANAGER_INIT "WDK not initialized. Call initializeWDK first.", and
    the session stays as it was: validation comes first, the check of the
    instance second, the wallet library last. *)
Theorem handlers_need_an_instance
    {account object : Type}
    (P : Worklet.Platform) (L : RpcHandlers.Library account object)
    (walletRequest workletConfig protocolRequest parsed payload : JS.json)
    (args options : JS.json) (trace : list Worklet.libCall) :
  walletRequest <> JS.JNull ->
  Worklet.validateRequest (Some walletRequest)
    (Worklet.bindE
       (Worklet.check
          (Worklet.validateNonEmptyString P (JS.prop walletRequest "config")
             "config"))
       (fun _ =>
          Worklet.validateJSON P (JS.prop walletRequest "config") "config"))
    "RegisterWalletRequest" = inr workletConfig ->
  JS.truthy (JS.prop workletConfig "networks")
  && JS.typeof_object (JS.prop workletConfig "networks") = true ->
  protocolRequest <> JS.JNull ->
  Worklet.validateJSON P (JS.prop protocolRequest "config") "config"
    = inr parsed ->
  parsed <> JS.JNull ->
  payload <> JS.JNull ->
  Worklet.validateRequest (Some payload)
    (RpcHandlers.callValidation P L payload) "Payload"
    = inr (args, options) ->
  Worklet.registerWallet P (Some walletRequest)
    (Worklet.mkSession None trace) =
    (Worklet.Thrown
       (Worklet.createErrorWithCode
          "WDK not initialized. Call initializeWDK first."
          Worklet.WDK_MANAGER_INIT),
     Worklet.mkSession None trace) /\
  Worklet.registerProtocol P (Some protocolRequest)
    (Worklet.mkSession None trace) =
    (Worklet.Thrown
       (Worklet.createErrorWithCode
          "WDK not initialized. Call initializeWDK first."
          Worklet.WDK_MANAGER_INIT),
     Worklet.mkSession None trace) /\
  RpcHandlers.callMethod P L (Some payload) None =
    Worklet.Thrown
      (Worklet.createErrorWithCode
         "WDK not initialized. Call initializeWDK first."
         Worklet.WDK_MANAGER_INIT).
Proof.
  intros Hw Hwval Hnet Hp Hpval Hparsed Hc Hcval.
  apply andb_prop in Hnet. destruct Hnet as [Hn1 Hn2].
  assert (Hwc : JS.truthy (Some workletConfig) = true /\
                JS.typeof_object (Some workletConfig) = true).
  { destruct workletConfig; cbn [JS.prop JS.truthy] in Hn1;
      try discriminate; split; reflexivity. }
  destruct Hwc as [Hwc1 Hwc2].
  split; [|split].
  - unfold Worklet.registerWallet.
    destruct walletRequest; try contradiction;
      (unfold Worklet.bind at 1; rewrite Hwval; cbn [Worklet.liftE];
       unfold Worklet.ret at 1; unfold Worklet.bind at 1;
       rewrite Hwc1, Hwc2, Hn1, Hn2; cbn [negb orb];
       unfold Worklet.ret at 1; reflexivity).
  - unfold Worklet.registerProtocol.
    destruct protocolRequest; try contradiction;
      (unfold Worklet.bind at 1; rewrite Hpval; cbn [Worklet.liftE];
       unfold Worklet.ret at 1;
       destruct parsed; try contradiction; reflexivity).
  - unfold RpcHandlers.callMethod.
    destruct payload; try contradiction; rewrite Hcval; reflexivity.
Qed.

(** Three well-formed requests on a session that was never initialized. *)
Lemma handlers_need_an_instance_witness :
  RpcHandlers.callMethod Scenario.platform Fixture.library
    (Some (JS.JObj [ ("methodName", JS.JStr "getAddress");
                     ("network", JS.JStr "ethereum");
                     ("accountIndex", JS.JNum 0) ])) None =
  Worklet.Thrown
    (Worklet.createErrorWithCode
       "WDK not initialized. Call initializeWDK first."
       Worklet.WDK_MANAGER_INIT).
Proof.
  refine (proj2 (proj2
    (handlers_need_an_instance Scenario.platform Fixture.library
       (JS.JObj
          [("config",
            JS.JStr (MiniJSON.print
              (JS.JObj [("networks",
                         JS.JObj [("solana", JS.JObj [])])])))])
       (JS.JObj [("networks", JS.JObj [("solana", JS.JObj [])])])
       (JS.JObj
          [("config",
            JS.JStr (MiniJSON.print (JS.JObj [("protocols", JS.JObj [])])))])
       (JS.JObj [("protocols", JS.JObj [])])
       (JS.JObj [ ("methodName", JS.JStr "getAddress");
                  ("network", JS.JStr "ethereum");
                  ("accountIndex", JS.JNum 0) ])
       JS.JNull JS.JNull [] _ _ _ _ _ _ _ _))).
  - discriminate.
  - vm_compute. reflexivity.
  - reflexivity.
  - discriminate.
  - vm_compute. reflexivity.
  - discriminate.
  - discriminate.
  - reflexivity.
Defined.

(* --------------------------------------------------------------------- *)
(*  Messages the dispatcher does not take for requests                    *)
(* --------------------------------------------------------------------- *)

(** X16.  A frame whose payload is JSON but does not say [jsonrpc: '2.0']
    (another version, no such member, an array of requests, a number,
    [null]) is dropped without a word: no handler runs, nothing is written
    back, the session and the buffer are as if the frame had not been
    there. *)
Theorem messages_without_jsonrpc_2_are_dropped
    (P : Worklet.Platform) (payload : bytes) (message : JS.json)
    (w : Worklet.Worker) :
  blen payload <= UINT32_MAX ->
  Worklet.JSON_parse P (string_of_list_byte payload) = Some message ->
  JS.prop message "jsonrpc" <> Some (JS.JStr "2.0") ->
  Worklet.onMessage P payload w = w /\
  Worklet.processFramedData P (Worklet.framed payload) ([], w) = ([], w).
Proof.
  intros Hfit Hparse Hver.
  assert (Hskip : Worklet.onMessage P payload w = w).
  { unfold Worklet.onMessage.
    rewrite (WorkletEvents.received_other P payload message (w, []) Hparse
               Hver).
    reflexivity. }
  split; [exact Hskip|].
  rewrite (WorkletEvents.one_frame P payload w Hfit), Hskip. reflexivity.
Qed.

(** A batch, that is an array holding one well-formed request. *)
Lemma messages_without_jsonrpc_2_witness :
  Worklet.processFramedData Scenario.platform
    (Worklet.framed
       (list_byte_of_string
          (MiniJSON.print (JS.JArr [Scenario.request 1 "dispose" []]))))
    Scenario.idle = Scenario.idle.
Proof.
  refine (proj2 (messages_without_jsonrpc_2_are_dropped Scenario.platform
                   (list_byte_of_string
                      (MiniJSON.print
                         (JS.JArr [Scenario.request 1 "dispose" []])))
                   (JS.JArr [Scenario.request 1 "dispose" []])
                   (snd Scenario.idle) _ _ _)).
  - vm_compute. discriminate.
  - vm_compute. reflexivity.
  - discriminate.
Defined.



(* --------------------------------------------------------------------- *)
(*  One call, from the client to the handler and back                     *)
(* --------------------------------------------------------------------- *)

Module EndToEnd.
Import JS Worklet.

(** A frame that holds one JSON-RPC 2.0 message is decoded and handed to
    the dispatcher. *)
Lemma worker_dispatches P requestData request w :
  blen requestData <= UINT32_MAX ->
  JSON_parse P (string_of_list_byte requestData) = Some request ->
  prop request "jsonrpc" = Some (JStr "2.0") ->
  processFramedData P (framed requestData) ([], w) =
  ([], handleJsonRpcMessage P request w).
Proof.
  intros Hfit Hparse Hver.
  rewrite (WorkletEvents.one_frame P requestData w Hfit).
  unfold onMessage.
  rewrite (WorkletEvents.received_request P requestData request (w, [])
             Hparse Hver).
  rewrite WorkletEvents.settled_started. reflexivity.
Qed.

End EndToEnd.

(** X18.  A call end to end, when the handler returns.  The client writes
    the frame of its request; the worker, fed that frame, runs the handler
    of the method and writes one frame; when the transport delivers that
    frame the call returns the very object the handler returned.  The
    request and the response travel as JSON text: the worker has to parse
    the request as the client built it, and the client the response as the
    worker built it. *)
Theorem a_call_returns_what_the_handler_returned
    (F : Client.Runtime) (P : Worklet.Platform)
    (method : string) (params result : list (string * JS.json))
    (c : Client.State) (w : Worklet.Worker) (s' : Worklet.Session)
    (requestData rest : bytes) :
  let request :=
    JS.JObj [ ("jsonrpc", JS.JStr "2.0");
              ("id", JS.JNum (Client.requestId c + 1));
              ("method", JS.JStr method); ("params", JS.JObj params) ] in
  let envelope :=
    [ ("jsonrpc", JS.JStr "2.0"); ("id", JS.JNum (Client.requestId c + 1));
      ("result", JS.JObj result) ] in
  let answer :=
    list_byte_of_string (Worklet.JSON_stringify P (JS.JObj envelope)) in
  Client.requestId c < Client.INT_MAX ->
  Client.isWorkletStarted c = true -> Client.ipc c = true ->
  Client.data F request = Some requestData ->
  blen requestData <= UINT32_MAX ->
  Worklet.JSON_parse P (string_of_list_byte requestData) = Some request ->
  Worklet.dispatch P (Some (JS.JStr method)) (Some (JS.JObj params))
    (Worklet.session w) =
    (Worklet.Returned (Worklet.Value (JS.JObj result)), s') ->
  0 < blen answer < 10000000 ->
  Client.jsonObject F answer = Some (JS.JObj envelope) ->
  Client.stream c = Worklet.framed answer ++ rest ->
  Worklet.processFramedData P (Worklet.framed requestData) ([], w) =
    ([], Worklet.mkWorker s' (Worklet.written w ++ [Worklet.framed answer]))
  /\
  exists c',
    Client.call F method params c = (Client.Ok result, c') /\
    Client.requestId c' = Client.requestId c + 1 /\
    Client.stream c' = rest /\
    Client.outgoing c' = Client.outgoing c ++ [Worklet.framed requestData].
Proof.
  intros request envelope answer Hid Hs Hipc Hdata Hfit Hparse Hdisp Hlen
    Hback Hstream.
  split.
  - rewrite (EndToEnd.worker_dispatches P requestData request w Hfit Hparse
               eq_refl).
    unfold Worklet.handleJsonRpcMessage, Worklet.respond.
    change (JS.prop request "method") with (Some (JS.JStr method)).
    change (JS.prop request "params") with (Some (JS.JObj params)).
    cbn [JS.toStringV JS.toString]. rewrite Hdisp. reflexivity.
  - destruct (ClientCalls.call_answered F method params envelope c
                requestData answer rest Hid Hs Hipc Hdata Hfit Hstream Hlen
                Hback)
      as (c' & Hcall & Hid' & Hs' & Ho' & _).
    exists c'. split; [exact Hcall|]. split; [exact Hid'|].
    split; [exact Hs'|exact Ho'].
Qed.

(** The first call of a started client, [dispose], against an idle
    worker. *)
Lemma a_call_returns_what_the_handler_returned_witness :
  Worklet.processFramedData Scenario.platform
    (Worklet.framed
       (list_byte_of_string
          (MiniJSON.print (Scenario.request 1 "dispose" []))))
    Scenario.idle =
  ([], Worklet.mkWorker (Worklet.mkSession None [])
         [Scenario.frameOf
            (JS.JObj [ ("jsonrpc", JS.JStr "2.0"); ("id", JS.JNum 1);
                       ("result",
                        JS.JObj [("status", JS.JStr "disposed")]) ])]).
Proof.
  refine (proj1
    (a_call_returns_what_the_handler_returned Scenario.foundation
       Scenario.platform "dispose" [] [("status", JS.JStr "disposed")]
       (Client.mkState 0 true true []
          [Scenario.frameOf
             (JS.JObj [ ("jsonrpc", JS.JStr "2.0"); ("id", JS.JNum 1);
                        ("result",
                         JS.JObj [("status", JS.JStr "disposed")]) ])] [])
       (snd Scenario.idle) (Worklet.mkSession None [])
       (list_byte_of_string
          (MiniJSON.print (Scenario.request 1 "dispose" [])))
       [] _ _ _ _ _ _ _ _ _ _)).
  - reflexivity.
  - reflexivity.
  - reflexivity.
  - reflexivity.
  - vm_compute. discriminate.
  - vm_compute. reflexivity.
  - reflexivity.
  - split; vm_compute; reflexivity.
  - vm_compute. reflexivity.
  - vm_compute. reflexivity.
Defined.

(** X19.  A call end to end, when the handler throws.  Whatever a handler
    throws reaches the dispatcher as a structured error; the worker writes
    one frame, an envelope whose [error] carries the message, the code and
    the data of that structured error, and the call of the client throws
    [rpcError] with exactly that code and that message. *)
Theorem a_call_throws_what_the_handler_threw
    (F : Client.Runtime) (P : Worklet.Platform)
    (method : string) (params : list (string * JS.json))
    (structuredError : Worklet.StructuredError)
    (c : Client.State) (w : Worklet.Worker) (s' : Worklet.Session)
    (requestData rest : bytes) :
  let request :=
    JS.JObj [ ("jsonrpc", JS.JStr "2.0");
              ("id", JS.JNum (Client.requestId c + 1));
              ("method", JS.JStr method); ("params", JS.JObj params) ] in
  let envelope :=
    [ ("jsonrpc", JS.JStr "2.0"); ("id", JS.JNum (Client.requestId c + 1));
      ("error",
       JS.JObj
         (JS.literal
            [ ("message",
               Some (JS.JStr (Worklet.se_message structuredError)));
              ("code", Some (JS.JStr (Worklet.se_code structuredError)));
              ("data", Worklet.se_data structuredError) ])) ] in
  let answer :=
    list_byte_of_string (Worklet.JSON_stringify P (JS.JObj envelope)) in
  Client.requestId c < Client.INT_MAX ->
  Client.isWorkletStarted c = true -> Client.ipc c = true ->
  Client.data F request = Some requestData ->
  blen requestData <= UINT32_MAX ->
  Worklet.JSON_parse P (string_of_list_byte requestData) = Some request ->
  Worklet.dispatch P (Some (JS.JStr method)) (Some (JS.JObj params))
    (Worklet.session w) =
    (Worklet.Thrown
       (Worklet.mkError
          (Worklet.Json (Worklet.structuredJson structuredError)) None),
     s') ->
  0 < blen answer < 10000000 ->
  Client.jsonObject F answer = Some (JS.JObj envelope) ->
  Client.stream c = Worklet.framed answer ++ rest ->
  Worklet.processFramedData P (Worklet.framed requestData) ([], w) =
    ([], Worklet.mkWorker s' (Worklet.written w ++ [Worklet.framed answer]))
  /\
  exists c',
    Client.call F method params c =
      (Client.Fail
         (Client.thrown
            (Client.rpcError (Worklet.se_code structuredError)
               (Worklet.se_message structuredError))), c') /\
    Client.requestId c' = Client.requestId c + 1 /\
    Client.stream c' = rest /\
    Client.outgoing c' = Client.outgoing c ++ [Worklet.framed requestData].
Proof.
  intros request envelope answer Hid Hs Hipc Hdata Hfit Hparse Hdisp Hlen
    Hback Hstream.
  split.
  - rewrite (EndToEnd.worker_dispatches P requestData request w Hfit Hparse
               eq_refl).
    unfold Worklet.handleJsonRpcMessage, Worklet.respond.
    change (JS.prop request "method") with (Some (JS.JStr method)).
    change (JS.prop request "params") with (Some (JS.JObj params)).
    cbn [JS.toStringV JS.toString]. rewrite Hdisp. subst answer envelope.
    unfold Worklet.errorText, Worklet.writeFramed, Worklet.errorResponse,
      Worklet.structuredJson.
    cbn [Worklet.message Worklet.session Worklet.written].
    destruct (Worklet.se_data structuredError); reflexivity.
  - destruct (ClientCalls.call_answered F method params envelope c
                requestData answer rest Hid Hs Hipc Hdata Hfit Hstream Hlen
                Hback)
      as (c' & Hcall & Hid' & Hs' & Ho' & _).
    exists c'. split; [|split; [exact Hid'|split; [exact Hs'|exact Ho']]].
    rewrite Hcall. subst envelope. unfold Client.outcomeOf.
    destruct (Worklet.se_data structuredError); reflexivity.
Qed.

(** [registerWallet] called with no config, against an idle worker: the
    validator refuses the request and the client sees BAD_REQUEST. *)
Lemma a_call_throws_what_the_handler_threw_witness :
  exists c',
    Client.call Scenario.foundation "registerWallet" []
      (Client.mkState 0 true true []
         [Scenario.frameOf
            (JS.JObj [ ("jsonrpc", JS.JStr "2.0"); ("id", JS.JNum 1);
                       ("error",
                        JS.JObj [ ("message",
                                   JS.JStr "config must be a non-empty string");
                                  ("code", JS.JStr "BAD_REQUEST") ]) ])] []) =
      (Client.Fail
         (Client.thrown
            (Client.rpcError "BAD_REQUEST"
               "config must be a non-empty string")), c') /\
    Client.requestId c' = 0 + 1 /\
    Client.stream c' = [] /\
    Client.outgoing c' =
      [] ++ [Worklet.framed
               (list_byte_of_string
                  (MiniJSON.print (Scenario.request 1 "registerWallet" [])))].
Proof.
  refine (proj2
    (a_call_throws_what_the_handler_threw Scenario.foundation
       Scenario.platform "registerWallet" []
       (Worklet.mkStructured "BAD_REQUEST"
          "config must be a non-empty string" None)
       (Client.mkState 0 true true []
          [Scenario.frameOf
             (JS.JObj [ ("jsonrpc", JS.JStr "2.0"); ("id", JS.JNum 1);
                        ("error",
                         JS.JObj [ ("message",
                                    JS.JStr
                                      "config must be a non-empty string");
                                   ("code", JS.JStr "BAD_REQUEST") ]) ])] [])
       (snd Scenario.idle) (Worklet.mkSession None [])
       (list_byte_of_string
          (MiniJSON.print (Scenario.request 1 "registerWallet" [])))
       [] _ _ _ _ _ _ _ _ _ _)).
  - reflexivity.
  - reflexivity.
  - reflexivity.
  - reflexivity.
  - vm_compute. discriminate.
  - vm_compute. reflexivity.
  - reflexivity.
  - split; vm_compute; reflexivity.
  - vm_compute. reflexivity.
  - vm_compute. reflexivity.
Defined.

(* --------------------------------------------------------------------- *)
(*  callWdkMethod: options                                                *)
(* --------------------------------------------------------------------- *)





(* --------------------------------------------------------------------- *)
(*  The public methods of the client                                      *)
(* --------------------------------------------------------------------- *)

Module PublicAPI.
Import JS Client.

Lemma asStrings_strings (l : list string) :
  ClientAPI.asStrings (map JStr l) = Some l.
Proof.
  induction l as [|s l IH]; [reflexivity|].
  cbn [map ClientAPI.asStrings]. rewrite IH. reflexivity.
Qed.

End PublicAPI.

(** X22.  [getAddress] hands over an address exactly when the response
    that answers its call has no [error] object and a [result] object
    whose own [result] member is a string, and then it is that string: a
    number, an object, [null] or a missing member make it throw, never
    return a converted value. *)
Theorem getAddress_succeeds_exactly_on_a_string
    (F : Client.Runtime) (network address : string) (accountIndex : Z)
    (response : list (string * JS.json)) (c : Client.State)
    (requestData payload rest : bytes) :
  Client.requestId c < Client.INT_MAX ->
  Client.isWorkletStarted c = true -> Client.ipc c = true ->
  Client.data F
    (JS.JObj [ ("jsonrpc", JS.JStr "2.0");
               ("id", JS.JNum (Client.requestId c + 1));
               ("method", JS.JStr "callMethod");
               ("params",
                JS.JObj [ ("methodName", JS.JStr "getAddress");
                          ("network", JS.JStr network);
                          ("accountIndex", JS.JNum accountIndex) ]) ])
    = Some requestData ->
  blen requestData <= UINT32_MAX ->
  Client.stream c = Worklet.framed payload ++ rest ->
  0 < blen payload < 10000000 ->
  Client.jsonObject F payload = Some (JS.JObj response) ->
  fst (ClientAPI.getAddress F network accountIndex c) = Client.Ok address <->
  (forall error, JS.assoc "error" response <> Some (JS.JObj error)) /\
  exists result,
    JS.assoc "result" response = Some (JS.JObj result) /\
    JS.assoc "result" result = Some (JS.JStr address).
Proof.
  intros Hid Hs Hipc Hdata Hfit Hstream Hlen Hparse.
  destruct (ClientCalls.call_answered F "callMethod"
              (ClientAPI.callMethodParams "getAddress" network accountIndex
                 None None)
              response c requestData payload rest Hid Hs Hipc Hdata Hfit
              Hstream Hlen Hparse) as (c' & Hcall & _).
  unfold ClientAPI.getAddress, ClientAPI.callMethod, Client.bind.
  rewrite Hcall. unfold Client.outcomeOf. split.
  - intros H.
    destruct (JS.assoc "error" response) as [[| | | | |error]|];
      try discriminate;
      (destruct (JS.assoc "result" response) as [[| | | | |result]|];
       try discriminate;
       destruct (JS.assoc "result" result) as [[| | |a| |]|] eqn:Hinner;
       cbn [fst Client.ret Client.fail] in H; try discriminate;
       (split; [intros e; discriminate|]);
       exists result; split; [reflexivity|congruence]).
  - intros [Hne (result & Hr & Ha)]. rewrite Hr.
    destruct (JS.assoc "error" response) as [[| | | | |error]|];
      try (exfalso; eapply Hne; reflexivity);
      rewrite Ha; reflexivity.
Qed.

(** The response carries the address under [result.result]. *)
Lemma getAddress_succeeds_exactly_on_a_string_witness :
  fst (ClientAPI.getAddress Scenario.foundation "ethereum" 0
         (Client.mkState 0 true true []
            [Scenario.frameOf
               (JS.JObj [ ("jsonrpc", JS.JStr "2.0"); ("id", JS.JNum 1);
                          ("result",
                           JS.JObj [("result", JS.JStr "0xabc")]) ])] []))
  = Client.Ok "0xabc".
Proof.
  refine (proj2
    (getAddress_succeeds_exactly_on_a_string Scenario.foundation "ethereum"
       "0xabc" 0
       [ ("jsonrpc", JS.JStr "2.0"); ("id", JS.JNum 1);
         ("result", JS.JObj [("result", JS.JStr "0xabc")]) ]
       (Client.mkState 0 true true []
          [Scenario.frameOf
             (JS.JObj [ ("jsonrpc", JS.JStr "2.0"); ("id", JS.JNum 1);
                        ("result",
                         JS.JObj [("result", JS.JStr "0xabc")]) ])] [])
       (list_byte_of_string
          (MiniJSON.print
             (Scenario.request 1 "callMethod"
                [ ("methodName", JS.JStr "getAddress");
                  ("network", JS.JStr "ethereum");
                  ("accountIndex", JS.JNum 0) ])))
       (list_byte_of_string
          (MiniJSON.print
             (JS.JObj [ ("jsonrpc", JS.JStr "2.0"); ("id", JS.JNum 1);
                        ("result",
                         JS.JObj [("result", JS.JStr "0xabc")]) ])))
       [] _ _ _ _ _ _ _ _) _).
  - reflexivity.
  - reflexivity.
  - reflexivity.
  - reflexivity.
  - vm_compute. discriminate.
  - vm_compute. reflexivity.
  - split; vm_compute; reflexivity.
  - vm_compute. reflexivity.
  - split; [intros error; discriminate|].
    exists [("result", JS.JStr "0xabc")]. split; reflexivity.
Defined.

Module Register.
Import JS Worklet.

(** What [registerWallet] does on an initialized session once its request
    is validated. *)
Lemma registerWallet_run P request workletConfig networks h trace :
  request <> JNull ->
  validateRequest (Some request)
    (bindE (check (validateNonEmptyString P (prop request "config") "config"))
       (fun _ => validateJSON P (prop request "config") "config"))
    "RegisterWalletRequest" = inr workletConfig ->
  prop workletConfig "networks" = Some (JObj networks) ->
  registrable networks ->
  registerWallet P (Some request) (mkSession (Some h) trace) =
  (match map fst (filter (fun entry => isConfig (snd entry)) networks) with
   | [] =>
       Thrown (createErrorWithCode "no valid network configurations provided"
                 BAD_REQUEST)
   | _ :: _ =>
       Returned
         (JObj [ ("status", JStr "registered");
                 ("blockchains",
                  JStr (JSON_stringify P
                          (JArr (map JStr
                                   (map fst
                                      (filter
                                         (fun entry => isConfig (snd entry))
                                         networks)))))) ])
   end,
   mkSession (Some h) (trace ++ registrations h networks)).
Proof.
  intros Hnull Hval Hnet Hall.
  assert (Hwc : truthy (Some workletConfig) = true /\
                typeof_object (Some workletConfig) = true)
    by (destruct workletConfig; cbn [prop] in Hnet; try discriminate;
        split; reflexivity).
  destruct Hwc as [Hwc1 Hwc2].
  set (registered :=
         map fst (filter (fun entry => isConfig (snd entry)) networks)).
  unfold registerWallet.
  destruct request; try contradiction;
    (unfold bind at 1; rewrite Hval; cbn [liftE];
     unfold ret at 1; unfold bind at 1;
     rewrite Hwc1, Hwc2, Hnet; cbn [truthy typeof_object negb orb];
     unfold ret at 1; unfold bind at 1;
     unfold getWdk at 1; cbn [wdk entries];
     unfold bind at 1;
     rewrite (HandlerLoops.registerWallets_ok h networks [] _ Hall);
     cbn [app wdk calls]; fold registered;
     destruct registered; reflexivity).
Qed.

End Register.

(** X23.  [registerWallet] of the client, end to end.  The client sends
    its config; the worker, whose session holds an instance, validates the
    config, registers one wallet for each network whose config is an
    object and answers with their names as JSON text; the client decodes
    that text and returns exactly the names of the networks that were
    registered, in the order of the config. *)
Theorem registerWallet_returns_the_registered_networks
    (F : Client.Runtime) (P : Worklet.Platform) (config : string)
    (workletConfig : JS.json) (networks : list (string * JS.json))
    (h : nat) (trace : list Worklet.libCall) (written : list bytes)
    (c : Client.State) (requestData rest : bytes) :
  let request :=
    JS.JObj [ ("jsonrpc", JS.JStr "2.0");
              ("id", JS.JNum (Client.requestId c + 1));
              ("method", JS.JStr "registerWallet");
              ("params", JS.JObj [("config", JS.JStr config)]) ] in
  let registered :=
    map fst (filter (fun entry => isConfig (snd entry)) networks) in
  let blockchains :=
    Worklet.JSON_stringify P (JS.JArr (map JS.JStr registered)) in
  let envelope :=
    [ ("jsonrpc", JS.JStr "2.0"); ("id", JS.JNum (Client.requestId c + 1));
      ("result", JS.JObj [ ("status", JS.JStr "registered");
                           ("blockchains", JS.JStr blockchains) ]) ] in
  let answer :=
    list_byte_of_string (Worklet.JSON_stringify P (JS.JObj envelope)) in
  Client.requestId c < Client.INT_MAX ->
  Client.isWorkletStarted c = true -> Client.ipc c = true ->
  Client.data F request = Some requestData ->
  blen requestData <= UINT32_MAX ->
  Worklet.JSON_parse P (string_of_list_byte requestData) = Some request ->
  Worklet.validateRequest (Some (JS.JObj [("config", JS.JStr config)]))
    (Worklet.bindE
       (Worklet.check
          (Worklet.validateNonEmptyString P (Some (JS.JStr config)) "config"))
       (fun _ => Worklet.validateJSON P (Some (JS.JStr config)) "config"))
    "RegisterWalletRequest" = inr workletConfig ->
  JS.prop workletConfig "networks" = Some (JS.JObj networks) ->
  registrable networks ->
  registered <> [] ->
  0 < blen answer < 10000000 ->
  Client.jsonObject F answer = Some (JS.JObj envelope) ->
  Client.jsonObject F (list_byte_of_string blockchains)
    = Some (JS.JArr (map JS.JStr registered)) ->
  Client.stream c = Worklet.framed answer ++ rest ->
  Worklet.processFramedData P (Worklet.framed requestData)
    ([], Worklet.mkWorker (Worklet.mkSession (Some h) trace) written) =
    ([], Worklet.mkWorker
           (Worklet.mkSession (Some h) (trace ++ registrations h networks))
           (written ++ [Worklet.framed answer])) /\
  exists c',
    ClientAPI.registerWallet F config c = (Client.Ok registered, c') /\
    Client.stream c' = rest.
Proof.
  intros request registered blockchains envelope answer Hid Hs Hipc Hdata
    Hfit Hparse Hval Hnet Hall Hsome Hlen Hback Hnames Hstream.
  split.
  - rewrite (EndToEnd.worker_dispatches P requestData request _ Hfit Hparse
               eq_refl).
    unfold Worklet.handleJsonRpcMessage, Worklet.respond.
    change (JS.prop request "method") with (Some (JS.JStr "registerWallet")).
    change (JS.prop request "params")
      with (Some (JS.JObj [("config", JS.JStr config)])).
    change (JS.prop request "id")
      with (Some (JS.JNum (Client.requestId c + 1))).
    cbn [Worklet.session Worklet.written JS.toStringV JS.toString].
    change (Worklet.dispatch P (Some (JS.JStr "registerWallet"))
              (Some (JS.JObj [("config", JS.JStr config)])))
      with (Worklet.withErrorHandling P
              (Worklet.asResult
                 (Worklet.registerWallet P
                    (Some (JS.JObj [("config", JS.JStr config)])))) None).
    unfold Worklet.withErrorHandling, Worklet.asResult.
    unfold Worklet.bind at 1.
    rewrite (Register.registerWallet_run P
               (JS.JObj [("config", JS.JStr config)]) workletConfig networks
               h trace ltac:(discriminate) Hval Hnet Hall).
    fold registered. destruct registered as [|n ns] eqn:Hreg;
      [contradiction|].
    reflexivity.
  - destruct (ClientCalls.call_answered F "registerWallet"
                [("config", JS.JStr config)] envelope c requestData answer
                rest Hid Hs Hipc Hdata Hfit Hstream Hlen Hback)
      as (c' & Hcall & _ & Hs' & _).
    exists c'. split; [|exact Hs'].
    unfold ClientAPI.registerWallet, Client.bind. rewrite Hcall.
    subst envelope. unfold Client.outcomeOf.
    cbn [JS.assoc String.eqb Ascii.eqb Bool.eqb ClientAPI.asString].
    fold blockchains. rewrite Hnames, PublicAPI.asStrings_strings.
    reflexivity.
Qed.

(** A started client registers solana on a worker that holds instance 0. *)
Lemma registerWallet_returns_the_registered_networks_witness :
  exists c',
    ClientAPI.registerWallet Scenario.foundation
      (MiniJSON.print
         (JS.JObj [("networks", JS.JObj [("solana", JS.JObj [])])]))
      (Client.mkState 0 true true []
         [Scenario.frameOf
            (JS.JObj
               [ ("jsonrpc", JS.JStr "2.0"); ("id", JS.JNum 1);
                 ("result",
                  JS.JObj [ ("status", JS.JStr "registered");
                            ("blockchains",
                             JS.JStr (MiniJSON.print
                                        (JS.JArr [JS.JStr "solana"]))) ]) ])]
         []) = (Client.Ok ["solana"], c') /\
    Client.stream c' = [].
Proof.
  refine (proj2
    (registerWallet_returns_the_registered_networks Scenario.foundation
       Scenario.platform
       (MiniJSON.print
          (JS.JObj [("networks", JS.JObj [("solana", JS.JObj [])])]))
       (JS.JObj [("networks", JS.JObj [("solana", JS.JObj [])])])
       [("solana", JS.JObj [])] 0%nat [Worklet.New 0 [x01]] []
       (Client.mkState 0 true true []
          [Scenario.frameOf
             (JS.JObj
                [ ("jsonrpc", JS.JStr "2.0"); ("id", JS.JNum 1);
                  ("result",
                   JS.JObj [ ("status", JS.JStr "registered");
                             ("blockchains",
                              JS.JStr (MiniJSON.print
                                         (JS.JArr [JS.JStr "solana"]))) ]) ])]
          [])
       (list_byte_of_string
          (MiniJSON.print
             (Scenario.request 1 "registerWallet"
                [("config",
                  JS.JStr (MiniJSON.print
                             (JS.JObj [("networks",
                                        JS.JObj [("solana",
                                                  JS.JObj [])])])))])))
       [] _ _ _ _ _ _ _ _ _ _ _ _ _ _)).
  - reflexivity.
  - reflexivity.
  - reflexivity.
  - reflexivity.
  - vm_compute. discriminate.
  - vm_compute. reflexivity.
  - vm_compute. reflexivity.
  - reflexivity.
  - repeat constructor; cbn; intros; try discriminate.
  - discriminate.
  - split; vm_compute; reflexivity.
  - vm_compute. reflexivity.
  - vm_compute. reflexivity.
  - vm_compute. reflexivity.
Defined.

(* --------------------------------------------------------------------- *)
(*  validateRequest, and what the switch leaves out                       *)
(* --------------------------------------------------------------------- *)

(** X24.  Every error that leaves [validateRequest] carries a code: the
    refusal of a request that is no object and the errors that the
    validation function throws without a code get BAD_REQUEST, with their
    message unchanged; an error thrown with a code of its own passes
    through untouched; and when nothing is thrown the value of the
    validation function is handed on. *)
Theorem validateRequest_codes_every_error
    {A : Type} (request : JS.value) (validationFn : Worklet.jsError + A)
    (fieldName : string) :
  match Worklet.validateRequest request validationFn fieldName with
  | inl e =>
      Worklet.noCode e = false /\
      (JS.truthy request && JS.typeof_object request = false ->
       e = Worklet.createErrorWithCode (fieldName ++ " must be an object")
             Worklet.BAD_REQUEST) /\
      (JS.truthy request && JS.typeof_object request = true ->
       exists e0,
         validationFn = inl e0 /\
         Worklet.message e = Worklet.message e0 /\
         (Worklet.noCode e0 = true ->
          Worklet.code e = Some Worklet.BAD_REQUEST) /\
         (Worklet.noCode e0 = false -> e = e0))
  | inr a =>
      JS.truthy request && JS.typeof_object request = true /\
      validationFn = inr a
  end.
Proof.
  unfold Worklet.validateRequest.
  destruct (JS.truthy request) eqn:Ht;
    destruct (JS.typeof_object request) eqn:Ho; cbn [negb orb andb];
    try (split; [reflexivity|];
         split; [reflexivity|discriminate]).
  destruct validationFn as [e0|a]; [|split; reflexivity].
  destruct (Worklet.noCode e0) eqn:Hno.
  - split; [reflexivity|]. split; [discriminate|].
    intros _. exists e0. split; [reflexivity|]. split; [reflexivity|].
    split; [reflexivity|congruence].
  - split; [exact Hno|]. split; [discriminate|].
    intros _. exists e0. split; [reflexivity|]. split; [reflexivity|].
    split; [congruence|reflexivity].
Qed.

(** X25.  Unlike [initializeWDK], the handlers [registerWallet] and
    [registerProtocol] touch nothing before their request is validated:
    when the validation of the config throws, the error is thrown on and
    the session is exactly as it was, instance included. *)
Theorem siblings_validate_before_they_act
    (P : Worklet.Platform) (request : JS.json)
    (walletError protocolError : Worklet.jsError) (s : Worklet.Session) :
  request <> JS.JNull ->
  Worklet.validateRequest (Some request)
    (Worklet.bindE
       (Worklet.check
          (Worklet.validateNonEmptyString P (JS.prop request "config")
             "config"))
       (fun _ => Worklet.validateJSON P (JS.prop request "config") "config"))
    "RegisterWalletRequest" = inl walletError ->
  Worklet.validateJSON P (JS.prop request "config") "config"
    = inl protocolError ->
  Worklet.registerWallet P (Some request) s = (Worklet.Thrown walletError, s)
  /\
  Worklet.registerProtocol P (Some request) s =
    (Worklet.Thrown protocolError, s).
Proof.
  intros Hnull Hwallet Hprotocol. split.
  - unfold Worklet.registerWallet.
    destruct request; try contradiction;
      unfold Worklet.bind at 1; rewrite Hwallet; reflexivity.
  - unfold Worklet.registerProtocol.
    destruct request; try contradiction;
      unfold Worklet.bind at 1; rewrite Hprotocol; reflexivity.
Qed.

(** A config that is no JSON, on a session that holds instance 0. *)
Lemma siblings_validate_before_they_act_witness :
  Worklet.registerWallet Scenario.platform
    (Some (JS.JObj [("config", JS.JStr "{oops")]))
    (Worklet.mkSession (Some 0%nat) [Worklet.New 0 [x01]]) =
    (Worklet.Thrown
       (Worklet.mkError (Worklet.Plain "config must be valid JSON")
          (Some Worklet.BAD_REQUEST)),
     Worklet.mkSession (Some 0%nat) [Worklet.New 0 [x01]]) /\
  Worklet.registerProtocol Scenario.platform
    (Some (JS.JObj [("config", JS.JStr "{oops")]))
    (Worklet.mkSession (Some 0%nat) [Worklet.New 0 [x01]]) =
    (Worklet.Thrown (Scenario.plainError "config must be valid JSON"),
     Worklet.mkSession (Some 0%nat) [Worklet.New 0 [x01]]).
Proof.
  apply (siblings_validate_before_they_act Scenario.platform
           (JS.JObj [("config", JS.JStr "{oops")])).
  - discriminate.
  - reflexivity.
  - reflexivity.
Defined.

(** X26.  [splitMnemonic] and [combineShares] are handlers of
    rpc-handlers.js that the switch of the dispatcher does not know: a
    request that names one of them never reaches the handler.  Whatever
    its params, the worker answers with the error INTERNAL_ERROR "Unknown
    method: ..." and leaves the session as it was. *)
Theorem secret_sharing_cannot_be_called
    (P : Worklet.Platform) (message : JS.json) (method : string)
    (w : Worklet.Worker) :
  JS.prop message "method" = Some (JS.JStr method) ->
  In method ["splitMnemonic"; "combineShares"] ->
  Worklet.handleJsonRpcMessage P message w =
  Worklet.mkWorker (Worklet.session w)
    (Worklet.written w ++
     [Worklet.framed
        (list_byte_of_string
           (Worklet.JSON_stringify P
              (JS.JObj
                 (JS.literal
                    [ ("jsonrpc", Some (JS.JStr "2.0"));
                      ("id", JS.prop message "id");
                      ("error",
                       Some (JS.JObj
                               [ ("message",
                                  JS.JStr ("Unknown method: " ++ method));
                                 ("code", JS.JStr "INTERNAL_ERROR") ])) ]))))]).
Proof.
  intros Hm Hin. unfold Worklet.handleJsonRpcMessage, Worklet.respond.
  rewrite Hm. cbn [JS.toStringV JS.toString].
  rewrite (Dispatcher.dispatch_unknown P (Some (JS.JStr method)) method
             (JS.prop message "params") (Worklet.session w) eq_refl).
  - unfold Worklet.errorText, Worklet.writeFramed, Worklet.errorResponse,
      Worklet.plainErrorResponse.
    cbn [Worklet.message Worklet.code Worklet.render Worklet.session
         Worklet.written].
    cbn [In] in Hin. destruct Hin as [<-|[<-|[]]]; reflexivity.
  - intros m Heq. assert (m = method) as -> by congruence.
    cbn [In] in Hin. destruct Hin as [<-|[<-|[]]];
      cbn; intuition discriminate.
Qed.

(** A [splitMnemonic] request with well-formed params, on an idle
    worker. *)
Lemma secret_sharing_cannot_be_called_witness :
  Worklet.handleJsonRpcMessage Scenario.platform
    (Scenario.request 4 "splitMnemonic"
       [ ("mnemonic", JS.JStr "legal winner thank year wave sausage");
         ("shares", JS.JNum 5); ("threshold", JS.JNum 3) ])
    (snd Scenario.idle) =
  Worklet.mkWorker (Worklet.mkSession None [])
    [Scenario.frameOf
       (JS.JObj
          [ ("jsonrpc", JS.JStr "2.0"); ("id", JS.JNum 4);
            ("error",
             JS.JObj [ ("message", JS.JStr "Unknown method: splitMnemonic");
                       ("code", JS.JStr "INTERNAL_ERROR") ]) ])].
Proof.
  refine (secret_sharing_cannot_be_called Scenario.platform
            (Scenario.request 4 "splitMnemonic"
               [ ("mnemonic",
                  JS.JStr "legal winner thank year wave sausage");
                 ("shares", JS.JNum 5); ("threshold", JS.JNum 3) ])
            "splitMnemonic" (snd Scenario.idle) _ _).
  - reflexivity.
  - cbn. tauto.
Defined.

(** X27.  The secret-sharing handlers check one field themselves and leave
    the rest to the library.  For a request that is an object,
    [splitMnemonic] throws BAD_REQUEST "mnemonic must be a string" when the
    mnemonic is no string, whatever the other fields; when the mnemonic is
    a string and the two counts pass their validator it returns what the
    library returns, with [threshold] and [totalShares] copied from the
    request.  [combineShares] throws BAD_REQUEST "shares must be an array"
    when the shares are no array, and otherwise hands the array to the
    library as it is (it looks neither at the number of shares nor at what
    they are) and returns the library's answer, or throws its error. *)
Theorem secret_sharing_handlers_check_one_field
    {account object : Type} (L : RpcHandlers.Library account object)
    (request : JS.json) :
  JS.truthy (Some request) && JS.typeof_object (Some request) = true ->
  ((forall m, JS.prop request "mnemonic" <> Some (JS.JStr m)) ->
   RpcHandlers.splitMnemonic L (Some request) =
   Worklet.Thrown
     (Worklet.createErrorWithCode "mnemonic must be a string"
        Worklet.BAD_REQUEST)) /\
  (forall m,
     JS.prop request "mnemonic" = Some (JS.JStr m) ->
     RpcHandlers.validateNonNegativeInteger L (JS.prop request "shares")
       "shares" = None ->
     RpcHandlers.validateNonNegativeInteger L (JS.prop request "threshold")
       "threshold" = None ->
     RpcHandlers.splitMnemonic L (Some request) =
     match RpcHandlers.shamirSplit L (Some (JS.JStr m))
             (JS.prop request "shares") (JS.prop request "threshold") with
     | inl error => Worklet.Thrown error
     | inr hexShares =>
         Worklet.Returned
           (JS.JObj
              (JS.literal [ ("shares", Some hexShares);
                            ("threshold", JS.prop request "threshold");
                            ("totalShares", JS.prop request "shares") ]))
     end) /\
  ((forall items, JS.prop request "shares" <> Some (JS.JArr items)) ->
   RpcHandlers.combineShares L (Some request) =
   Worklet.Thrown
     (Worklet.createErrorWithCode "shares must be an array"
        Worklet.BAD_REQUEST)) /\
  (forall items,
     JS.prop request "shares" = Some (JS.JArr items) ->
     RpcHandlers.combineShares L (Some request) =
     match RpcHandlers.shamirCombine L (Some (JS.JArr items)) with
     | inl error => Worklet.Thrown error
     | inr mnemonic => Worklet.Returned (JS.JObj [("mnemonic", mnemonic)])
     end).
Proof.
  intros Hobj.
  assert (Hreq : request <> JS.JNull) by (intros ->; discriminate).
  assert (Hval : forall (A : Type) (fn : Worklet.jsError + A),
             Worklet.validateRequest (Some request) fn "Request" =
             match fn with
             | inl error =>
                 inl (if Worklet.noCode error
                      then Worklet.mkError (Worklet.message error)
                             (Some Worklet.BAD_REQUEST)
                      else error)
             | inr a => inr a
             end).
  { intros A fn. unfold Worklet.validateRequest.
    apply andb_prop in Hobj. destruct Hobj as [-> ->]. reflexivity. }
  split; [|split; [|split]].
  - intros Hno. unfold RpcHandlers.splitMnemonic.
    destruct request as [|rb|rn|rs|ritems|rfields]; try contradiction;
      (rewrite Hval; unfold RpcHandlers.splitValidation;
       match goal with
       | |- context [JS.prop ?r "mnemonic"] =>
           destruct (JS.prop r "mnemonic") as [[| | |m| |]|] eqn:Hm;
             try reflexivity; exfalso; exact (Hno m eq_refl)
       end).
  - intros m Hm Hshares Hthreshold. unfold RpcHandlers.splitMnemonic.
    destruct request as [|rb|rn|rs|ritems|rfields]; try contradiction;
      (rewrite Hval; unfold RpcHandlers.splitValidation;
       rewrite Hm, Hshares, Hthreshold; reflexivity).
  - intros Hno. unfold RpcHandlers.combineShares.
    destruct request as [|rb|rn|rs|ritems|rfields]; try contradiction;
      (rewrite Hval;
       match goal with
       | |- context [JS.prop ?r "shares"] =>
           destruct (JS.prop r "shares") as [[| | | |items|]|] eqn:Hs;
             try reflexivity; exfalso; exact (Hno items eq_refl)
       end).
  - intros items Hs. unfold RpcHandlers.combineShares.
    destruct request as [|rb|rn|rs|ritems|rfields]; try contradiction;
      (rewrite Hval, Hs; reflexivity).
Qed.

(** A request whose mnemonic is a number. *)
Lemma secret_sharing_handlers_witness :
  RpcHandlers.splitMnemonic Fixture.library
    (Some (JS.JObj [ ("mnemonic", JS.JNum 5); ("shares", JS.JNum 5);
                     ("threshold", JS.JNum 3) ])) =
  Worklet.Thrown
    (Worklet.createErrorWithCode "mnemonic must be a string"
       Worklet.BAD_REQUEST).
Proof.
  refine (proj1
    (secret_sharing_handlers_check_one_field Fixture.library
       (JS.JObj [ ("mnemonic", JS.JNum 5); ("shares", JS.JNum 5);
                  ("threshold", JS.JNum 3) ]) _) _).
  - reflexivity.
  - intros m. discriminate.
Defined.

(* --------------------------------------------------------------------- *)
(*  After a refused initializeWDK                                         *)
(* --------------------------------------------------------------------- *)

(** X28.  After an [initializeWDK] that was refused by its validation, the
    session goes on with the instance that call disposed: the slot still
    names it, so a [registerWallet] that follows registers its wallets on
    the disposed instance, and a [dispose] that follows disposes it a
    second time. *)
Theorem a_refused_initializeWDK_leaves_a_disposed_instance_in_use
    (P : Worklet.Platform) (fields : list (string * JS.json))
    (e : Worklet.jsError) (h : nat) (trace : list Worklet.libCall)
    (request workletConfig : JS.json) (networks : list (string * JS.json)) :
  Worklet.validateRequest (Some (JS.JObj fields))
    (Worklet.initValidation P (JS.JObj fields)) "Init" = inl e ->
  request <> JS.JNull ->
  Worklet.validateRequest (Some request)
    (Worklet.bindE
       (Worklet.check
          (Worklet.validateNonEmptyString P (JS.prop request "config")
             "config"))
       (fun _ => Worklet.validateJSON P (JS.prop request "config") "config"))
    "RegisterWalletRequest" = inr workletConfig ->
  JS.prop workletConfig "networks" = Some (JS.JObj networks) ->
  registrable networks ->
  let refused :=
    snd (Worklet.initializeWDK P (Some (JS.JObj fields))
           (Worklet.mkSession (Some h) trace)) in
  refused = Worklet.mkSession (Some h) (trace ++ [Worklet.Dispose h]) /\
  snd (Worklet.registerWallet P (Some request) refused) =
    Worklet.mkSession (Some h)
      (trace ++ Worklet.Dispose h :: registrations h networks) /\
  snd (Worklet.dispose refused) =
    Worklet.mkSession None (trace ++ [Worklet.Dispose h; Worklet.Dispose h]).
Proof.
  intros Hinit Hnull Hval Hnet Hall refused.
  assert (Hrefused :
            refused = Worklet.mkSession (Some h) (trace ++ [Worklet.Dispose h])).
  { subst refused.
    unfold Worklet.initializeWDK, Worklet.bind, Worklet.getWdk, Worklet.lib.
    cbn [Worklet.wdk Worklet.calls]. rewrite Hinit. reflexivity. }
  split; [exact Hrefused|]. rewrite Hrefused. split.
  - rewrite (Register.registerWallet_run P request workletConfig networks h
               _ Hnull Hval Hnet Hall).
    cbn [snd]. rewrite <- app_assoc. reflexivity.
  - unfold Worklet.dispose, Worklet.bind, Worklet.getWdk, Worklet.lib,
      Worklet.setWdk, Worklet.ret.
    cbn [Worklet.wdk Worklet.calls snd]. rewrite <- app_assoc. reflexivity.
Qed.

(** The session holds instance 0; [initializeWDK] is called without its
    keys, then [registerWallet] with solana. *)
Lemma a_refused_initializeWDK_witness :
  snd (Worklet.registerWallet Scenario.platform
         (Some (JS.JObj
            [("config",
              JS.JStr (MiniJSON.print
                (JS.JObj [("networks",
                           JS.JObj [("solana", JS.JObj [])])])))]))
         (snd (Worklet.initializeWDK Scenario.platform
                 (Some (JS.JObj
                    [("config",
                      JS.JStr (MiniJSON.print
                        (JS.JObj [("networks",
                                   JS.JObj [("ethereum", JS.JObj [])])])))]))
                 (Worklet.mkSession (Some 0%nat) [Worklet.New 0 [x01]])))) =
  Worklet.mkSession (Some 0%nat)
    [ Worklet.New 0 [x01]; Worklet.Dispose 0;
      Worklet.RegisterWallet 0 "solana" Worklet.SolanaWallet (JS.JObj []) ].
Proof.
  refine (proj1 (proj2
    (a_refused_initializeWDK_leaves_a_disposed_instance_in_use
       Scenario.platform
       [("config",
         JS.JStr (MiniJSON.print
           (JS.JObj [("networks", JS.JObj [("ethereum", JS.JObj [])])])))]
       (Worklet.createErrorWithCode
          "(encryptionKey + encryptedSeed) must be provided"
          Worklet.BAD_REQUEST)
       0%nat [Worklet.New 0 [x01]]
       (JS.JObj
          [("config",
            JS.JStr (MiniJSON.print
              (JS.JObj [("networks", JS.JObj [("solana", JS.JObj [])])])))])
       (JS.JObj [("networks", JS.JObj [("solana", JS.JObj [])])])
       [("solana", JS.JObj [])] _ _ _ _ _))).
  - vm_compute. reflexivity.
  - discriminate.
  - vm_compute. reflexivity.
  - reflexivity.
  - repeat constructor; cbn; intros; try discriminate.
Defined.

(* --------------------------------------------------------------------- *)
(*  The public methods are one call each                                  *)
(* --------------------------------------------------------------------- *)

Module OneCall.
Import JS Client.

(** A call followed by a decoding step that only returns or throws. *)
Lemma decoded {A B : Type} (m : Swift A) (decode : A -> Swift B) c :
  (forall a c0, snd (decode a c0) = c0) ->
  snd ((x <- m ;; decode x) c) = snd (m c) /\
  (forall f, fst (m c) = Fail f -> fst ((x <- m ;; decode x) c) = Fail f).
Proof.
  intros Hpure. unfold bind.
  destruct (m c) as [[a|f] c']; cbn [fst snd].
  - split; [apply Hpure|discriminate].
  - split; [reflexivity|intros f0 H; inversion H; reflexivity].
Qed.

End OneCall.

(** X29.  Each public method of the client is exactly one call: it leaves
    the client in the state in which its call left it (one id taken, one
    frame written, one frame read, nothing more), and when the call fails,
    with an [rpcError] of the worklet, an [ipcError] or otherwise, the
    method fails with that same failure. *)
Theorem public_methods_are_one_call_each
    (F : Client.Runtime) (c : Client.State)
    (wordCount accountIndex : Z)
    (encryptedEntropy encryptionKey encryptedSeed mnemonic config
     methodName network : string) (args options : option string) :
  let same {A B : Type} (method : Client.Swift A)
        (request : Client.Swift B) : Prop :=
    snd (method c) = snd (request c) /\
    (forall f, fst (request c) = Client.Fail f ->
               fst (method c) = Client.Fail f) in
  same (ClientAPI.workletStart F) (Client.call F "workletStart" []) /\
  same (ClientAPI.generateEntropyAndEncrypt F wordCount)
       (Client.call F "generateEntropyAndEncrypt"
          [("wordCount", JS.JNum wordCount)]) /\
  same (ClientAPI.getMnemonicFromEntropy F encryptedEntropy encryptionKey)
       (Client.call F "getMnemonicFromEntropy"
          [ ("encryptedEntropy", JS.JStr encryptedEntropy);
            ("encryptionKey", JS.JStr encryptionKey) ]) /\
  same (ClientAPI.getSeedAndEntropyFromMnemonic F mnemonic)
       (Client.call F "getSeedAndEntropyFromMnemonic"
          [("mnemonic", JS.JStr mnemonic)]) /\
  same (ClientAPI.initializeWDK F encryptionKey encryptedSeed config)
       (Client.call F "initializeWDK"
          [ ("encryptionKey", JS.JStr encryptionKey);
            ("encryptedSeed", JS.JStr encryptedSeed);
            ("config", JS.JStr config) ]) /\
  same (ClientAPI.callMethod F methodName network accountIndex args options)
       (Client.call F "callMethod"
          (ClientAPI.callMethodParams methodName network accountIndex args
             options)) /\
  same (ClientAPI.registerWallet F config)
       (Client.call F "registerWallet" [("config", JS.JStr config)]) /\
  same (ClientAPI.registerProtocol F config)
       (Client.call F "registerProtocol" [("config", JS.JStr config)]) /\
  same (ClientAPI.dispose F) (Client.call F "dispose" []) /\
  same (ClientAPI.getAddress F network accountIndex)
       (Client.call F "callMethod"
          [ ("methodName", JS.JStr "getAddress");
            ("network", JS.JStr network);
            ("accountIndex", JS.JNum accountIndex) ]) /\
  same (ClientAPI.getBalance F network accountIndex)
       (Client.call F "callMethod"
          [ ("methodName", JS.JStr "getBalance");
            ("network", JS.JStr network);
            ("accountIndex", JS.JNum accountIndex) ]).
Proof.
  intros same. subst same. cbv beta.
  repeat match goal with |- _ /\ _ => split end;
    try (apply OneCall.decoded; intros a c0;
         repeat match goal with
         | |- context [match ?x with _ => _ end] => destruct x
         end; reflexivity).
  - unfold ClientAPI.getAddress, ClientAPI.callMethod, Client.bind.
    change (ClientAPI.callMethodParams "getAddress" network accountIndex
              None None)
      with [ ("methodName", JS.JStr "getAddress");
             ("network", JS.JStr network);
             ("accountIndex", JS.JNum accountIndex) ].
    destruct (Client.call F "callMethod" _ c) as [[r|f] c']; cbn [fst snd];
      [|reflexivity].
    destruct (JS.assoc "result" r) as [[]|]; reflexivity.
  - unfold ClientAPI.getAddress, ClientAPI.callMethod, Client.bind.
    change (ClientAPI.callMethodParams "getAddress" network accountIndex
              None None)
      with [ ("methodName", JS.JStr "getAddress");
             ("network", JS.JStr network);
             ("accountIndex", JS.JNum accountIndex) ].
    intros f Hf.
    destruct (Client.call F "callMethod" _ c) as [[r|f'] c'];
      cbn [fst snd] in *; [discriminate|inversion Hf; reflexivity].
  - unfold ClientAPI.getBalance, ClientAPI.callMethod, Client.bind.
    change (ClientAPI.callMethodParams "getBalance" network accountIndex
              None None)
      with [ ("methodName", JS.JStr "getBalance");
             ("network", JS.JStr network);
             ("accountIndex", JS.JNum accountIndex) ].
    destruct (Client.call F "callMethod" _ c) as [[r|f] c']; cbn [fst snd];
      [|reflexivity].
    destruct (JS.assoc "result" r) as [[]|]; reflexivity.
  - unfold ClientAPI.getBalance, ClientAPI.callMethod, Client.bind.
    change (ClientAPI.callMethodParams "getBalance" network accountIndex
              None None)
      with [ ("methodName", JS.JStr "getBalance");
             ("network", JS.JStr network);
             ("accountIndex", JS.JNum accountIndex) ].
    intros f Hf.
    destruct (Client.call F "callMethod" _ c) as [[r|f'] c'];
      cbn [fst snd] in *; [discriminate|inversion Hf; reflexivity].
Qed.

(* --------------------------------------------------------------------- *)
(*  A method that cannot be printed                                       *)
(* --------------------------------------------------------------------- *)

(** X30.  A message whose method cannot be printed gets no response.  The
    log lines of [handleJsonRpcMessage] print the method.  For a method
    that is an object with a member named toString, or an array that holds
    such an object, the conversion throws: in the [try], before the switch
    is reached, and again in the [catch], before the error response is
    built.  The call rejects: no handler runs and nothing is written,
    whatever the id, and the worker goes on with the bytes that follow. *)
Theorem a_method_that_cannot_be_printed_gets_no_response
    (P : Worklet.Platform) (payload rest : bytes) (message : JS.json)
    (w : Worklet.Worker) :
  blen payload <= UINT32_MAX ->
  Worklet.JSON_parse P (string_of_list_byte payload) = Some message ->
  JS.toStringV (Worklet.Number_toString P) (JS.prop message "method") =
    None ->
  Worklet.handleJsonRpcMessage P message w = w /\
  Worklet.onMessage P payload w = w /\
  Worklet.processFramedData P (Worklet.framed payload ++ rest) ([], w) =
  Worklet.processFramedData P rest ([], w).
Proof.
  intros Hfit Hparse Hname. split; [|split].
  - unfold Worklet.handleJsonRpcMessage.
    rewrite (Dispatcher.respond_none P message _ Hname). reflexivity.
  - unfold Worklet.onMessage.
    rewrite (WorkletEvents.received_unprintable P payload message (w, [])
               Hparse Hname).
    reflexivity.
  - unfold Worklet.processFramedData, Worklet.feed. cbn [fst snd app].
    rewrite (WorkletFraming.frameLoop_Some (Worklet.received P)
               (Worklet.framed payload ++ rest) (w, []) payload rest)
      by (apply WorkletFraming.nextFrame_framed; exact Hfit).
    rewrite (WorkletEvents.received_unprintable P payload message (w, [])
               Hparse Hname).
    reflexivity.
Qed.

(** A request with id 1 whose method is the object {toString: 1}, followed
    by a [dispose] request: only the second is answered. *)
Lemma a_method_that_cannot_be_printed_witness :
  Worklet.processFramedData Scenario.platform
    (Scenario.frameOf
       (JS.JObj [ ("jsonrpc", JS.JStr "2.0"); ("id", JS.JNum 1);
                  ("method", JS.JObj [("toString", JS.JNum 1)]) ]) ++
     Scenario.frameOf (Scenario.request 2 "dispose" [])) Scenario.idle =
  ([], Worklet.mkWorker (Worklet.mkSession None [])
         [Scenario.frameOf
            (JS.JObj [ ("jsonrpc", JS.JStr "2.0"); ("id", JS.JNum 2);
                       ("result",
                        JS.JObj [("status", JS.JStr "disposed")]) ])]).
Proof.
  refine (eq_trans
            (proj2 (proj2
               (a_method_that_cannot_be_printed_gets_no_response
                  Scenario.platform
                  (list_byte_of_string
                     (MiniJSON.print
                        (JS.JObj
                           [ ("jsonrpc", JS.JStr "2.0"); ("id", JS.JNum 1);
                             ("method",
                              JS.JObj [("toString", JS.JNum 1)]) ])))
                  (Scenario.frameOf (Scenario.request 2 "dispose" []))
                  (JS.JObj [ ("jsonrpc", JS.JStr "2.0"); ("id", JS.JNum 1);
                             ("method", JS.JObj [("toString", JS.JNum 1)]) ])
                  (snd Scenario.idle) _ _ _))) _).
  - cbv; discriminate.
  - vm_compute. reflexivity.
  - reflexivity.
  - vm_compute. reflexivity.
Defined.
